(** * xk6-fasthttp: error classification, deferred metric dispatch,
      trail samples, pooled request set-up and status checks

    A shallow embedding of the Go packages [errors], [tracer], [metrics]
    and of the module files [client.go], [request.go] and [check.go],
    followed by the properties stated about them. *)

From Stdlib Require Import ZArith Ascii String List Lia QArith DecimalString HexadecimalString.
From stdpp Require Import base option strings gmap list.

Set Warnings "-register-all".
Open Scope Z_scope.

(** ** Machine integers and formatting *)

(** [uint32(x)]: conversion to a 32-bit unsigned integer. *)
Definition uint32 (z : Z) : Z := z mod 2 ^ 32.

(** A Go [int] (64 bits wide here) after an arithmetic operation. *)
Definition int64 (z : Z) : Z := (z + 2 ^ 63) mod 2 ^ 64 - 2 ^ 63.

(** [strconv.Itoa], and [%d] of [fmt.Sprintf]. *)
Definition Itoa (z : Z) : string := DecimalString.NilZero.string_of_int (Z.to_int z).

(** [strconv.FormatBool]. *)
Definition FormatBool (b : bool) : string := if b then "true" else "false".

(** ** Package errors (error_codes.go) *)

Module Errors.

(** [type ErrCode uint32]. *)
Definition ErrCode := Z.

Definition defaultErrorCode : ErrCode := 1000.
Definition defaultNetNonTCPErrorCode : ErrCode := 1010.
Definition invalidURLErrorCode : ErrCode := 1020.
Definition requestTimeoutErrorCode : ErrCode := 1050.
Definition defaultDNSErrorCode : ErrCode := 1100.
Definition dnsNoSuchHostErrorCode : ErrCode := 1101.
Definition blackListedIPErrorCode : ErrCode := 1110.
Definition blockedHostnameErrorCode : ErrCode := 1111.
Definition defaultTCPErrorCode : ErrCode := 1200.
Definition tcpBrokenPipeErrorCode : ErrCode := 1201.
Definition netUnknownErrnoErrorCode : ErrCode := 1202.
Definition tcpDialErrorCode : ErrCode := 1210.
Definition tcpDialTimeoutErrorCode : ErrCode := 1211.
Definition tcpDialRefusedErrorCode : ErrCode := 1212.
Definition tcpDialUnknownErrnoCode : ErrCode := 1213.
Definition tcpResetByPeerErrorCode : ErrCode := 1220.
Definition defaultTLSErrorCode : ErrCode := 1300.
Definition tlsHeaderErrorCode : ErrCode := 1301.
Definition x509UnknownAuthorityErrorCode : ErrCode := 1310.
Definition x509HostnameErrorCode : ErrCode := 1311.
Definition unknownHTTP2GoAwayErrorCode : ErrCode := 1610.
Definition unknownHTTP2StreamErrorCode : ErrCode := 1630.
Definition unknownHTTP2ConnectionErrorCode : ErrCode := 1650.
Definition responseDecompressionErrorCode : ErrCode := 1701.

Definition tcpResetByPeerErrorCodeMsg (op : string) : string :=
  op +:+ ": connection reset by peer".
Definition tcpDialTimeoutErrorCodeMsg : string := "dial: i/o timeout".
Definition tcpDialRefusedErrorCodeMsg : string := "dial: connection refused".
Definition tcpBrokenPipeErrorCodeMsg (op : string) : string :=
  op +:+ ": broken pipe".
Definition netUnknownErrnoErrorCodeMsg (op : string) (errno : Z) (os msg : string) : string :=
  op +:+ ": unknown errno `" +:+ Itoa errno +:+ "` on " +:+ os
     +:+ " with message `" +:+ msg +:+ "`".
Definition dnsNoSuchHostErrorCodeMsg : string := "lookup: no such host".
Definition blackListedIPErrorCodeMsg : string := "ip is blacklisted".
Definition blockedHostnameErrorMsg : string := "hostname is blocked".
Definition http2GoAwayErrorCodeMsg (code : string) : string :=
  "http2: received GoAway with http2 ErrCode " +:+ code.
Definition http2StreamErrorCodeMsg (code : string) : string :=
  "http2: stream error with http2 ErrCode " +:+ code.
Definition http2ConnectionErrorCodeMsg (code : string) : string :=
  "http2: connection error with http2 ErrCode " +:+ code.
Definition x509HostnameErrorCodeMsg : string := "x509: certificate doesn't match hostname".
Definition x509UnknownAuthority : string := "x509: unknown authority".
Definition requestTimeoutErrorCodeMsg : string := "request timeout".
Definition invalidURLErrorCodeMsg : string := "invalid URL".

(** What the classifier takes from the Go runtime and from the libraries
    it imports: the platform name, the [syscall] error numbers it compares
    with, the text of an error number, and the name [http2.ErrCode.String]
    gives a protocol code. *)
Class Runtime := {
  GOOS : string;
  ECONNRESET : Z;
  EPIPE : Z;
  ECONNREFUSED : Z;
  WSAECONNRESET : Z;
  ErrnoError : Z -> string;
  http2ErrCodeString : Z -> string
}.

(** [http2.ErrCodeHTTP11Required], the last protocol code with a name. *)
Definition ErrCodeHTTP11Required : Z := 13.

(** Go [error] values, by the dynamic types the classifier tells apart.
    A value is never nil (neither the nil interface nor a nil pointer),
    and the cause held by a [*net.OpError], [*os.SyscallError] or
    [*url.Error] is never nil either, as the libraries build them;
    [OtherError] stands for every type the type switch does not name,
    with the result of [errors.Unwrap] on it ([None] when the type has no
    [Unwrap] method or it returns nil). [text] is what the value's own
    [Error] method returns, for the types whose [Error] method belongs
    to a library. *)
Inductive error : Type :=
  | K6Error (Code : ErrCode) (Message : string) (OriginalError : option error)
  | DNSError (Err : string) (text : string)
  | BlackListedIPError (text : string)
  | BlockedHostError (text : string)
  | GoAwayError (code : Z) (text : string)
  | StreamError (Code : Z) (text : string)
  | ConnectionError (code : Z) (text : string)
  | OpError (Op Net : string) (Err : error) (text : string)
  | SyscallError (Syscall : string) (Err : error) (text : string)
  | Errno (errno : Z)
  | UnknownAuthorityError (text : string)
  | HostnameError (text : string)
  | RecordHeaderError (text : string)
  | URLError (Op URL : string) (Err : error) (text : string)
  | OtherError (text : string) (unwrap : option error).

(** [NewK6Error]. *)
Definition NewK6Error (code : ErrCode) (msg : string) (originalErr : option error) : error :=
  K6Error code msg originalErr.

Section Classifier.
Context `{Runtime}.

(** [err.Error()]; for [K6Error] it is the method of error_codes.go. *)
Definition Error (err : error) : string :=
  match err with
  | K6Error _ Message _ => Message
  | Errno n => ErrnoError n
  | DNSError _ text | BlackListedIPError text | BlockedHostError text
  | GoAwayError _ text | StreamError _ text | ConnectionError _ text
  | OpError _ _ _ text | SyscallError _ _ text
  | UnknownAuthorityError text | HostnameError text | RecordHeaderError text
  | URLError _ _ _ text | OtherError text _ => text
  end.

(** [errors.Unwrap(err)]: the [Unwrap] method of the types that have one. *)
Definition Unwrap (err : error) : option error :=
  match err with
  | K6Error _ _ OriginalError => OriginalError
  | OpError _ _ Err _ | SyscallError _ Err _ | URLError _ _ Err _ => Some Err
  | OtherError _ unwrap => unwrap
  | _ => None
  end.

(** Comparison of an error interface with a [syscall.Errno] constant. *)
Definition isErrno (err : error) (c : Z) : bool :=
  match err with
  | Errno n => Z.eqb n c
  | _ => false
  end.

Definition http2ErrCodeOffset (code : Z) : ErrCode :=
  if Z.ltb ErrCodeHTTP11Required code then 0 else uint32 (1 + code).

(** [getOSSyscallErrorCode(e, se)], with [e.Op] and [se.Unwrap()]. *)
Definition getOSSyscallErrorCode (Op : string) (seErr : error) : ErrCode * string :=
  if isErrno seErr WSAECONNRESET
  then (tcpResetByPeerErrorCode, tcpResetByPeerErrorCodeMsg Op)
  else (0, "").

(** First block of [errorCodeForNetOpError]: [err.Err] is an
    [*os.SyscallError]. [None] when the block falls through. *)
Definition netOpSyscallCase (Op : string) (Err : error) : option (ErrCode * string) :=
  match Err with
  | SyscallError _ sErr _ =>
      if isErrno sErr ECONNRESET
      then Some (tcpResetByPeerErrorCode, tcpResetByPeerErrorCodeMsg Op)
      else if isErrno sErr EPIPE
      then Some (tcpBrokenPipeErrorCode, tcpBrokenPipeErrorCodeMsg Op)
      else
        let '(code, msg) := getOSSyscallErrorCode Op sErr in
        if negb (Z.eqb code 0) then Some (code, msg) else None
  | _ => None
  end.

(** Third block: a dial whose cause is a [*os.SyscallError] holding an
    error number. *)
Definition netOpDialErrnoCase (Err : error) : option (ErrCode * string) :=
  match Err with
  | SyscallError _ (Errno errno) _ =>
      if Z.eqb errno ECONNREFUSED
         || (Z.eqb errno 10061 && String.eqb GOOS "windows")
      then Some (tcpDialRefusedErrorCode, tcpDialRefusedErrorCodeMsg)
      else Some (tcpDialUnknownErrnoCode,
                 "dial: unknown errno " +:+ Itoa errno
                   +:+ " error with msg `" +:+ ErrnoError errno +:+ "`")
  | _ => None
  end.

(** [errorCodeForNetOpError(err)] for [err = &net.OpError{Op, Net, Err}];
    [classify] is the call back into [ErrorCodeForError]. *)
Definition errorCodeForNetOpError (classify : error -> ErrCode * string)
    (Op Net : string) (Err : error) (text : string) : ErrCode * string :=
  if negb (String.eqb Net "tcp") && negb (String.eqb Net "tcp6")
  then (defaultNetNonTCPErrorCode, text)
  else
    match netOpSyscallCase Op Err with
    | Some r => r
    | None =>
        if negb (String.eqb Op "dial")
        then
          match Err with
          | Errno inErr =>
              (netUnknownErrnoErrorCode,
               netUnknownErrnoErrorCodeMsg Op inErr GOOS (ErrnoError inErr))
          | _ => (defaultTCPErrorCode, text)
          end
        else
          match netOpDialErrnoCase Err with
          | Some r => r
          | None =>
              let '(errCodeForWrapped, errForWrapped) := classify Err in
              if negb (Z.eqb errCodeForWrapped defaultErrorCode)
              then (errCodeForWrapped, errForWrapped)
              else (tcpDialErrorCode, text)
          end
    end.

Fixpoint ErrorCodeForError (err : error) : ErrCode * string :=
  match err with
  | K6Error Code Message _ => (Code, Message)
  | DNSError Err text =>
      if String.eqb Err "no such host"
      then (dnsNoSuchHostErrorCode, dnsNoSuchHostErrorCodeMsg)
      else (defaultDNSErrorCode, text)
  | BlackListedIPError _ => (blackListedIPErrorCode, blackListedIPErrorCodeMsg)
  | BlockedHostError _ => (blockedHostnameErrorCode, blockedHostnameErrorMsg)
  | GoAwayError code _ =>
      (uint32 (unknownHTTP2GoAwayErrorCode + http2ErrCodeOffset code),
       http2GoAwayErrorCodeMsg (http2ErrCodeString code))
  | StreamError code _ =>
      (uint32 (unknownHTTP2StreamErrorCode + http2ErrCodeOffset code),
       http2StreamErrorCodeMsg (http2ErrCodeString code))
  | ConnectionError code _ =>
      (uint32 (unknownHTTP2ConnectionErrorCode + http2ErrCodeOffset code),
       http2ConnectionErrorCodeMsg (http2ErrCodeString code))
  | OpError Op Net Err text =>
      errorCodeForNetOpError ErrorCodeForError Op Net Err text
  | UnknownAuthorityError _ => (x509UnknownAuthorityErrorCode, x509UnknownAuthority)
  | HostnameError _ => (x509HostnameErrorCode, x509HostnameErrorCodeMsg)
  | RecordHeaderError text => (tlsHeaderErrorCode, text)
  | URLError _ _ Err _ => ErrorCodeForError Err
  | SyscallError _ Err _ => ErrorCodeForError Err
  | Errno n => (defaultErrorCode, ErrnoError n)
  | OtherError text (Some wrappedErr) => ErrorCodeForError wrappedErr
  | OtherError text None => (defaultErrorCode, text)
  end.

(** The types whose case of the type switch is a direct return: the
    classifier never looks at what such an error wraps. *)
Definition recognized (err : error) : bool :=
  match err with
  | K6Error _ _ _ | DNSError _ _ | BlackListedIPError _ | BlockedHostError _
  | GoAwayError _ _ | StreamError _ _ | ConnectionError _ _ | OpError _ _ _ _
  | UnknownAuthorityError _ | HostnameError _ | RecordHeaderError _ => true
  | _ => false
  end.

(** A transparent wrapper of [cause]: a [*url.Error] holding [cause], or
    an error of a type the switch does not name whose [Unwrap] gives
    [cause]. *)
Definition transparent_wrapper (outer cause : error) : Prop :=
  recognized outer = false /\ Unwrap outer = Some cause.

(** Chains of transparent layers, of any length. *)
Inductive wraps : error -> error -> Prop :=
  | wraps_here (e : error) : wraps e e
  | wraps_layer (outer mid cause : error) :
      transparent_wrapper outer mid -> wraps mid cause -> wraps outer cause.

End Classifier.

End Errors.

(** ** The k6 metrics library (go.k6.io/k6/metrics and lib), as far as
    the repository uses it *)

Module K6.

(** The system tags the repository names. *)
Inductive SystemTag : Type :=
  | TagName | TagURL | TagMethod | TagStatus | TagError | TagErrorCode
  | TagExpectedResponse | TagIP | TagCheck.

(** [SystemTag.String]. *)
Definition TagString (tag : SystemTag) : string :=
  match tag with
  | TagName => "name"
  | TagURL => "url"
  | TagMethod => "method"
  | TagStatus => "status"
  | TagError => "error"
  | TagErrorCode => "error_code"
  | TagExpectedResponse => "expected_response"
  | TagIP => "ip"
  | TagCheck => "check"
  end.

(** [SystemTagSet] with its [Has] method. *)
Definition SystemTagSet : Type := SystemTag -> bool.
Definition Has (ts : SystemTagSet) (tag : SystemTag) : bool := ts tag.

Record TagsAndMeta : Type := {
  tm_Tags : gmap string string;
  tm_Metadata : gmap string string
}.

(** [TagsAndMeta.Clone]: tag sets are immutable values. *)
Definition Clone (tm : TagsAndMeta) : TagsAndMeta := tm.

(** [TagsAndMeta.SetSystemTagOrMeta]; every tag named above is an indexed
    one, so its value is stored among the tags. *)
Definition SetSystemTagOrMeta (tag : SystemTag) (value : string) (tm : TagsAndMeta)
    : TagsAndMeta :=
  {| tm_Tags := <[TagString tag := value]> (tm_Tags tm);
     tm_Metadata := tm_Metadata tm |}.

(** [TagsAndMeta.SetSystemTagOrMetaIfEnabled]. *)
Definition SetSystemTagOrMetaIfEnabled (enabledSystemTags : SystemTagSet)
    (tag : SystemTag) (value : string) (tm : TagsAndMeta) : TagsAndMeta :=
  if Has enabledSystemTags tag then SetSystemTagOrMeta tag value tm else tm.

Record TimeSeries : Type := {
  ts_Metric : string;
  ts_Tags : gmap string string
}.

(** A sample; [s_Value] is a [float64] in Go, a rational here. *)
Record Sample : Type := {
  s_TimeSeries : TimeSeries;
  s_Time : Z;
  s_Metadata : gmap string string;
  s_Value : Q
}.

(** The built-in metrics, by name. *)
Record BuiltinMetrics : Type := {
  HTTPReqs : string;
  HTTPReqDuration : string;
  HTTPReqFailed : string;
  Checks : string
}.

(** [metrics.D]: a duration in nanoseconds as milliseconds. *)
Definition D (d : Z) : Q := (inject_Z d / inject_Z 1000000)%Q.

(** A [context.Context], by whether it is done when it is looked at. *)
Record Context : Type := { Done : bool }.

(** [netext.TLSInfo]. *)
Record TLSInfo : Type := { Protocol : string; CipherSuite : string }.

(** [lib.Check]: a named check with its counters. *)
Record Check : Type := { Name : string; Passes : Z; Fails : Z }.

(** [lib.State]: the enabled system tags of the options, the built-in
    metrics, the current tags of the VU and the checks of its group; the
    logger and the sample channel are effects, recorded where they are
    used. *)
Record State : Type := {
  SystemTags : SystemTagSet;
  BuiltinMetricsOf : BuiltinMetrics;
  CurrentTags : TagsAndMeta;
  Group : gmap string Check
}.

End K6.

(** ** Package tracer (tracer.go) *)

Module Tracer.
Import K6.

(** [null.Bool]. *)
Record NullBool : Type := { Bool : bool; Valid : bool }.

Record Trail : Type := {
  EndTime : Z;
  ConnDuration : Z;
  Duration : Z;
  ConnRemoteAddr : option string;
  Failed : NullBool;
  Tags : option (gmap string string);
  Metadata : gmap string string;
  Samples : list Sample
}.

(** [&tracer.Trail{Duration: d}], every other field at its zero value. *)
Definition newTrail (d : Z) : Trail :=
  {| EndTime := 0; ConnDuration := 0; Duration := d; ConnRemoteAddr := None;
     Failed := {| Bool := false; Valid := false |};
     Tags := None; Metadata := ∅; Samples := [] |}.

Definition SaveSamples (builtinMetrics : BuiltinMetrics) (ctm : TagsAndMeta)
    (tr : Trail) : Trail :=
  {| EndTime := EndTime tr;
     ConnDuration := ConnDuration tr;
     Duration := Duration tr;
     ConnRemoteAddr := ConnRemoteAddr tr;
     Failed := Failed tr;
     Tags := Some (tm_Tags ctm);
     Metadata := tm_Metadata ctm;
     Samples :=
       [] ++
       [ {| s_TimeSeries := {| ts_Metric := HTTPReqs builtinMetrics;
                               ts_Tags := tm_Tags ctm |};
            s_Time := EndTime tr;
            s_Metadata := tm_Metadata ctm;
            s_Value := 1 |};
         {| s_TimeSeries := {| ts_Metric := HTTPReqDuration builtinMetrics;
                               ts_Tags := tm_Tags ctm |};
            s_Time := EndTime tr;
            s_Metadata := tm_Metadata ctm;
            s_Value := D (Duration tr) |} ] |}.

Definition GetSamples (tr : Trail) : list Sample := Samples tr.
Definition GetTags (tr : Trail) : option (gmap string string) := Tags tr.
Definition GetTime (tr : Trail) : Z := EndTime tr.

(** The assignments made to a trail after [SaveSamples] when a response
    callback is set. *)
Definition setFailed (failed : bool) (tr : Trail) : Trail :=
  {| EndTime := EndTime tr; ConnDuration := ConnDuration tr;
     Duration := Duration tr; ConnRemoteAddr := ConnRemoteAddr tr;
     Failed := {| Bool := if failed then true else Bool (Failed tr); Valid := true |};
     Tags := Tags tr; Metadata := Metadata tr; Samples := Samples tr |}.

Definition appendSample (s : Sample) (tr : Trail) : Trail :=
  {| EndTime := EndTime tr; ConnDuration := ConnDuration tr;
     Duration := Duration tr; ConnRemoteAddr := ConnRemoteAddr tr;
     Failed := Failed tr;
     Tags := Tags tr; Metadata := Metadata tr; Samples := Samples tr ++ [s] |}.

End Tracer.

(** ** The fasthttp request and response objects, as far as the
    repository uses them *)

Module Http.
Import Errors.

Definition MethodGet : string := "GET".
Definition MethodHead : string := "HEAD".
Definition MethodPost : string := "POST".

(** An [*os.File] behind a [FileStream]: the read offset, and the error
    [Seek] gives on it, if any (a closed file, a pipe). *)
Record File : Type := {
  offset : Z;
  seekErr : option error
}.

(** [f.Seek(0, 0)]. *)
Definition Seek0 (f : File) : File + error :=
  match seekErr f with
  | Some err => inr err
  | None => inl {| offset := 0; seekErr := None |}
  end.

(** A request with its header. Of the header, the fields the library
    keeps apart ([host], [method], [contentType], [userAgent],
    [connectionClose], [contentLength], the cookies and the trailer) and
    the list of the other headers, [headers], looked up by exact name.
    [cookies] holds the values given for Cookie, in the order given, and
    [trailer] the value given for Trailer, as the library parses them
    from there. *)
Record Request : Type := {
  requestURI : string;
  UseHostHeader : bool;
  host : string;
  method : string;
  headers : gmap string string;
  connectionClose : bool;
  body : string;
  bodyStream : option File;
  contentLength : Z;
  contentType : string;
  userAgent : string;
  cookies : list string;
  trailer : string;
  disableNormalizing : bool
}.

(** [AcquireRequest()]: a request in its reset state. *)
Definition AcquireRequest : Request :=
  {| requestURI := ""; UseHostHeader := false; host := ""; method := "";
     headers := ∅; connectionClose := false; body := "";
     bodyStream := None; contentLength := 0; contentType := "";
     userAgent := ""; cookies := []; trailer := "";
     disableNormalizing := false |}.

(** [req.Header.Method()]: GET while no method is set. *)
Definition Method (req : Request) : string :=
  if String.eqb (method req) "" then MethodGet else method req.

Definition SetRequestURI (uri : string) (req : Request) : Request :=
  {| requestURI := uri; UseHostHeader := UseHostHeader req; host := host req;
     method := method req; headers := headers req;
     connectionClose := connectionClose req; body := body req;
     bodyStream := bodyStream req; contentLength := contentLength req;
     contentType := contentType req; userAgent := userAgent req;
     cookies := cookies req; trailer := trailer req;
     disableNormalizing := disableNormalizing req |}.

Definition SetUseHostHeader (b : bool) (req : Request) : Request :=
  {| requestURI := requestURI req; UseHostHeader := b; host := host req;
     method := method req; headers := headers req;
     connectionClose := connectionClose req; body := body req;
     bodyStream := bodyStream req; contentLength := contentLength req;
     contentType := contentType req; userAgent := userAgent req;
     cookies := cookies req; trailer := trailer req;
     disableNormalizing := disableNormalizing req |}.

Definition SetHost (h : string) (req : Request) : Request :=
  {| requestURI := requestURI req; UseHostHeader := UseHostHeader req;
     host := h; method := method req; headers := headers req;
     connectionClose := connectionClose req; body := body req;
     bodyStream := bodyStream req; contentLength := contentLength req;
     contentType := contentType req; userAgent := userAgent req;
     cookies := cookies req; trailer := trailer req;
     disableNormalizing := disableNormalizing req |}.

Definition SetMethod (m : string) (req : Request) : Request :=
  {| requestURI := requestURI req; UseHostHeader := UseHostHeader req;
     host := host req; method := m; headers := headers req;
     connectionClose := connectionClose req; body := body req;
     bodyStream := bodyStream req; contentLength := contentLength req;
     contentType := contentType req; userAgent := userAgent req;
     cookies := cookies req; trailer := trailer req;
     disableNormalizing := disableNormalizing req |}.

Definition SetConnectionClose (req : Request) : Request :=
  {| requestURI := requestURI req; UseHostHeader := UseHostHeader req;
     host := host req; method := method req; headers := headers req;
     connectionClose := true; body := body req; bodyStream := bodyStream req;
     contentLength := contentLength req; contentType := contentType req;
     userAgent := userAgent req; cookies := cookies req;
     trailer := trailer req; disableNormalizing := disableNormalizing req |}.

(** [req.Header.ResetConnectionClose()]: clears the flag and, if it was
    set, drops the Connection header. *)
Definition ResetConnectionClose (req : Request) : Request :=
  if connectionClose req
  then
    {| requestURI := requestURI req; UseHostHeader := UseHostHeader req;
       host := host req; method := method req;
       headers := delete "Connection" (headers req); connectionClose := false;
       body := body req; bodyStream := bodyStream req;
       contentLength := contentLength req; contentType := contentType req;
       userAgent := userAgent req; cookies := cookies req;
       trailer := trailer req; disableNormalizing := disableNormalizing req |}
  else req.

Definition SetContentType (v : string) (req : Request) : Request :=
  {| requestURI := requestURI req; UseHostHeader := UseHostHeader req;
     host := host req; method := method req; headers := headers req;
     connectionClose := connectionClose req; body := body req;
     bodyStream := bodyStream req; contentLength := contentLength req;
     contentType := v; userAgent := userAgent req; cookies := cookies req;
     trailer := trailer req; disableNormalizing := disableNormalizing req |}.

Definition SetUserAgent (v : string) (req : Request) : Request :=
  {| requestURI := requestURI req; UseHostHeader := UseHostHeader req;
     host := host req; method := method req; headers := headers req;
     connectionClose := connectionClose req; body := body req;
     bodyStream := bodyStream req; contentLength := contentLength req;
     contentType := contentType req; userAgent := v; cookies := cookies req;
     trailer := trailer req; disableNormalizing := disableNormalizing req |}.

(** The Cookie header: the value is parsed into the cookies of the
    request, after those it has. *)
Definition addCookies (v : string) (req : Request) : Request :=
  {| requestURI := requestURI req; UseHostHeader := UseHostHeader req;
     host := host req; method := method req; headers := headers req;
     connectionClose := connectionClose req; body := body req;
     bodyStream := bodyStream req; contentLength := contentLength req;
     contentType := contentType req; userAgent := userAgent req;
     cookies := cookies req ++ [v]; trailer := trailer req;
     disableNormalizing := disableNormalizing req |}.

(** [req.Header.SetTrailer(v)]: the trailer is replaced. *)
Definition SetTrailer (v : string) (req : Request) : Request :=
  {| requestURI := requestURI req; UseHostHeader := UseHostHeader req;
     host := host req; method := method req; headers := headers req;
     connectionClose := connectionClose req; body := body req;
     bodyStream := bodyStream req; contentLength := contentLength req;
     contentType := contentType req; userAgent := userAgent req;
     cookies := cookies req; trailer := v;
     disableNormalizing := disableNormalizing req |}.

(** The assignment of the content length alone, as the Content-Length
    header does it. *)
Definition storeContentLength (n : Z) (req : Request) : Request :=
  {| requestURI := requestURI req; UseHostHeader := UseHostHeader req;
     host := host req; method := method req; headers := headers req;
     connectionClose := connectionClose req; body := body req;
     bodyStream := bodyStream req; contentLength := n;
     contentType := contentType req; userAgent := userAgent req;
     cookies := cookies req; trailer := trailer req;
     disableNormalizing := disableNormalizing req |}.

(** A header that is kept in the list: it replaces the header of the
    same name. *)
Definition setNonSpecial (key value : string) (req : Request) : Request :=
  {| requestURI := requestURI req; UseHostHeader := UseHostHeader req;
     host := host req; method := method req;
     headers := <[key := value]> (headers req);
     connectionClose := connectionClose req; body := body req;
     bodyStream := bodyStream req; contentLength := contentLength req;
     contentType := contentType req; userAgent := userAgent req;
     cookies := cookies req; trailer := trailer req;
     disableNormalizing := disableNormalizing req |}.

(** [req.Header.SetContentLength(n)]: a negative length stands for a
    chunked body and sets the Transfer-Encoding header; another length
    drops that header. *)
Definition SetContentLength (n : Z) (req : Request) : Request :=
  {| requestURI := requestURI req; UseHostHeader := UseHostHeader req;
     host := host req; method := method req;
     headers := (if Z.ltb n 0
                 then <["Transfer-Encoding" := "chunked"]> (headers req)
                 else delete "Transfer-Encoding" (headers req));
     connectionClose := connectionClose req; body := body req;
     bodyStream := bodyStream req; contentLength := n;
     contentType := contentType req; userAgent := userAgent req;
     cookies := cookies req; trailer := trailer req;
     disableNormalizing := disableNormalizing req |}.

(** *** [req.Header.Set(key, value)] *)

(** The tables of the library: ASCII letters change case, every other
    byte stays. *)
Definition toUpper (c : ascii) : ascii :=
  let n := nat_of_ascii c in
  if Nat.leb 97 n && Nat.leb n 122 then ascii_of_nat (n - 32) else c.

Definition toLower (c : ascii) : ascii :=
  let n := nat_of_ascii c in
  if Nat.leb 65 n && Nat.leb n 90 then ascii_of_nat (n + 32) else c.

(** The loop of [normalizeHeaderKey]: [upper] is whether the byte at
    hand is the first one or follows a dash, and is made upper case; a
    dash elsewhere stays and the other bytes are made lower case. *)
Fixpoint normalizeFrom (upper : bool) (key : string) : string :=
  match key with
  | EmptyString => EmptyString
  | String c key =>
      if upper then String (toUpper c) (normalizeFrom false key)
      else if Ascii.eqb c "-" then String c (normalizeFrom true key)
      else String (toLower c) (normalizeFrom false key)
  end.

Definition normalizeHeaderKey (disableNormalizing : bool) (key : string) : string :=
  if disableNormalizing then key else normalizeFrom true key.

(** Line breaks in a header value become spaces. *)
Fixpoint removeNewLines (value : string) : string :=
  match value with
  | EmptyString => EmptyString
  | String c value =>
      String (if Ascii.eqb c "013" || Ascii.eqb c "010" then " "%char else c)
        (removeNewLines value)
  end.

(** [c | 0x20], and the comparison of names the library makes with it. *)
Definition or0x20 (c : ascii) : ascii :=
  match c with
  | Ascii b0 b1 b2 b3 b4 _ b6 b7 => Ascii b0 b1 b2 b3 b4 true b6 b7
  end.

Fixpoint caseInsensitiveCompare (a b : string) : bool :=
  match a, b with
  | EmptyString, EmptyString => true
  | String x a, String y b =>
      Ascii.eqb (or0x20 x) (or0x20 y) && caseInsensitiveCompare a b
  | _, _ => false
  end.

(** [parseContentLength]: decimal digits only, at least one, and no
    overflow of the [int] that collects them. *)
Definition digitOf (c : ascii) : option Z :=
  let n := nat_of_ascii c in
  if Nat.leb 48 n && Nat.leb n 57 then Some (Z.of_nat (n - 48)) else None.

Fixpoint parseUint (v : Z) (digits : string) : option Z :=
  match digits with
  | EmptyString => Some v
  | String c digits =>
      match digitOf c with
      | Some k =>
          let vNew := int64 (10 * v + k) in
          if Z.ltb vNew v then None else parseUint vNew digits
      | None => None
      end
  end.

Definition parseContentLength (value : string) : option Z :=
  match value with
  | EmptyString => None
  | _ => parseUint 0 value
  end.

(** The names [Set] does not keep in the header list. *)
Definition specialHeaders : list string :=
  ["Content-Type"; "Content-Length"; "Connection"; "Cookie";
   "Transfer-Encoding"; "Trailer"; "Host"; "User-Agent"].

Definition specialHeader (key : string) : bool :=
  existsb (fun name => caseInsensitiveCompare name key) specialHeaders.

(** [req.Header.Set(field, val)]: the name is normalized unless the
    header has that disabled, line breaks are taken out of the value,
    and a special name is sent to its own field: a Connection header
    sets the close flag for the value close and clears it for another
    value, which is then kept in the list; a Content-Length header counts
    only if it is a number; a Transfer-Encoding header is ignored. Every
    other name replaces the header of that name in the list. *)
Definition SetHeader (field val : string) (req : Request) : Request :=
  let key := normalizeHeaderKey (disableNormalizing req) field in
  let value := removeNewLines val in
  if caseInsensitiveCompare "Content-Type" key then SetContentType value req
  else if caseInsensitiveCompare "Content-Length" key then
    match parseContentLength value with
    | Some n => storeContentLength n req
    | None => req
    end
  else if caseInsensitiveCompare "Connection" key then
    if String.eqb value "close" then SetConnectionClose req
    else setNonSpecial key value (ResetConnectionClose req)
  else if caseInsensitiveCompare "Cookie" key then addCookies value req
  else if caseInsensitiveCompare "Transfer-Encoding" key then req
  else if caseInsensitiveCompare "Trailer" key then SetTrailer value req
  else if caseInsensitiveCompare "Host" key then SetHost value req
  else if caseInsensitiveCompare "User-Agent" key then SetUserAgent value req
  else setNonSpecial key value req.

(** [req.SetBody(b)]: drops a body stream and stores the bytes ([nil]
    is the empty string). *)
Definition SetBody (b : string) (req : Request) : Request :=
  {| requestURI := requestURI req; UseHostHeader := UseHostHeader req;
     host := host req; method := method req; headers := headers req;
     connectionClose := connectionClose req; body := b; bodyStream := None;
     contentLength := contentLength req; contentType := contentType req;
     userAgent := userAgent req; cookies := cookies req;
     trailer := trailer req; disableNormalizing := disableNormalizing req |}.

(** [req.SetBodyStream(s, size)]: resets the body, stores the stream
    and sets the content length. *)
Definition SetBodyStream (s : option File) (size : Z) (req : Request) : Request :=
  SetContentLength size
    ({| requestURI := requestURI req; UseHostHeader := UseHostHeader req;
        host := host req; method := method req; headers := headers req;
        connectionClose := connectionClose req; body := ""; bodyStream := s;
        contentLength := contentLength req; contentType := contentType req;
        userAgent := userAgent req; cookies := cookies req;
        trailer := trailer req; disableNormalizing := disableNormalizing req |}).

Record Response : Type := { StatusCode : Z }.

(** What is taken from the libraries: the text of a request's parsed
    URI ([req.URI().String()]), and the host part [net.SplitHostPort]
    finds in an address, if it finds one. *)
Class Lib := {
  URIString : Request -> string;
  SplitHostPort : string -> option string
}.

End Http.

(** ** Package metrics (metrics.go) *)

Module Metrics.
Import Errors K6 Tracer Http.

Record UnfinishedRequest : Type := {
  Ctx : Context;
  Trail : Tracer.Trail;
  Request : Http.Request;
  Response : Http.Response;
  Err : option error
}.

Record FinishedRequest : Type := {
  Unfinished : UnfinishedRequest;
  FinishedTrail : Tracer.Trail;
  TLSInfoOf : TLSInfo;
  ErrorCode : ErrCode;
  ErrorMsg : string
}.

(** The dispatcher; [lastRequestLock] is whether the mutex is held. *)
Record MetricDispatcher : Type := {
  State : K6.State;
  TagsAndMeta : K6.TagsAndMeta;
  responseCallback : option (Z -> bool);
  lastRequest : option UnfinishedRequest;
  lastRequestLock : bool
}.

Definition NewMetricDispatcher (tags : K6.TagsAndMeta) (state : K6.State)
    : MetricDispatcher :=
  {| State := state; TagsAndMeta := tags; responseCallback := None;
     lastRequest := None; lastRequestLock := false |}.

(** What a dispatcher does to the world and to its own slot, in program
    order: mutex operations, assignments to [lastRequest], warnings of
    the logger, and calls of [measureAndEmitMetrics], each with the
    request it is given, the result it returns and whether the trail
    reached the sample channel ([metrics.PushIfNotDone] drops it when
    the context is done). *)
Inductive Event : Type :=
  | EvLock
  | EvUnlock
  | EvStore (r : option UnfinishedRequest)
  | EvWarn (msg : string)
  | EvEmit (unfReq : UnfinishedRequest) (result : FinishedRequest) (pushed : bool).

(** Computations on a dispatcher and the history so far; [None] is a
    computation that never returns (a [Lock] of a held mutex, an
    [Unlock] of a free one). *)
Definition M (A : Type) : Type :=
  MetricDispatcher * list Event -> option (A * (MetricDispatcher * list Event)).

#[global] Instance M_ret : MRet M := fun A x s => Some (x, s).
#[global] Instance M_bind : MBind M := fun A B f m s =>
  match m s with
  | Some (x, s') => f x s'
  | None => None
  end.

Definition note (e : Event) : M unit :=
  fun '(t, h) => Some (tt, (t, h ++ [e])).

Definition this : M MetricDispatcher :=
  fun '(t, h) => Some (t, (t, h)).

Definition setLock (b : bool) (t : MetricDispatcher) : MetricDispatcher :=
  {| State := State t; TagsAndMeta := TagsAndMeta t;
     responseCallback := responseCallback t;
     lastRequest := lastRequest t; lastRequestLock := b |}.

Definition setLastRequest (r : option UnfinishedRequest) (t : MetricDispatcher)
    : MetricDispatcher :=
  {| State := State t; TagsAndMeta := TagsAndMeta t;
     responseCallback := responseCallback t;
     lastRequest := r; lastRequestLock := lastRequestLock t |}.

Definition Lock : M unit :=
  fun '(t, h) =>
    if lastRequestLock t then None
    else Some (tt, (setLock true t, h ++ [EvLock])).

Definition Unlock : M unit :=
  fun '(t, h) =>
    if lastRequestLock t
    then Some (tt, (setLock false t, h ++ [EvUnlock]))
    else None.

Definition storeLastRequest (r : option UnfinishedRequest) : M unit :=
  fun '(t, h) => Some (tt, (setLastRequest r t, h ++ [EvStore r])).

Definition setErr (err : option error) (u : UnfinishedRequest) : UnfinishedRequest :=
  {| Ctx := Ctx u; Trail := Trail u; Request := Request u;
     Response := Response u; Err := err |}.

Definition setTrail (tr : Tracer.Trail) (u : UnfinishedRequest) : UnfinishedRequest :=
  {| Ctx := Ctx u; Trail := tr; Request := Request u;
     Response := Response u; Err := Err u |}.

Section Dispatcher.
Context `{Runtime} `{Lib}.

(** The name and url tags. *)
Definition tagNameAndURL (enabledTags : SystemTagSet) (unfReq : UnfinishedRequest)
    (tagsAndMeta : K6.TagsAndMeta) : K6.TagsAndMeta :=
  match tm_Tags tagsAndMeta !! TagString TagName with
  | None =>
      let uri := URIString (Request unfReq) in
      let tagsAndMeta := SetSystemTagOrMetaIfEnabled enabledTags TagName uri tagsAndMeta in
      SetSystemTagOrMetaIfEnabled enabledTags TagURL uri tagsAndMeta
  | Some nameTagValue =>
      SetSystemTagOrMetaIfEnabled enabledTags TagURL nameTagValue tagsAndMeta
  end.

(** The error or status branch: the code and message of the result and
    the tags it sets. *)
Definition tagOutcome (enabledTags : SystemTagSet) (unfReq : UnfinishedRequest)
    (tagsAndMeta : K6.TagsAndMeta) : ErrCode * string * K6.TagsAndMeta :=
  match Err unfReq with
  | Some err =>
      let '(code, msg) := ErrorCodeForError err in
      let tagsAndMeta := SetSystemTagOrMetaIfEnabled enabledTags TagError msg tagsAndMeta in
      let tagsAndMeta :=
        SetSystemTagOrMetaIfEnabled enabledTags TagErrorCode (Itoa code) tagsAndMeta in
      (code, msg, SetSystemTagOrMetaIfEnabled enabledTags TagStatus "0" tagsAndMeta)
  | None =>
      let status := StatusCode (Response unfReq) in
      let tagsAndMeta :=
        SetSystemTagOrMetaIfEnabled enabledTags TagStatus (Itoa status) tagsAndMeta in
      if Z.leb 400 status
      then
        let code := uint32 (int64 (1000 + status)) in
        (code, "", SetSystemTagOrMetaIfEnabled enabledTags TagErrorCode (Itoa code) tagsAndMeta)
      else (0, "", tagsAndMeta)
  end.

(** The ip tag. *)
Definition tagIP (enabledTags : SystemTagSet) (trail : Tracer.Trail)
    (tagsAndMeta : K6.TagsAndMeta) : K6.TagsAndMeta :=
  if Has enabledTags TagIP
  then
    match ConnRemoteAddr trail with
    | Some addr =>
        match SplitHostPort addr with
        | Some ip => SetSystemTagOrMeta TagIP ip tagsAndMeta
        | None => tagsAndMeta
        end
    | None => tagsAndMeta
    end
  else tagsAndMeta.

(** The first use of the response callback: whether the request failed
    the expectation, and the expected_response tag. *)
Definition tagExpected (callback : option (Z -> bool)) (enabledTags : SystemTagSet)
    (unfReq : UnfinishedRequest) (tagsAndMeta : K6.TagsAndMeta)
    : bool * K6.TagsAndMeta :=
  match callback with
  | Some responseCallback =>
      let statusCode :=
        match Err unfReq with
        | None => StatusCode (Response unfReq)
        | Some _ => 0
        end in
      let expected := responseCallback statusCode in
      (negb expected,
       SetSystemTagOrMetaIfEnabled enabledTags TagExpectedResponse
         (FormatBool expected) tagsAndMeta)
  | None => (false, tagsAndMeta)
  end.

(** The second use: the flag of the trail and the http_req_failed sample. *)
Definition recordFailed (callback : option (Z -> bool)) (builtin : BuiltinMetrics)
    (failed : bool) (tagsAndMeta : K6.TagsAndMeta) (trail : Tracer.Trail)
    : Tracer.Trail :=
  match callback with
  | Some _ =>
      let trail := setFailed failed trail in
      appendSample
        {| s_TimeSeries := {| ts_Metric := HTTPReqFailed builtin;
                              ts_Tags := tm_Tags tagsAndMeta |};
           s_Time := EndTime trail;
           s_Metadata := tm_Metadata tagsAndMeta;
           s_Value := if failed then 1 else 0 |}
        trail
  | None => trail
  end.

(** The result [measureAndEmitMetrics] builds for [unfReq] on the
    dispatcher [t]; the trail is shared by the request and the result. *)
Definition measure (t : MetricDispatcher) (unfReq : UnfinishedRequest)
    : FinishedRequest :=
  let trail := Trail unfReq in
  let tagsAndMeta := Clone (TagsAndMeta t) in
  let enabledTags := SystemTags (State t) in
  let tagsAndMeta := tagNameAndURL enabledTags unfReq tagsAndMeta in
  let tagsAndMeta :=
    SetSystemTagOrMetaIfEnabled enabledTags TagMethod (Method (Request unfReq)) tagsAndMeta in
  let '(code, msg, tagsAndMeta) := tagOutcome enabledTags unfReq tagsAndMeta in
  let tagsAndMeta := tagIP enabledTags trail tagsAndMeta in
  let '(failed, tagsAndMeta) :=
    tagExpected (responseCallback t) enabledTags unfReq tagsAndMeta in
  let trail := SaveSamples (BuiltinMetricsOf (State t)) tagsAndMeta trail in
  let trail :=
    recordFailed (responseCallback t) (BuiltinMetricsOf (State t)) failed tagsAndMeta trail in
  {| Unfinished := setTrail trail unfReq;
     FinishedTrail := trail;
     TLSInfoOf := {| Protocol := ""; CipherSuite := "" |};
     ErrorCode := code;
     ErrorMsg := msg |}.

Definition measureAndEmitMetrics (ctx : Context) (unfReq : UnfinishedRequest)
    : M FinishedRequest :=
  t ← this;
  let result := measure t unfReq in
  note (EvEmit unfReq result (negb (Done ctx)));;
  mret result.

(** The enrichment of [ProcessLastSavedRequest]: a later error is kept
    only when the request has none. *)
Definition attachErr (lastErr : option error) (unprocessedRequest : UnfinishedRequest)
    : UnfinishedRequest :=
  match Err unprocessedRequest, lastErr with
  | None, Some err => setErr (Some err) unprocessedRequest
  | _, _ => unprocessedRequest
  end.

Definition ProcessLastSavedRequest (ctx : Context) (lastErr : option error)
    : M (option FinishedRequest) :=
  Lock;;
  t ← this;
  let unprocessedRequest := lastRequest t in
  storeLastRequest None;;
  Unlock;;
  match unprocessedRequest with
  | Some unprocessedRequest =>
      result ← measureAndEmitMetrics ctx (attachErr lastErr unprocessedRequest);
      mret (Some result)
  | None => mret None
  end.

Definition SaveCurrentRequest (ctx : Context) (currentRequest : UnfinishedRequest)
    : M unit :=
  Lock;;
  t ← this;
  let unprocessedRequest := lastRequest t in
  storeLastRequest (Some currentRequest);;
  Unlock;;
  match unprocessedRequest with
  | Some unprocessedRequest =>
      note (EvWarn ("TracerTransport: unexpected unprocessed Request for "
                      +:+ URIString (Request unprocessedRequest)));;
      measureAndEmitMetrics ctx unprocessedRequest;;
      mret tt
  | None => mret tt
  end.

(** The two operations a client drives a dispatcher with. *)
Inductive Op : Type :=
  | Stage (ctx : Context) (currentRequest : UnfinishedRequest)
  | Drain (ctx : Context) (lastErr : option error).

Definition step (op : Op) : M unit :=
  match op with
  | Stage ctx r => SaveCurrentRequest ctx r
  | Drain ctx lastErr => ProcessLastSavedRequest ctx lastErr;; mret tt
  end.

Fixpoint run (ops : list Op) : M unit :=
  match ops with
  | [] => mret tt
  | op :: ops => step op;; run ops
  end.

(** *** Observations on a dispatcher and its history *)

(** The event of one call of [measureAndEmitMetrics]. *)
Definition emission (ctx : Context) (t : MetricDispatcher) (u : UnfinishedRequest)
    : list Event :=
  [EvEmit u (measure t u) (negb (Done ctx))].

(** The dispatcher after one operation, and the events of the
    operation. *)
Definition after (op : Op) (t : MetricDispatcher) : MetricDispatcher :=
  match op with
  | Stage _ r => setLastRequest (Some r) t
  | Drain _ _ => setLastRequest None t
  end.

Definition eventsOf (op : Op) (t : MetricDispatcher) : list Event :=
  match op with
  | Stage ctx r =>
      [EvLock; EvStore (Some r); EvUnlock] ++
      match lastRequest t with
      | Some u =>
          EvWarn ("TracerTransport: unexpected unprocessed Request for "
                    +:+ URIString (Request u)) :: emission ctx t u
      | None => []
      end
  | Drain ctx lastErr =>
      [EvLock; EvStore None; EvUnlock] ++
      match lastRequest t with
      | Some u => emission ctx t (attachErr lastErr u)
      | None => []
      end
  end.

Fixpoint afterAll (ops : list Op) (t : MetricDispatcher) : MetricDispatcher :=
  match ops with
  | [] => t
  | op :: ops => afterAll ops (after op t)
  end.

Fixpoint eventsAll (ops : list Op) (t : MetricDispatcher) : list Event :=
  match ops with
  | [] => []
  | op :: ops => eventsOf op t ++ eventsAll ops (after op t)
  end.

(** [u] is the request [r] as [measureAndEmitMetrics] is given it: [r]
    itself, or [r] with the later error of a drain attached. *)
Definition enriched (r u : UnfinishedRequest) : Prop :=
  exists lastErr, u = attachErr lastErr r.

(** The tags when [measure] reaches the error or status branch. *)
Definition tagsBefore (t : MetricDispatcher) (u : UnfinishedRequest) : K6.TagsAndMeta :=
  SetSystemTagOrMetaIfEnabled (SystemTags (State t)) TagMethod (Method (Request u))
    (tagNameAndURL (SystemTags (State t)) u (Clone (TagsAndMeta t))).

(** The history of a sequence of operations on a new dispatcher. *)
Definition historyOf (tags : K6.TagsAndMeta) (state : K6.State) (ops : list Op)
    : list Event :=
  match run ops (NewMetricDispatcher tags state, []) with
  | Some (_, (_, h)) => h
  | None => []
  end.

End Dispatcher.

(** The value of a system tag on the trail of a finished request. *)
Definition tagOf (fr : FinishedRequest) (tag : SystemTag) : option string :=
  match Tags (FinishedTrail fr) with
  | Some tags => tags !! TagString tag
  | None => None
  end.

(** The content of the slot, as a list. *)
Definition pending (t : MetricDispatcher) : list UnfinishedRequest :=
  match lastRequest t with
  | Some u => [u]
  | None => []
  end.

(** The requests a sequence of operations stages, in order. *)
Fixpoint stagedOf (ops : list Op) : list UnfinishedRequest :=
  match ops with
  | [] => []
  | Stage _ r :: ops => r :: stagedOf ops
  | Drain _ _ :: ops => stagedOf ops
  end.

(** The requests a history shows as given to [measureAndEmitMetrics],
    in order. *)
Fixpoint measuredOf (h : list Event) : list UnfinishedRequest :=
  match h with
  | [] => []
  | EvEmit u _ _ :: h => u :: measuredOf h
  | _ :: h => measuredOf h
  end.

(** The slot after a sequence of operations that starts with [slot]. *)
Fixpoint slotAfter (slot : option UnfinishedRequest) (ops : list Op)
    : option UnfinishedRequest :=
  match ops with
  | [] => slot
  | Stage _ r :: ops => slotAfter (Some r) ops
  | Drain _ _ :: ops => slotAfter None ops
  end.

(** A history in which the mutex is taken and released in turn and is
    free at the end, the slot is assigned only while it is held, and
    requests are measured and emitted only while it is free. *)
Fixpoint disciplined (held : bool) (h : list Event) : bool :=
  match h with
  | [] => negb held
  | EvLock :: h => negb held && disciplined true h
  | EvUnlock :: h => held && disciplined false h
  | EvStore _ :: h => held && disciplined held h
  | EvEmit _ _ _ :: h => negb held && disciplined held h
  | EvWarn _ :: h => disciplined held h
  end.

(** The discipline the specification describes, part one: every emission
    happens while the mutex is held. *)
Fixpoint emitsUnderLock (held : bool) (h : list Event) : bool :=
  match h with
  | [] => true
  | EvLock :: h => emitsUnderLock true h
  | EvUnlock :: h => emitsUnderLock false h
  | EvEmit _ _ _ :: h => held && emitsUnderLock held h
  | _ :: h => emitsUnderLock held h
  end.

(** Part two: no request is put in the slot while an earlier one still
    waits to be emitted ([waiting] counts those). *)
Fixpoint emitsBeforeAccept (waiting : nat) (h : list Event) : bool :=
  match h with
  | [] => true
  | EvStore (Some _) :: h => Nat.eqb waiting 0 && emitsBeforeAccept 1 h
  | EvEmit _ _ _ :: h => emitsBeforeAccept (Nat.pred waiting) h
  | _ :: h => emitsBeforeAccept waiting h
  end.

(** A history in which every request is measured and emitted by the
    operation that took it out of the slot, after that assignment of the
    slot and after the mutex has been released: [slot] is the content of
    the slot, [taken] the request the last assignment took out and that
    is not emitted yet, [held] whether the mutex is held. The slot is
    assigned once per critical section; no operation starts, and the
    history does not end, while a request that was taken out waits. *)
Fixpoint emitsAfterSwap (slot taken : option UnfinishedRequest) (held : bool)
    (h : list Event) : Prop :=
  match h with
  | [] => taken = None
  | EvLock :: h => taken = None /\ emitsAfterSwap slot None true h
  | EvStore r :: h => held = true /\ taken = None /\ emitsAfterSwap r slot held h
  | EvUnlock :: h => emitsAfterSwap slot taken false h
  | EvWarn _ :: h => emitsAfterSwap slot taken held h
  | EvEmit u _ _ :: h =>
      held = false
      /\ (exists r, taken = Some r /\ enriched r u)
      /\ emitsAfterSwap slot None held h
  end.

(** The contexts of the operations that find a request in the slot, in
    order: those are the operations that measure and emit. *)
Fixpoint emitters (slot : option UnfinishedRequest) (ops : list Op) : list Context :=
  match ops with
  | [] => []
  | Stage ctx r :: ops =>
      match slot with Some _ => [ctx] | None => [] end ++ emitters (Some r) ops
  | Drain ctx _ :: ops =>
      match slot with Some _ => [ctx] | None => [] end ++ emitters None ops
  end.

(** Whether the trail reached the sample channel, for each emission of a
    history in order. *)
Fixpoint pushesOf (h : list Event) : list bool :=
  match h with
  | [] => []
  | EvEmit _ _ pushed :: h => pushed :: pushesOf h
  | _ :: h => pushesOf h
  end.

End Metrics.

(** ** Package fasthttp: request.go, client.go (request set-up) and
    check.go *)

Module Fasthttp.
Import Errors K6 Http.

(** What a script can give as [Body]. *)
Inductive BodyValue : Type :=
  | BodyString (s : string)
  | BodyArrayBuffer (bytes : string)
  | BodyFileStream (f : File)
  | BodyOther.

(** [RequestWrapper]; [req] is the pooled request in use, and [Body] is
    [None] for the nil interface. The pool and the response type play no
    part in the set-up. *)
Record RequestWrapper : Type := {
  Throw : bool;
  DisableKeepAlive : bool;
  Url : string;
  Host : string;
  Headers : gmap string string;
  Body : option BodyValue;
  req : Request
}.

Definition withReq (r : Request) (reqw : RequestWrapper) : RequestWrapper :=
  {| Throw := Throw reqw; DisableKeepAlive := DisableKeepAlive reqw;
     Url := Url reqw; Host := Host reqw; Headers := Headers reqw;
     Body := Body reqw; req := r |}.

Definition withBody (b : option BodyValue) (reqw : RequestWrapper) : RequestWrapper :=
  {| Throw := Throw reqw; DisableKeepAlive := DisableKeepAlive reqw;
     Url := Url reqw; Host := Host reqw; Headers := Headers reqw;
     Body := b; req := req reqw |}.

Definition setBody (method : string) (body : option BodyValue) : bool :=
  match body with
  | Some _ => negb (String.eqb method MethodHead) && negb (String.eqb method MethodGet)
  | None => false
  end.

(** The outcome of a set-up: the wrapper with its request as the call
    leaves them, the lines written to the log, and the error returned. *)
Definition SetupResult : Type := RequestWrapper * list string * option error.

Definition setupCachedReq (reqw : RequestWrapper) (method : string) : SetupResult :=
  if setBody method (Body reqw)
  then
    match Body reqw with
    | Some (BodyFileStream f) =>
        match Seek0 f with
        | inr err => (reqw, ["Failed to reset stream to beginning"], Some err)
        | inl f =>
            (withReq (SetBodyStream (Some f) (-1) (req reqw))
               (withBody (Some (BodyFileStream f)) reqw), [], None)
        end
    | _ => (reqw, [], None)
    end
  else
    let r := SetBody "" (req reqw) in
    let r := SetBodyStream None 0 r in
    let r := SetMethod method r in
    (withReq r reqw, [], None).

(** The headers of the wrapper are set one by one, after the host and
    the close flag; Go ranges over the map in no fixed order, here it is
    the order in which the map enumerates its entries, and nothing below
    is stated of two headers whose outcome depends on the order. *)
Definition setupNewReq (reqw : RequestWrapper) (method : string) : SetupResult :=
  let reqw := withReq (SetRequestURI (Url reqw) (req reqw)) reqw in
  let reqw :=
    if negb (String.eqb (Host reqw) "")
    then withReq (SetHost (Host reqw) (SetUseHostHeader true (req reqw))) reqw
    else reqw in
  let finish (reqw : RequestWrapper) : SetupResult :=
    let r := req reqw in
    let r := if DisableKeepAlive reqw then SetConnectionClose r else r in
    let r := map_fold SetHeader r (Headers reqw) in
    let r := SetMethod method r in
    (withReq r reqw, [], None) in
  if setBody method (Body reqw)
  then
    match Body reqw with
    | Some (BodyString s) => finish (withReq (SetBody s (req reqw)) reqw)
    | Some (BodyArrayBuffer bytes) => finish (withReq (SetBody bytes (req reqw)) reqw)
    | Some (BodyFileStream f) =>
        match Seek0 f with
        | inr err => (reqw, ["Failed to reset stream to beginning"], Some err)
        | inl f =>
            finish (withReq (SetBodyStream (Some f) (-1) (req reqw))
                      (withBody (Some (BodyFileStream f)) reqw))
        end
    | _ => (reqw, [], Some (OtherError "req body type not supported" None))
    end
  else finish reqw.

(** The first lines of [makeReq]: [pooled] is what [reqPool.Get()]
    gives. *)
Definition makeReqSetup (pooled : option Request) (reqw : RequestWrapper)
    (method : string) : SetupResult :=
  match pooled with
  | Some r => setupCachedReq (withReq r reqw) method
  | None => setupNewReq (withReq AcquireRequest reqw) method
  end.

(** The module's [Response] object, by the field the check reads. *)
Record Response : Type := { Status : Z }.

(** What a script object exports: a [*Response] or something else. *)
Inductive Exported : Type :=
  | ExportedResponse (resp : Response)
  | ExportedOther.

(** [k6.ErrCheckInInitContext]. *)
Definition ErrCheckInInitContext : error :=
  OtherError "Using check() in the init context is not supported" None.

(** A virtual user as a check sees it: its state ([None] in the init
    context), its context and the time of the call. *)
Record VU : Type := {
  vuState : option K6.State;
  vuContext : Context;
  timeNow : Z
}.

(** What a check does: the value and error it returns, the samples that
    reach the sample channel, and the checks of the group afterwards. *)
Record CheckOutcome : Type := {
  passed : bool;
  failure : option error;
  pushed : list Sample;
  groupAfter : gmap string Check
}.

Definition checkFails (err : error) (g : gmap string Check) : CheckOutcome :=
  {| passed := false; failure := Some err; pushed := []; groupAfter := g |}.

(** [metrics.PushIfNotDone] on a single sample. *)
Definition pushSample (ctx : Context) (sample : Sample) : list Sample :=
  if Done ctx then [] else [sample].

(** [Tags.With]. *)
Definition With (k v : string) (tags : gmap string string) : gmap string string :=
  <[k := v]> tags.

Definition setValue (v : Q) (s : Sample) : Sample :=
  {| s_TimeSeries := s_TimeSeries s; s_Time := s_Time s;
     s_Metadata := s_Metadata s; s_Value := v |}.

Section Checks.
(** Script values, the application of custom tags to the current tags
    ([common.ApplyCustomUserTags]) and the error [lib.NewCheck] gives
    for a name, if any. *)
Context {Value : Type}.
Context (ApplyCustomUserTags : K6.TagsAndMeta -> Value -> K6.TagsAndMeta + error).
Context (NewCheckError : string -> option error).

(** [Group.Check(name)]: the check of that name, made on first use. *)
Definition GroupCheck (g : gmap string Check) (name : string)
    : (Check * gmap string Check) + error :=
  match g !! name with
  | Some check => inl (check, g)
  | None =>
      match NewCheckError name with
      | Some err => inr err
      | None =>
          let c := {| Name := name; Passes := 0; Fails := 0 |} in
          inl (c, <[name := c]> g)
      end
  end.

(** The common start of both versions of [CheckStatus]: the state, the
    response and the tags, or the outcome of an early return. *)
Definition checkPrologue (vu : VU) (r : option Exported) (extras : list Value)
    : (K6.State * Response * K6.TagsAndMeta) + CheckOutcome :=
  match vuState vu with
  | None => inr (checkFails ErrCheckInInitContext ∅)
  | Some state =>
      match r with
      | None => inr (checkFails (OtherError "nil response" None) (Group state))
      | Some ExportedOther =>
          inr (checkFails (OtherError "response object not given to CheckStatus" None)
                 (Group state))
      | Some (ExportedResponse resp) =>
          let commonTagsAndMeta := CurrentTags state in
          match extras with
          | [] => inl (state, resp, commonTagsAndMeta)
          | extra :: _ =>
              match ApplyCustomUserTags commonTagsAndMeta extra with
              | inr err => inr (checkFails err (Group state))
              | inl commonTagsAndMeta => inl (state, resp, commonTagsAndMeta)
              end
          end
      end
  end.

End Checks.

(** check.go as it is written against sobek. *)
Module Sobek.
Section CheckStatus.
Context {Value : Type}.
Context (ApplyCustomUserTags : K6.TagsAndMeta -> Value -> K6.TagsAndMeta + error).

Definition CheckStatus (vu : VU) (wantStatus : Z) (r : option Exported)
    (extras : list Value) : CheckOutcome :=
  match checkPrologue ApplyCustomUserTags vu r extras with
  | inr out => out
  | inl (state, resp, commonTagsAndMeta) =>
      let checkName := "check status is " +:+ Itoa wantStatus in
      let tags := tm_Tags commonTagsAndMeta in
      let tags := if Has (SystemTags state) TagCheck then With "check" checkName tags else tags in
      let pass := Z.eqb (Status resp) wantStatus in
      let sample :=
        {| s_TimeSeries := {| ts_Metric := Checks (BuiltinMetricsOf state); ts_Tags := tags |};
           s_Time := timeNow vu;
           s_Metadata := tm_Metadata commonTagsAndMeta;
           s_Value := 0 |} in
      {| passed := pass; failure := None;
         pushed := pushSample (vuContext vu) sample;
         groupAfter := Group state |}
  end.

End CheckStatus.
End Sobek.

(** check.go as it is written against goja. *)
Module Goja.
Section CheckStatus.
Context {Value : Type}.
Context (ApplyCustomUserTags : K6.TagsAndMeta -> Value -> K6.TagsAndMeta + error).
Context (NewCheckError : string -> option error).

Definition addPass (c : Check) : Check :=
  {| Name := Name c; Passes := Passes c + 1; Fails := Fails c |}.
Definition addFail (c : Check) : Check :=
  {| Name := Name c; Passes := Passes c; Fails := Fails c + 1 |}.

Definition CheckStatus (vu : VU) (wantStatus : Z) (r : option Exported)
    (extras : list Value) : CheckOutcome :=
  match checkPrologue ApplyCustomUserTags vu r extras with
  | inr out => out
  | inl (state, resp, commonTagsAndMeta) =>
      let name := "check status is " +:+ Itoa wantStatus in
      match GroupCheck NewCheckError (Group state) name with
      | inr err => checkFails err (Group state)
      | inl (check, group) =>
          let tags := tm_Tags commonTagsAndMeta in
          let tags :=
            if Has (SystemTags state) TagCheck then With "check" (Name check) tags else tags in
          let pass := Z.eqb (Status resp) wantStatus in
          let sample :=
            {| s_TimeSeries := {| ts_Metric := Checks (BuiltinMetricsOf state); ts_Tags := tags |};
               s_Time := timeNow vu;
               s_Metadata := tm_Metadata commonTagsAndMeta;
               s_Value := 0 |} in
          let '(group, sample) :=
            if pass
            then (<[name := addPass check]> group, setValue 1 sample)
            else (<[name := addFail check]> group, sample) in
          {| passed := pass; failure := None;
             pushed := pushSample (vuContext vu) sample;
             groupAfter := group |}
      end
  end.

End CheckStatus.
End Goja.

End Fasthttp.

(** ** A concrete runtime and concrete collaborators, for the examples *)

Module Sample.
Import Errors K6 Tracer Http Metrics Fasthttp.

(** [http2.ErrCode.String]: the names of the protocol codes. *)
Definition ErrCodeString (code : Z) : string :=
  match code with
  | 0 => "NO_ERROR"
  | 1 => "PROTOCOL_ERROR"
  | 2 => "INTERNAL_ERROR"
  | 3 => "FLOW_CONTROL_ERROR"
  | 4 => "SETTINGS_TIMEOUT"
  | 5 => "STREAM_CLOSED"
  | 6 => "FRAME_SIZE_ERROR"
  | 7 => "REFUSED_STREAM"
  | 8 => "CANCEL"
  | 9 => "COMPRESSION_ERROR"
  | 10 => "CONNECT_ERROR"
  | 11 => "ENHANCE_YOUR_CALM"
  | 12 => "INADEQUATE_SECURITY"
  | 13 => "HTTP_1_1_REQUIRED"
  | _ => "unknown error code 0x"
           +:+ HexadecimalString.NilZero.string_of_uint (N.to_hex_uint (Z.to_N code))
  end.

(** [syscall.Errno.Error] for the numbers used below. *)
Definition errnoText (n : Z) : string :=
  match n with
  | 32 => "broken pipe"
  | 104 => "connection reset by peer"
  | 111 => "connection refused"
  | _ => "errno " +:+ Itoa n
  end.

(** The error numbers of Linux, with the Winsock number of the Windows
    file of the package. *)
#[export] Instance runtime : Runtime := {|
  GOOS := "linux";
  ECONNRESET := 104;
  EPIPE := 32;
  ECONNREFUSED := 111;
  WSAECONNRESET := 10054;
  ErrnoError := errnoText;
  http2ErrCodeString := ErrCodeString
|}.

(** The address up to its last colon. *)
Fixpoint hostOf (addr : string) : option string :=
  match addr with
  | EmptyString => None
  | String c rest =>
      match hostOf rest with
      | Some h => Some (String c h)
      | None => if Ascii.eqb c ":"%char then Some EmptyString else None
      end
  end.

#[export] Instance lib : Lib := {|
  URIString := requestURI;
  SplitHostPort := hostOf
|}.

Definition builtin : BuiltinMetrics :=
  {| HTTPReqs := "http_reqs"; HTTPReqDuration := "http_req_duration";
     HTTPReqFailed := "http_req_failed"; Checks := "checks" |}.

Definition noTags : K6.TagsAndMeta := {| tm_Tags := ∅; tm_Metadata := ∅ |}.

(** A state with every system tag enabled, and one with none. *)
Definition state : K6.State :=
  {| SystemTags := fun _ => true; BuiltinMetricsOf := builtin;
     CurrentTags := noTags; Group := ∅ |}.
Definition bareState : K6.State :=
  {| SystemTags := fun _ => false; BuiltinMetricsOf := builtin;
     CurrentTags := noTags; Group := ∅ |}.

Definition ctx : Context := {| Done := false |}.

Definition getRequest (uri : string) : Http.Request :=
  SetMethod MethodGet (SetRequestURI uri AcquireRequest).

(** A round trip that got a response with [status], and one that failed
    with [err]. *)
Definition answered (uri : string) (status : Z) : UnfinishedRequest :=
  {| Ctx := ctx; Trail := newTrail 1500000; Request := getRequest uri;
     Metrics.Response := {| StatusCode := status |}; Err := None |}.
Definition failedWith (uri : string) (err : error) : UnfinishedRequest :=
  {| Ctx := ctx; Trail := newTrail 1500000; Request := getRequest uri;
     Metrics.Response := {| StatusCode := 0 |}; Err := Some err |}.

(** A script that gives no custom tags that fail to apply. *)
Definition applyTags (tm : K6.TagsAndMeta) (extra : gmap string string)
    : K6.TagsAndMeta + error :=
  inl {| tm_Tags := extra ∪ tm_Tags tm; tm_Metadata := tm_Metadata tm |}.

Definition vu : VU :=
  {| vuState := Some state; vuContext := ctx; timeNow := 1700000000 |}.

(** A request object with a string body, as a script makes it. *)
Definition postable : RequestWrapper :=
  {| Throw := false; DisableKeepAlive := false; Url := "http://a.test/upload";
     Host := ""; Headers := ∅; Body := Some (BodyString "payload");
     req := AcquireRequest |}.

(** The pooled request after [client.get] on it. *)
Definition afterGet : Http.Request :=
  req (fst (fst (makeReqSetup None postable MethodGet))).

End Sample.

(** ** Further observations on errors *)

Module ErrorsMore.
Import Errors.

(** An error the classifier reaches no [K6Error] in, and whose HTTP/2
    subcodes are 32-bit values. *)
Fixpoint plain (err : error) : bool :=
  match err with
  | K6Error _ _ _ => false
  | GoAwayError code _ | StreamError code _ | ConnectionError code _ =>
      Z.leb 0 code && Z.ltb code (2 ^ 32)
  | OpError _ _ Err _ | SyscallError _ Err _ | URLError _ _ Err _ => plain Err
  | OtherError _ (Some wrappedErr) => plain wrappedErr
  | _ => true
  end.

(** A network name the classifier takes for TCP. *)
Definition isTCP (Net : string) : bool :=
  String.eqb Net "tcp" || String.eqb Net "tcp6".

End ErrorsMore.

(** ** client.go: the client configuration, the round trip and the
    reading of the response body *)

Module Client.
Import Errors K6 Tracer Http Metrics Fasthttp.

(** *** parseClientConfig *)

Record TLSConfig : Type := {
  InsecureSkipVerify : bool;
  PrivateKey : string;
  Certificate : string
}.

Record ClientConfig : Type := {
  DialTimeout : Z;
  Proxy : string;
  MaxConnDuration : Z;
  UserAgent : string;
  ReadBufferSize : Z;
  WriteBufferSize : Z;
  ReadTimeout : Z;
  WriteTimeout : Z;
  MaxConnsPerHost : Z;
  TLSConfigOf : TLSConfig
}.

(** [time.Second], and [defaultDialTimeout = 5 * time.Second], in
    nanoseconds. *)
Definition Second : Z := 1000000000.
Definition defaultDialTimeout : Z := 5 * Second.
Definition defaultMaxConnsPerHost : Z := 1.

(** [time.Duration(n) * time.Second]. *)
Definition seconds (n : Z) : Z := int64 (n * Second).

(** What the [Dial] function of the client does with an address: the
    time it allows, and the proxy it goes through, if any. *)
Record DialPlan : Type := {
  timeout : Z;
  through : option string
}.

Definition dial (config : ClientConfig) : DialPlan :=
  let timeout := defaultDialTimeout in
  let timeout := if Z.ltb 0 (DialTimeout config) then seconds (DialTimeout config) else timeout in
  if negb (String.eqb (Proxy config) "")
  then {| timeout := timeout; through := Some (Proxy config) |}
  else {| timeout := timeout; through := None |}.

Section ParseClientConfig.
(** Certificates, and [tls.LoadX509KeyPair] on a certificate file and a
    key file. *)
Context {Cert : Type}.
Context (LoadX509KeyPair : string -> string -> Cert + error).
Context `{Runtime}.

(** The fields [parseClientConfig] gives the [fasthttp.Client]. *)
Record HttpClient : Type := {
  clName : string;
  clMaxConnDuration : Z;
  clReadBufferSize : Z;
  clWriteBufferSize : Z;
  clWriteTimeout : Z;
  clReadTimeout : Z;
  clMaxConnsPerHost : Z;
  DisableHeaderNamesNormalizing : bool;
  tlsInsecureSkipVerify : bool;
  tlsCertificates : list Cert;
  Dial : DialPlan
}.

Definition parseClientConfig (config : ClientConfig) : HttpClient + error :=
  let tls := TLSConfigOf config in
  if negb (String.eqb (PrivateKey tls) "") && String.eqb (Certificate tls) ""
  then inr (OtherError "blank certificate" None)
  else if String.eqb (PrivateKey tls) "" && negb (String.eqb (Certificate tls) "")
  then inr (OtherError "blank private key" None)
  else
    let finish (certificates : list Cert) : HttpClient + error :=
      let maxConnsPerHost := defaultMaxConnsPerHost in
      let maxConnsPerHost :=
        if Z.ltb 0 (MaxConnsPerHost config) then MaxConnsPerHost config else maxConnsPerHost in
      inl {| clName := UserAgent config;
             clMaxConnDuration := seconds (MaxConnDuration config);
             clReadBufferSize := ReadBufferSize config;
             clWriteBufferSize := WriteBufferSize config;
             clWriteTimeout := seconds (WriteTimeout config);
             clReadTimeout := seconds (ReadTimeout config);
             clMaxConnsPerHost := maxConnsPerHost;
             DisableHeaderNamesNormalizing := true;
             tlsInsecureSkipVerify := InsecureSkipVerify tls;
             tlsCertificates := certificates;
             Dial := dial config |} in
    if negb (String.eqb (Certificate tls) "") && negb (String.eqb (PrivateKey tls) "")
    then
      match LoadX509KeyPair (Certificate tls) (PrivateKey tls) with
      | inr err => inr (OtherError ("failed to load key/cert; " +:+ Error err) None)
      | inl cert => finish [cert]
      end
    else finish [].

End ParseClientConfig.

(** *** readResponseBody *)

(** [httpext.ResponseType]: text, binary, none, or a value that is none
    of them, with the text its [String] method gives. *)
Inductive ResponseType : Type :=
  | ResponseTypeText
  | ResponseTypeBinary
  | ResponseTypeNone
  | ResponseTypeInvalid (text : string).

(** The body a response object gets: a string or bytes. *)
Inductive BodyData : Type :=
  | TextBody (s : string)
  | BinaryBody (bytes : string).

Definition StatusNoContent : Z := 204.
Definition StatusNotModified : Z := 304.

(** [readResponseBody(respType, resp)] on a response with the given
    status and body; on every path the deferred function reads the body
    and closes the body stream of [resp]. *)
Definition readResponseBody (respType : ResponseType) (status : Z) (body : string)
    : option BodyData * option error :=
  match respType with
  | ResponseTypeNone => (None, None)
  | _ =>
      if (Z.leb 100 status && Z.leb status 199)
         || Z.eqb status StatusNoContent || Z.eqb status StatusNotModified
      then (None, None)
      else
        match respType with
        | ResponseTypeText => (Some (TextBody body), None)
        | ResponseTypeBinary => (Some (BinaryBody body), None)
        | ResponseTypeInvalid text =>
            (None, Some (OtherError ("unknown responseType " +:+ text) None))
        | ResponseTypeNone => (None, None)
        end
  end.

(** *** do and makeReq *)

(** What [c.fhc.Do(req.req, resp)] returns and leaves in [resp], and
    the time it took. *)
Record Reply : Type := {
  replyErr : option error;
  replyStatus : Z;
  replyRemoteAddr : string;
  replyHeaders : list (string * string);
  replyBody : string;
  elapsed : Z
}.

(** The [Response] object of the module, with the fields [do] sets. *)
Record ResponseObject : Type := {
  respStatus : Z;
  respRemoteIP : string;
  respURL : string;
  respHeaders : gmap string string;
  respBody : option BodyData;
  respError : string;
  respErrorCode : Z
}.

(** [resp.Header.VisitAll]: each header in turn, a later value of a key
    replacing an earlier one. *)
Definition visitAll (hs : list (string * string)) : gmap string string :=
  fold_left (fun m kv => <[fst kv := snd kv]> m) hs ∅.

(** A response that [http.ReleaseResponse] has reset: it has no status
    code, and [StatusCode()] gives 200 for that. *)
Definition releasedResponse : Http.Response := {| StatusCode := 200 |}.

Definition setResponse (r : Http.Response) (u : UnfinishedRequest) : UnfinishedRequest :=
  {| Ctx := Ctx u; Trail := Trail u; Request := Request u;
     Metrics.Response := r; Err := Err u |}.

Definition setRequest (r : Http.Request) (u : UnfinishedRequest) : UnfinishedRequest :=
  {| Ctx := Ctx u; Trail := Trail u; Request := r;
     Metrics.Response := Metrics.Response u; Err := Err u |}.

(** The deferred [http.ReleaseResponse(resp)] of [do]: the request that
    [do] has just staged holds [resp] by pointer, so it sees the reset. *)
Definition ReleaseResponse : M unit :=
  fun '(t, h) =>
    Some (tt, (setLastRequest (option_map (setResponse releasedResponse) (lastRequest t)) t, h)).

Section RoundTrip.
Context `{Runtime} `{Lib}.

(** The request [do] stages for a round trip: the pooled request and the
    response as the transport left it, a new trail with the time taken,
    and the error of the transport. *)
Definition roundTrip (ctx : Context) (reqw : RequestWrapper) (reply : Reply)
    : UnfinishedRequest :=
  {| Ctx := ctx; Trail := newTrail (elapsed reply); Request := req reqw;
     Metrics.Response := {| StatusCode := replyStatus reply |};
     Err := replyErr reply |}.

(** The values [do] reaches its [return] statements with: nothing and
    the error of the transport; or the response object, with the code
    and message of the error of [readResponseBody] if it gives one. *)
Definition answer (reqw : RequestWrapper) (respType : ResponseType) (reply : Reply)
    : option ResponseObject * option error :=
  match replyErr reply with
  | Some err => (None, Some err)
  | None =>
      match readResponseBody respType (replyStatus reply) (replyBody reply) with
      | (_, Some err) =>
          let '(code, msg) := ErrorCodeForError err in
          (Some {| respStatus := replyStatus reply;
                   respRemoteIP := replyRemoteAddr reply;
                   respURL := URIString (req reqw);
                   respHeaders := visitAll (replyHeaders reply);
                   respBody := None; respError := msg; respErrorCode := code |},
           Some err)
      | (body, None) =>
          (Some {| respStatus := replyStatus reply;
                   respRemoteIP := replyRemoteAddr reply;
                   respURL := URIString (req reqw);
                   respHeaders := visitAll (replyHeaders reply);
                   respBody := body; respError := ""; respErrorCode := 0 |},
           None)
      end
  end.

(** [do(ctx, req)], where the transport answers with [reply] and the
    wrapper asks for the response type [respType]. The deferred function
    releases the response and drops the error unless [Throw] is set. *)
Definition do (ctx : Context) (reqw : RequestWrapper) (respType : ResponseType)
    (reply : Reply) : M (option ResponseObject * option error) :=
  ProcessLastSavedRequest ctx None;;
  SaveCurrentRequest ctx (roundTrip ctx reqw reply);;
  match replyErr reply with
  | Some _ => if negb (Throw reqw) then note (EvWarn "Request Failed") else mret tt
  | None => mret tt
  end;;
  ReleaseResponse;;
  mret (fst (answer reqw respType reply),
        if Throw reqw then snd (answer reqw respType reply) else None).

(** What a call of [makeReq] leaves: what it returns, the request the
    wrapper holds afterwards ([req.req], nil after the deferred
    function), and the request given back to the pool. *)
Record MakeReqOutcome : Type := {
  response : option ResponseObject;
  err : option error;
  reqAfter : option Http.Request;
  putBack : option Http.Request
}.

(** [metricsSetupOnce.Do]: the dispatcher is made at the first use, from
    the tags the VU has then. *)
Definition setupMetrics (vuState : K6.State) (metrics : option MetricDispatcher)
    : MetricDispatcher :=
  match metrics with
  | Some t => t
  | None => NewMetricDispatcher (CurrentTags vuState) vuState
  end.

(** The request staged in the dispatcher holds its [fasthttp.Request] by
    pointer: when that is the pooled instance, it sees what the set-up
    leaves in it. *)
Definition shareRequest (r : Http.Request) (t : MetricDispatcher) : MetricDispatcher :=
  setLastRequest (option_map (setRequest r) (lastRequest t)) t.

(** [makeReq(req, method)] on a client whose dispatcher is [metrics]
    ([None] before the first request). [pooled] is what [reqPool.Get()]
    gives, and [staged] says whether the request still staged in the
    dispatcher was sent with that very instance. *)
Definition makeReq (vuState : K6.State) (ctx : Context)
    (pooled : option Http.Request) (staged : bool)
    (reqw : RequestWrapper) (respType : ResponseType) (method : string) (reply : Reply)
    (metrics : option MetricDispatcher) (h : list Event)
    : option (MakeReqOutcome * (option MetricDispatcher * list Event)) :=
  match makeReqSetup pooled reqw method with
  | (reqw, log, Some err) =>
      Some ({| response := None; err := Some err;
               reqAfter := Some (req reqw); putBack := None |},
            (metrics, h ++ map EvWarn log))
  | (reqw, log, None) =>
      let t := setupMetrics vuState metrics in
      let t :=
        match pooled with
        | Some _ => if staged then shareRequest (req reqw) t else t
        | None => t
        end in
      match do ctx reqw respType reply (t, h ++ map EvWarn log) with
      | None => None
      | Some ((resp, err), (t, h)) =>
          Some ({| response := match err with Some _ => None | None => resp end;
                   err := err;
                   reqAfter := None; putBack := Some (req reqw) |},
                (Some t, h))
      end
  end.

End RoundTrip.

End Client.

(** ** Further observations on histories *)

(** ** The headers of a request object *)

Module FasthttpMore.
Import Http Fasthttp.

(** The name under which [Header.Set] files the header [field] of a
    wrapper on the request it holds. *)
Definition headerName (reqw : RequestWrapper) (field : string) : string :=
  normalizeHeaderKey (disableNormalizing (req reqw)) field.

(** Whether [Header.Set] takes [field] for the header [name]. *)
Definition named (name : string) (reqw : RequestWrapper) (field : string) : bool :=
  caseInsensitiveCompare name (headerName reqw field).

(** The wrapper has no header that is taken for [name]. *)
Definition absent (name : string) (reqw : RequestWrapper) : Prop :=
  map_Forall (fun field _ => named name reqw field = false) (Headers reqw).

(** [field] is the only header of the map that [sel] picks. *)
Definition sole (sel : string -> bool) (field : string) (m : gmap string string) : Prop :=
  map_Forall (fun field' _ => sel field' = true -> field' = field) m.

(** The headers of the wrapper that are filed under the name of
    [field]. *)
Definition sameName (reqw : RequestWrapper) (field field' : string) : bool :=
  String.eqb (headerName reqw field') (headerName reqw field).

(** The request a successful [setupNewReq] leaves, by the request [r]
    it has made before the close flag and the headers are set. *)
Definition finished (reqw : RequestWrapper) (m : string) (r : Request) : Request :=
  SetMethod m
    (map_fold SetHeader (if DisableKeepAlive reqw then SetConnectionClose r else r)
       (Headers reqw)).

(** The request after the first lines of [setupNewReq]. *)
Definition addressed (reqw : RequestWrapper) : Request :=
  if negb (String.eqb (Host reqw) "")
  then SetHost (Host reqw) (SetUseHostHeader true (SetRequestURI (Url reqw) (req reqw)))
  else SetRequestURI (Url reqw) (req reqw).

End FasthttpMore.

Module MetricsMore.
Import Errors K6 Tracer Http Metrics.

(** The trails that reached the sample channel, in order. *)
Fixpoint pushedOf (h : list Event) : list Tracer.Trail :=
  match h with
  | [] => []
  | EvEmit _ fr true :: h => FinishedTrail fr :: pushedOf h
  | _ :: h => pushedOf h
  end.

(** The results of the calls of [measureAndEmitMetrics], in order. *)
Fixpoint resultsOf (h : list Event) : list FinishedRequest :=
  match h with
  | [] => []
  | EvEmit _ fr _ :: h => fr :: resultsOf h
  | _ :: h => resultsOf h
  end.

(** The warnings written to the log, in order. *)
Fixpoint warningsOf (h : list Event) : list string :=
  match h with
  | [] => []
  | EvWarn msg :: h => msg :: warningsOf h
  | _ :: h => warningsOf h
  end.

(** The status the response callback is asked about. *)
Definition callbackStatus (u : UnfinishedRequest) : Z :=
  match Err u with
  | None => StatusCode (Response u)
  | Some _ => 0
  end.

End MetricsMore.

(** ** More concrete values, for the examples *)

Module SampleMore.
Import Errors K6 Tracer Http Metrics Fasthttp Client Sample.

(** A file at offset 10 that can be rewound, and one whose seek fails. *)
Definition openFile : File := {| offset := 10; seekErr := None |}.
Definition closedFile : File :=
  {| offset := 10; seekErr := Some (OtherError "seek: file already closed" None) |}.

(** A request object that streams a file. *)
Definition streaming (f : File) : RequestWrapper :=
  {| Throw := false; DisableKeepAlive := true; Url := "http://a.test/upload";
     Host := "upload.test"; Headers := {["Content-Type" := "application/octet-stream"]};
     Body := Some (BodyFileStream f); req := AcquireRequest |}.

(** A request object with a header of its own, a Host header beside
    its [Host] and a Content-Length header. *)
Definition labelled : RequestWrapper :=
  {| Throw := false; DisableKeepAlive := true; Url := "http://a.test/upload";
     Host := "a.test";
     Headers := <["x-token" := "abc"]> (<["host" := "b.test"]> {["content-length" := "5"]});
     Body := Some (BodyString "payload"); req := AcquireRequest |}.

(** The same headers on a request object that streams a file. *)
Definition labelledStream (f : File) : RequestWrapper :=
  withBody (Some (BodyFileStream f)) labelled.

(** A request object whose body is of no supported type. *)
Definition odd : RequestWrapper :=
  {| Throw := true; DisableKeepAlive := false; Url := "http://a.test/";
     Host := ""; Headers := ∅; Body := Some BodyOther; req := AcquireRequest |}.

(** An answer of the transport with a status and a body. *)
Definition answeredWith (status : Z) (body : string) : Reply :=
  {| replyErr := None; replyStatus := status; replyRemoteAddr := "10.0.0.1:80";
     replyHeaders := [("Content-Type", "text/plain")]; replyBody := body; elapsed := 7 |}.

(** A key pair loader that accepts every pair of files. *)
Definition loadPair (certFile keyFile : string) : string + error :=
  inl (certFile +:+ "+" +:+ keyFile).

Definition plainConfig : ClientConfig :=
  {| DialTimeout := 0; Proxy := ""; MaxConnDuration := 0; UserAgent := "k6";
     ReadBufferSize := 0; WriteBufferSize := 0; ReadTimeout := 0; WriteTimeout := 0;
     MaxConnsPerHost := 0;
     TLSConfigOf := {| InsecureSkipVerify := true; PrivateKey := ""; Certificate := "" |} |}.

(** A VU in the middle of a run with one check already counted. *)
Definition countedState : K6.State :=
  {| SystemTags := fun _ => true; BuiltinMetricsOf := builtin;
     CurrentTags := noTags;
     Group := {["check status is 200" :=
                  {| Name := "check status is 200"; Passes := 3; Fails := 1 |}]} |}.
Definition countedVU : VU :=
  {| vuState := Some countedState; vuContext := ctx; timeNow := 1700000000 |}.

End SampleMore.

(** * Properties *)

(** ** The error classifier *)

Module ErrorsProps.
Import Errors.

Section WithRuntime.
Context `{Runtime}.

(** One transparent layer is looked through. *)
Lemma transparent_wrapper_classify (outer cause : error) :
  transparent_wrapper outer cause ->
  ErrorCodeForError outer = ErrorCodeForError cause.
Proof.
  intros [Hrec Hun].
  destruct outer; simpl in Hrec, Hun; try discriminate.
  - injection Hun as ->. reflexivity.
  - injection Hun as ->. reflexivity.
  - subst unwrap. reflexivity.
Qed.

Lemma wraps_classify (e cause : error) :
  wraps e cause -> ErrorCodeForError e = ErrorCodeForError cause.
Proof.
  induction 1 as [e | outer mid cause Hlayer _ IH].
  - reflexivity.
  - rewrite (transparent_wrapper_classify _ _ Hlayer). exact IH.
Qed.

Lemma url_error_transparent (op url text : string) (cause : error) :
  transparent_wrapper (URLError op url cause text) cause.
Proof. split; reflexivity. Qed.

Lemma other_error_transparent (text : string) (cause : error) :
  transparent_wrapper (OtherError text (Some cause)) cause.
Proof. split; reflexivity. Qed.

(** The codes of the known protocol subcodes and of the others. *)
Lemma http2ErrCodeOffset_known (code : Z) :
  0 <= code <= ErrCodeHTTP11Required -> http2ErrCodeOffset code = 1 + code.
Proof.
  unfold http2ErrCodeOffset, ErrCodeHTTP11Required, uint32. intros Hc.
  destruct (Z.ltb_spec 13 code); [lia |].
  apply Z.mod_small. lia.
Qed.

Lemma http2ErrCodeOffset_unknown (code : Z) :
  ErrCodeHTTP11Required < code -> http2ErrCodeOffset code = 0.
Proof.
  unfold http2ErrCodeOffset. intros Hc.
  destruct (Z.ltb_spec ErrCodeHTTP11Required code); [reflexivity | lia].
Qed.

Lemma uint32_small (z : Z) : 0 <= z < 2 ^ 32 -> uint32 z = z.
Proof. intros Hz. unfold uint32. apply Z.mod_small. exact Hz. Qed.

(** C3: an error two transparent layers above its cause (each layer a
    [*url.Error], or an error of a type the switch does not name whose
    [Unwrap] gives the next one) is classified as the cause is; and a
    URL error around a DNS failure "no such host", directly or through
    such a layer, gets the code 1101 of the DNS partition, which is not
    the fallback 1000. *)
Theorem classify_through_transparent_wrappers (outer inner cause : error) :
  transparent_wrapper outer inner ->
  transparent_wrapper inner cause ->
  ErrorCodeForError outer = ErrorCodeForError cause
  /\ (forall op url text dns,
        ErrorCodeForError (URLError op url (DNSError "no such host" dns) text)
        = (1101, "lookup: no such host"))
  /\ (forall dns, cause = DNSError "no such host" dns ->
        fst (ErrorCodeForError outer) = 1101)
  /\ dnsNoSuchHostErrorCode = 1101
  /\ defaultErrorCode = 1000.
Proof.
  intros Houter Hinner.
  assert (Heq : ErrorCodeForError outer = ErrorCodeForError cause).
  { apply wraps_classify.
    eapply wraps_layer; [exact Houter |].
    eapply wraps_layer; [exact Hinner | apply wraps_here]. }
  split; [exact Heq |].
  split; [reflexivity |].
  split; [| split; reflexivity].
  intros dns ->. rewrite Heq. reflexivity.
Qed.

(** C5: a GoAway, stream or connection error with a protocol subcode of
    at most 13 gets the base code of its partition plus 1 plus the
    subcode; with a larger subcode it gets the base code itself: 1610,
    1630 or 1650. The classifier is a total function, so it returns in
    both cases. *)
Theorem http2_codes (code : Z) (text : string) :
  0 <= code < 2 ^ 32 ->
  (code <= ErrCodeHTTP11Required ->
     fst (ErrorCodeForError (GoAwayError code text)) = 1610 + 1 + code
     /\ fst (ErrorCodeForError (StreamError code text)) = 1630 + 1 + code
     /\ fst (ErrorCodeForError (ConnectionError code text)) = 1650 + 1 + code)
  /\ (ErrCodeHTTP11Required < code ->
     fst (ErrorCodeForError (GoAwayError code text)) = 1610
     /\ fst (ErrorCodeForError (StreamError code text)) = 1630
     /\ fst (ErrorCodeForError (ConnectionError code text)) = 1650)
  /\ ErrCodeHTTP11Required = 13.
Proof.
  intros Hrange. split; [| split; [| reflexivity]].
  - intros Hk. simpl.
    rewrite http2ErrCodeOffset_known by lia.
    unfold unknownHTTP2GoAwayErrorCode, unknownHTTP2StreamErrorCode,
      unknownHTTP2ConnectionErrorCode, ErrCodeHTTP11Required in *.
    rewrite !uint32_small by lia. lia.
  - intros Hu. simpl.
    rewrite http2ErrCodeOffset_unknown by exact Hu.
    repeat split; reflexivity.
Qed.

(** C8: the classifier returns a code and a message for every error; an
    error of a type no case of the switch names, and which wraps nothing,
    gets the fallback code 1000 with its own [Error] text; a [K6Error]
    gets its stored code and message. *)
Theorem classify_total_fallback_verbatim (err : error) :
  (exists code msg, ErrorCodeForError err = (code, msg))
  /\ (recognized err = false -> Unwrap err = None ->
        ErrorCodeForError err = (1000, Error err))
  /\ (forall code msg orig, err = K6Error code msg orig ->
        ErrorCodeForError err = (code, msg)).
Proof.
  split; [| split].
  - destruct (ErrorCodeForError err) as [code msg]. eauto.
  - intros Hrec Hun.
    destruct err; simpl in Hrec, Hun; try discriminate.
    + reflexivity.
    + subst unwrap. reflexivity.
  - intros code msg orig ->. reflexivity.
Qed.

End WithRuntime.

Import Sample.

Lemma classify_through_transparent_wrappers_witness :
  ErrorCodeForError
    (Errors.URLError "Get" "https://nowhere.invalid/"
       (OtherError "dial failed" (Some (DNSError "no such host" "lookup nowhere.invalid: no such host")))
       "Get https://nowhere.invalid/: dial failed")
  = (1101, "lookup: no such host").
Proof.
  pose proof (classify_through_transparent_wrappers
                (H := Sample.runtime)
                (Errors.URLError "Get" "https://nowhere.invalid/"
                   (OtherError "dial failed"
                      (Some (DNSError "no such host" "lookup nowhere.invalid: no such host")))
                   "Get https://nowhere.invalid/: dial failed")
                (OtherError "dial failed"
                   (Some (DNSError "no such host" "lookup nowhere.invalid: no such host")))
                (DNSError "no such host" "lookup nowhere.invalid: no such host")
                (conj eq_refl eq_refl) (conj eq_refl eq_refl)) as [Heq _].
  rewrite Heq. reflexivity.
Defined.

Lemma http2_codes_witness :
  fst (ErrorCodeForError (GoAwayError 2 "")) = 1613
  /\ fst (ErrorCodeForError (StreamError 8 "")) = 1639
  /\ fst (ErrorCodeForError (ConnectionError 13 "")) = 1664
  /\ fst (ErrorCodeForError (GoAwayError 14 "")) = 1610
  /\ fst (ErrorCodeForError (StreamError 4294967295 "")) = 1630.
Proof.
  pose proof (http2_codes (H := Sample.runtime) 2 "" ltac:(lia)) as [H2 _].
  destruct (H2 ltac:(unfold ErrCodeHTTP11Required; lia)) as [Hg _].
  split; [exact Hg |].
  repeat split; reflexivity.
Defined.

Lemma classify_total_fallback_verbatim_witness :
  ErrorCodeForError (OtherError "boom" None) = (1000, "boom").
Proof.
  pose proof (classify_total_fallback_verbatim (H := Sample.runtime)
                (OtherError "boom" None)) as [_ [Hfall _]].
  exact (Hfall eq_refl eq_refl).
Defined.

End ErrorsProps.

(** ** Trail samples *)

Module TracerProps.
Import K6 Tracer.

(** What [SaveSamples] leaves in the trail does not depend on the
    samples, tags and metadata the trail held before. *)
Lemma SaveSamples_overwrites (b1 b2 : BuiltinMetrics) (c1 c2 : TagsAndMeta) (tr : Trail) :
  SaveSamples b2 c2 (SaveSamples b1 c1 tr) = SaveSamples b2 c2 tr.
Proof. reflexivity. Qed.

Lemma SaveSamples_metrics (b : BuiltinMetrics) (ctm : TagsAndMeta) (tr : Trail) :
  map (fun s => ts_Metric (s_TimeSeries s)) (Samples (SaveSamples b ctm tr))
  = [HTTPReqs b; HTTPReqDuration b].
Proof. reflexivity. Qed.

(** C9, as the code has it: [SaveSamples] starts from an empty sample
    list, so a second call with the same arguments leaves the trail as
    the first call left it, holding the request-count sample and the
    request-duration sample once each. *)
Theorem SaveSamples_idempotent (b : BuiltinMetrics) (ctm : TagsAndMeta) (tr : Trail) :
  SaveSamples b ctm (SaveSamples b ctm tr) = SaveSamples b ctm tr
  /\ map (fun s => ts_Metric (s_TimeSeries s))
         (Samples (SaveSamples b ctm (SaveSamples b ctm tr)))
     = [HTTPReqs b; HTTPReqDuration b]
  /\ length (Samples (SaveSamples b ctm (SaveSamples b ctm tr))) = 2%nat.
Proof. repeat split; reflexivity. Qed.

(** After two calls on a fresh trail there are two samples, not four:
    one for http_reqs and one for http_req_duration. *)
Lemma SaveSamples_twice_holds_two_samples :
  length (Samples (SaveSamples Sample.builtin Sample.noTags
                     (SaveSamples Sample.builtin Sample.noTags (newTrail 1500000))))
  = 2%nat
  /\ map (fun s => ts_Metric (s_TimeSeries s))
         (Samples (SaveSamples Sample.builtin Sample.noTags
                     (SaveSamples Sample.builtin Sample.noTags (newTrail 1500000))))
     = ["http_reqs"; "http_req_duration"].
Proof. split; reflexivity. Qed.

End TracerProps.

(** ** The metric dispatcher *)

Module MetricsProps.
Import Errors K6 Tracer Http Metrics.

Section WithLibs.
Context `{Runtime} `{Lib}.

Ltac run_monad :=
  unfold mbind, M_bind, mret, M_ret, Lock, Unlock, storeLastRequest, this, note;
  simpl.

Lemma measureAndEmitMetrics_run ctx u t h :
  measureAndEmitMetrics ctx u (t, h) = Some (measure t u, (t, h ++ emission ctx t u)).
Proof. reflexivity. Qed.

Lemma ProcessLastSavedRequest_run ctx lastErr t h :
  lastRequestLock t = false ->
  ProcessLastSavedRequest ctx lastErr (t, h)
  = Some (option_map (fun u => measure t (attachErr lastErr u)) (lastRequest t),
          (after (Drain ctx lastErr) t, h ++ eventsOf (Drain ctx lastErr) t)).
Proof.
  destruct t as [st tm cb slot held]. simpl. intros ->.
  unfold ProcessLastSavedRequest, measureAndEmitMetrics. run_monad.
  destruct slot as [u |]; simpl; rewrite <- !app_assoc; reflexivity.
Qed.

Lemma SaveCurrentRequest_run ctx r t h :
  lastRequestLock t = false ->
  SaveCurrentRequest ctx r (t, h)
  = Some (tt, (after (Stage ctx r) t, h ++ eventsOf (Stage ctx r) t)).
Proof.
  destruct t as [st tm cb slot held]. simpl. intros ->.
  unfold SaveCurrentRequest, measureAndEmitMetrics. run_monad.
  destruct slot as [u |]; simpl; rewrite <- !app_assoc; reflexivity.
Qed.

Lemma step_run op t h :
  lastRequestLock t = false ->
  step op (t, h) = Some (tt, (after op t, h ++ eventsOf op t)).
Proof.
  intros Hfree. destruct op as [ctx r | ctx lastErr]; simpl.
  - apply SaveCurrentRequest_run, Hfree.
  - unfold mbind, M_bind.
    rewrite (ProcessLastSavedRequest_run ctx lastErr t h Hfree). reflexivity.
Qed.

Lemma after_free op t : lastRequestLock t = false -> lastRequestLock (after op t) = false.
Proof. destruct op; simpl; auto. Qed.

Lemma run_run ops : forall t h,
  lastRequestLock t = false ->
  run ops (t, h) = Some (tt, (afterAll ops t, h ++ eventsAll ops t)).
Proof.
  induction ops as [| op ops IH]; intros t h Hfree; simpl.
  - rewrite app_nil_r. reflexivity.
  - unfold mbind, M_bind. rewrite (step_run op t h Hfree).
    rewrite (IH _ _ (after_free op t Hfree)). rewrite <- app_assoc. reflexivity.
Qed.

(** *** Every operation returns, and what it leaves *)

Lemma afterAll_free ops : forall t,
  lastRequestLock t = false -> lastRequestLock (afterAll ops t) = false.
Proof.
  induction ops as [| op ops IH]; intros t Hfree; simpl; [exact Hfree |].
  apply IH, after_free, Hfree.
Qed.

Lemma afterAll_slot ops : forall t,
  lastRequest (afterAll ops t) = slotAfter (lastRequest t) ops.
Proof.
  induction ops as [| [ctx r | ctx lastErr] ops IH]; intros t; simpl;
    [reflexivity | rewrite IH; reflexivity ..].
Qed.

Lemma afterAll_fixed ops : forall t,
  State (afterAll ops t) = State t
  /\ TagsAndMeta (afterAll ops t) = TagsAndMeta t
  /\ responseCallback (afterAll ops t) = responseCallback t.
Proof.
  induction ops as [| op ops IH]; intros t; simpl; [auto |].
  destruct (IH (after op t)) as (-> & -> & ->). destruct op; auto.
Qed.

(** *** Each staged request is measured once, in order *)

Lemma enriched_refl r : enriched r r.
Proof. exists None. unfold attachErr. destruct (Err r); reflexivity. Qed.

Lemma measuredOf_app h1 h2 : measuredOf (h1 ++ h2) = measuredOf h1 ++ measuredOf h2.
Proof.
  induction h1 as [| e h1 IH]; simpl; [reflexivity |].
  destruct e; simpl; rewrite IH; reflexivity.
Qed.

Lemma measuredOf_eventsOf op t :
  Forall2 enriched (pending t) (measuredOf (eventsOf op t)).
Proof.
  unfold pending.
  destruct op as [ctx r | ctx lastErr]; simpl; destruct (lastRequest t) as [u |]; simpl;
    repeat constructor.
  - apply enriched_refl.
  - exists lastErr. reflexivity.
Qed.

Lemma staged_measured ops : forall t,
  Forall2 enriched (pending t ++ stagedOf ops)
    (measuredOf (eventsAll ops t) ++ pending (afterAll ops t)).
Proof.
  induction ops as [| op ops IH]; intros t; simpl.
  - rewrite app_nil_r. apply Forall2_same_length_lookup_2.
    + reflexivity.
    + intros i x y Hx Hy. rewrite Hx in Hy. injection Hy as <-. apply enriched_refl.
  - rewrite measuredOf_app, <- app_assoc.
    specialize (IH (after op t)).
    assert (Hsplit : pending (after op t) ++ stagedOf ops
                     = stagedOf (op :: ops)).
    { destruct op; reflexivity. }
    rewrite Hsplit in IH.
    apply Forall2_app; [apply measuredOf_eventsOf | exact IH].
Qed.

(** *** The mutex covers the assignment of the slot, not the emission *)

Lemma disciplined_app h1 : forall held h2,
  disciplined held h1 = true -> disciplined false h2 = true ->
  disciplined held (h1 ++ h2) = true.
Proof.
  induction h1 as [| e h1 IH]; intros held h2 H1 H2; simpl in *.
  - destruct held; [discriminate | exact H2].
  - destruct e; simpl in *;
      try (apply andb_true_iff in H1 as [Ha Hb]; apply andb_true_iff; split;
           [exact Ha | eapply IH; eassumption]);
      eapply IH; eassumption.
Qed.

Lemma disciplined_eventsOf op t : disciplined false (eventsOf op t) = true.
Proof.
  destruct op as [ctx r | ctx lastErr]; simpl; destruct (lastRequest t); reflexivity.
Qed.

Lemma disciplined_eventsAll ops : forall t, disciplined false (eventsAll ops t) = true.
Proof.
  induction ops as [| op ops IH]; intros t; simpl; [reflexivity |].
  apply disciplined_app; [apply disciplined_eventsOf | apply IH].
Qed.

(** *** Each request is emitted after the assignment that took it out *)

Lemma emitsAfterSwap_eventsOf op t rest :
  emitsAfterSwap (lastRequest (after op t)) None false rest ->
  emitsAfterSwap (lastRequest t) None false (eventsOf op t ++ rest).
Proof.
  intros Hrest.
  destruct op as [ctx r | ctx lastErr]; simpl; destruct (lastRequest t) as [u |]; simpl;
    repeat (split; [reflexivity |]); try exact Hrest.
  - split; [| exact Hrest]. exists u. split; [reflexivity | apply enriched_refl].
  - split; [| exact Hrest]. exists u. split; [reflexivity |]. exists lastErr. reflexivity.
Qed.

Lemma emitsAfterSwap_eventsAll ops : forall t,
  emitsAfterSwap (lastRequest t) None false (eventsAll ops t).
Proof.
  induction ops as [| op ops IH]; intros t; simpl; [reflexivity |].
  apply emitsAfterSwap_eventsOf, IH.
Qed.

Lemma pushesOf_app h1 h2 : pushesOf (h1 ++ h2) = pushesOf h1 ++ pushesOf h2.
Proof.
  induction h1 as [| e h1 IH]; simpl; [reflexivity |].
  destruct e; simpl; rewrite IH; reflexivity.
Qed.

Lemma pushesOf_eventsAll ops : forall t,
  pushesOf (eventsAll ops t)
  = map (fun ctx => negb (Done ctx)) (emitters (lastRequest t) ops).
Proof.
  induction ops as [| op ops IH]; intros t; simpl; [reflexivity |].
  rewrite pushesOf_app, IH.
  destruct op as [ctx r | ctx lastErr]; simpl; destruct (lastRequest t); reflexivity.
Qed.

(** *** What every emission of a history is *)

(** Every emission in the history of [ops] is the result of [measure]
    on the dispatcher the sequence started from. *)
Lemma emissions_eventsAll ops : forall t,
  Forall (fun e => match e with
                   | EvEmit u fr _ => fr = measure t u
                   | _ => True
                   end) (eventsAll ops t).
Proof.
  induction ops as [| op ops IH]; intros t; simpl; [constructor |].
  apply Forall_app. split.
  - destruct op as [ctx r | ctx lastErr]; simpl; destruct (lastRequest t);
      repeat constructor.
  - specialize (IH (after op t)).
    eapply Forall_impl; [exact IH |].
    intros [| | | |u fr p]; try exact (fun x => x).
    intros ->. destruct op; reflexivity.
Qed.

(** *** Tags *)

Lemma lookup_set_enabled en tag v tm :
  Has en tag = true ->
  tm_Tags (SetSystemTagOrMetaIfEnabled en tag v tm) !! TagString tag = Some v.
Proof.
  intros Hen. unfold SetSystemTagOrMetaIfEnabled. rewrite Hen. simpl.
  apply lookup_insert_eq.
Qed.

Lemma lookup_set_other en tag v tm k :
  TagString tag <> k ->
  tm_Tags (SetSystemTagOrMetaIfEnabled en tag v tm) !! k = tm_Tags tm !! k.
Proof.
  intros Hne. unfold SetSystemTagOrMetaIfEnabled.
  destruct (Has en tag); [| reflexivity]. simpl.
  apply lookup_insert_ne. exact Hne.
Qed.

Ltac other_key :=
  repeat (rewrite lookup_set_other by (simpl; congruence)); try reflexivity.

Lemma tagNameAndURL_other en u tm k :
  k <> "name" -> k <> "url" ->
  tm_Tags (tagNameAndURL en u tm) !! k = tm_Tags tm !! k.
Proof.
  intros Hn Hu. unfold tagNameAndURL.
  destruct (tm_Tags tm !! TagString TagName); other_key.
Qed.

Lemma tagOutcome_other en u tm k :
  k <> "error" -> k <> "error_code" -> k <> "status" ->
  tm_Tags (snd (tagOutcome en u tm)) !! k = tm_Tags tm !! k.
Proof.
  intros He Hc Hs. unfold tagOutcome.
  destruct (Err u) as [e |].
  - destruct (ErrorCodeForError e) as [code msg]. simpl. other_key.
  - destruct (Z.leb 400 (StatusCode (Response u))); simpl; other_key.
Qed.

Lemma tagIP_other en trail tm k :
  k <> "ip" -> tm_Tags (tagIP en trail tm) !! k = tm_Tags tm !! k.
Proof.
  intros Hk. unfold tagIP.
  destruct (Has en TagIP); [| reflexivity].
  destruct (ConnRemoteAddr trail) as [addr |]; [| reflexivity].
  destruct (SplitHostPort addr); [| reflexivity].
  simpl. apply lookup_insert_ne. congruence.
Qed.

Lemma tagExpected_other cb en u tm k :
  k <> "expected_response" ->
  tm_Tags (snd (tagExpected cb en u tm)) !! k = tm_Tags tm !! k.
Proof.
  intros Hk. unfold tagExpected. destruct cb; simpl; other_key.
Qed.

Lemma tagExpected_none en u tm : tagExpected None en u tm = (false, tm).
Proof. reflexivity. Qed.

Lemma measure_code t u :
  (ErrorCode (measure t u), ErrorMsg (measure t u))
  = fst (tagOutcome (SystemTags (State t)) u (tagsBefore t u)).
Proof.
  unfold measure, tagsBefore.
  destruct (tagOutcome _ _ _) as [[code msg] tm].
  destruct (tagExpected _ _ _ _) as [failed tm']. reflexivity.
Qed.

Lemma measure_unfinished t u :
  Err (Unfinished (measure t u)) = Err u
  /\ Request (Unfinished (measure t u)) = Request u
  /\ Response (Unfinished (measure t u)) = Response u
  /\ Ctx (Unfinished (measure t u)) = Ctx u
  /\ Trail (Unfinished (measure t u)) = FinishedTrail (measure t u).
Proof.
  unfold measure.
  destruct (tagOutcome _ _ _) as [[code msg] tm].
  destruct (tagExpected _ _ _ _) as [failed tm']. repeat split; reflexivity.
Qed.

Lemma recordFailed_tags cb b failed tm tr :
  Tags (recordFailed cb b failed tm tr) = Tags tr.
Proof. destruct cb; reflexivity. Qed.

Lemma measure_tag t u tag :
  tag <> TagIP -> tag <> TagExpectedResponse ->
  tagOf (measure t u) tag
  = tm_Tags (snd (tagOutcome (SystemTags (State t)) u (tagsBefore t u))) !! TagString tag.
Proof.
  intros Hip Hexp. unfold tagOf, measure. fold (tagsBefore t u).
  destruct (tagOutcome _ _ _) as [[code msg] tm].
  pose proof (tagExpected_other (responseCallback t) (SystemTags (State t)) u
                (tagIP (SystemTags (State t)) (Trail u) tm) (TagString tag)) as Hx.
  destruct (tagExpected _ _ _ _) as [failed tm']. simpl in *.
  rewrite recordFailed_tags. simpl.
  rewrite Hx by (destruct tag; simpl; congruence).
  apply tagIP_other. destruct tag; simpl; congruence.
Qed.

Lemma tagOutcome_error en u tm e :
  Err u = Some e ->
  fst (tagOutcome en u tm) = ErrorCodeForError e
  /\ (Has en TagStatus = true ->
      tm_Tags (snd (tagOutcome en u tm)) !! "status" = Some "0")
  /\ (Has en TagErrorCode = true ->
      tm_Tags (snd (tagOutcome en u tm)) !! "error_code"
      = Some (Itoa (fst (ErrorCodeForError e))))
  /\ (Has en TagError = true ->
      tm_Tags (snd (tagOutcome en u tm)) !! "error"
      = Some (snd (ErrorCodeForError e))).
Proof.
  intros He. unfold tagOutcome. rewrite He.
  destruct (ErrorCodeForError e) as [code msg]. simpl.
  split; [reflexivity |]. split; [| split]; intros Hen.
  - apply (lookup_set_enabled en TagStatus). exact Hen.
  - rewrite lookup_set_other by (simpl; congruence).
    apply (lookup_set_enabled en TagErrorCode). exact Hen.
  - rewrite !lookup_set_other by (simpl; congruence).
    apply (lookup_set_enabled en TagError). exact Hen.
Qed.

Lemma synthetic_code status :
  400 <= status < 2 ^ 32 - 1000 -> uint32 (int64 (1000 + status)) = 1000 + status.
Proof.
  intros Hs. unfold uint32, int64.
  rewrite (Z.mod_small (1000 + status + 2 ^ 63)) by lia.
  replace (1000 + status + 2 ^ 63 - 2 ^ 63) with (1000 + status) by lia.
  apply Z.mod_small. lia.
Qed.

(** The conversion of a Go [int] to a [uint32] keeps the low 32 bits. *)
Lemma uint32_int64 x : uint32 (int64 x) = x mod 2 ^ 32.
Proof.
  unfold uint32, int64.
  rewrite (Z.mod_eq (x + 2 ^ 63) (2 ^ 64)) by lia.
  replace (x + 2 ^ 63 - 2 ^ 64 * ((x + 2 ^ 63) / 2 ^ 64) - 2 ^ 63)
    with (x + (- (2 ^ 32 * ((x + 2 ^ 63) / 2 ^ 64))) * 2 ^ 32) by lia.
  apply Z_mod_plus_full.
Qed.

Lemma tagOutcome_high en u tm :
  Err u = None ->
  400 <= StatusCode (Response u) ->
  fst (tagOutcome en u tm) = ((1000 + StatusCode (Response u)) mod 2 ^ 32, "")
  /\ (Has en TagErrorCode = true ->
      tm_Tags (snd (tagOutcome en u tm)) !! "error_code"
      = Some (Itoa ((1000 + StatusCode (Response u)) mod 2 ^ 32))).
Proof.
  intros He Hs. unfold tagOutcome. rewrite He.
  destruct (Z.leb_spec 400 (StatusCode (Response u))); [| lia].
  simpl. rewrite uint32_int64. split; [reflexivity |].
  intros Hen. apply (lookup_set_enabled en TagErrorCode). exact Hen.
Qed.

Lemma tagOutcome_status en u tm :
  Err u = None ->
  (Has en TagStatus = true ->
     tm_Tags (snd (tagOutcome en u tm)) !! "status"
     = Some (Itoa (StatusCode (Response u))))
  /\ (400 <= StatusCode (Response u) < 2 ^ 32 - 1000 ->
      fst (tagOutcome en u tm) = (1000 + StatusCode (Response u), "")
      /\ (Has en TagErrorCode = true ->
          tm_Tags (snd (tagOutcome en u tm)) !! "error_code"
          = Some (Itoa (1000 + StatusCode (Response u)))))
  /\ (StatusCode (Response u) < 400 ->
      fst (tagOutcome en u tm) = (0, "")
      /\ tm_Tags (snd (tagOutcome en u tm)) !! "error_code"
         = tm_Tags tm !! "error_code").
Proof.
  intros He. unfold tagOutcome. rewrite He.
  split; [| split].
  - intros Hen. destruct (Z.leb 400 (StatusCode (Response u))); simpl.
    + rewrite lookup_set_other by (simpl; congruence).
      apply (lookup_set_enabled en TagStatus). exact Hen.
    + apply (lookup_set_enabled en TagStatus). exact Hen.
  - intros Hs. destruct (Z.leb_spec 400 (StatusCode (Response u))); [| lia].
    simpl. rewrite synthetic_code by exact Hs. split; [reflexivity |].
    intros Hen. apply (lookup_set_enabled en TagErrorCode). exact Hen.
  - intros Hs. destruct (Z.leb_spec 400 (StatusCode (Response u))); [lia |].
    simpl. split; [reflexivity |]. other_key.
Qed.

(** *** The dispatcher's contract *)

(** C1, as the code has it: run one after another on a new dispatcher,
    every stage and drain operation returns with the mutex free; the
    requests given to [measureAndEmitMetrics], followed by the one still
    in the slot, are the staged requests in the order they were staged
    (with the later error of a drain attached where there was none), so
    each staged request is measured and emitted at most once, and exactly
    once unless it is still in the slot; the slot is assigned only while
    the mutex is held, and every request is measured and emitted only
    after it has been released; each request is measured and emitted by
    the operation that took it out of the slot, after that assignment
    (so in [SaveCurrentRequest] after the new request is in the slot)
    and before the next operation starts; and its trail reaches the
    sample channel exactly when the context of that operation is not
    done. *)
Theorem staged_requests_emitted_once_outside_lock
    (tags : K6.TagsAndMeta) (state : K6.State) (ops : list Op) :
  exists t h,
    run ops (NewMetricDispatcher tags state, []) = Some (tt, (t, h))
    /\ lastRequestLock t = false
    /\ lastRequest t = slotAfter None ops
    /\ Forall2 enriched (stagedOf ops) (measuredOf h ++ pending t)
    /\ disciplined false h = true
    /\ emitsAfterSwap None None false h
    /\ pushesOf h = map (fun ctx => negb (Done ctx)) (emitters None ops).
Proof.
  exists (afterAll ops (NewMetricDispatcher tags state)),
         (eventsAll ops (NewMetricDispatcher tags state)).
  split; [apply (run_run ops (NewMetricDispatcher tags state) []); reflexivity |].
  split; [apply afterAll_free; reflexivity |].
  split; [apply afterAll_slot |].
  split; [apply (staged_measured ops (NewMetricDispatcher tags state)) |].
  split; [apply disciplined_eventsAll |].
  split; [apply (emitsAfterSwap_eventsAll ops (NewMetricDispatcher tags state)) |].
  apply (pushesOf_eventsAll ops (NewMetricDispatcher tags state)).
Qed.

(** C2: on a dispatcher whose mutex is free, [ProcessLastSavedRequest]
    returns and leaves the slot empty; with an empty slot it returns nil
    and measures nothing; with a staged request without error and a
    later error given, the request is measured with that error attached
    and classified by it; with a staged request that has an error, that
    error stays and is the one classified. *)
Theorem ProcessLastSavedRequest_attaches_later_error
    (ctx : Context) (lastErr : option error) (t : MetricDispatcher) (h : list Event) :
  lastRequestLock t = false ->
  exists res t' h',
    ProcessLastSavedRequest ctx lastErr (t, h) = Some (res, (t', h'))
    /\ lastRequest t' = None
    /\ (lastRequest t = None -> res = None /\ measuredOf h' = measuredOf h)
    /\ (forall u, lastRequest t = Some u ->
          exists fr, res = Some fr
          /\ measuredOf h' = measuredOf h ++ [attachErr lastErr u]
          /\ (forall e, Err u = None -> lastErr = Some e ->
                Err (attachErr lastErr u) = Some e
                /\ Err (Unfinished fr) = Some e
                /\ (ErrorCode fr, ErrorMsg fr) = ErrorCodeForError e)
          /\ (forall e0, Err u = Some e0 ->
                Err (attachErr lastErr u) = Some e0
                /\ Err (Unfinished fr) = Some e0
                /\ (ErrorCode fr, ErrorMsg fr) = ErrorCodeForError e0)).
Proof.
  intros Hfree.
  eexists _, _, _. split; [apply ProcessLastSavedRequest_run, Hfree |].
  split; [reflexivity |]. split.
  - intros Hslot. simpl. rewrite Hslot. simpl.
    split; [reflexivity |]. rewrite measuredOf_app, app_nil_r. reflexivity.
  - intros u Hslot. simpl. rewrite Hslot. simpl.
    eexists. split; [reflexivity |].
    split; [rewrite measuredOf_app; reflexivity |].
    assert (Hcls : forall e, Err (attachErr lastErr u) = Some e ->
              Err (Unfinished (measure t (attachErr lastErr u))) = Some e
              /\ (ErrorCode (measure t (attachErr lastErr u)),
                  ErrorMsg (measure t (attachErr lastErr u))) = ErrorCodeForError e).
    { intros e He. split.
      - destruct (measure_unfinished t (attachErr lastErr u)) as [-> _]. exact He.
      - rewrite measure_code.
        apply (tagOutcome_error _ _ _ e He). }
    split.
    + intros e Hnone ->.
      assert (He : Err (attachErr (Some e) u) = Some e).
      { unfold attachErr. rewrite Hnone. reflexivity. }
      split; [exact He | apply Hcls, He].
    + intros e0 Hsome.
      assert (He : Err (attachErr lastErr u) = Some e0).
      { unfold attachErr. rewrite Hsome. exact Hsome. }
      split; [exact He | apply Hcls, He].
Qed.

(** C4, as the code has it: when the request has an error, the result
    has the classified code and message, and each of the tags status
    (with the value "0"), error_code and error is set when that system
    tag is enabled; when it has none, the status tag, when enabled, is
    the response status in decimal; every status from 400 up gives the
    code 1000 + status as a uint32, that is (1000 + status) mod 2^32,
    also as the error_code tag when enabled, which is 1000 + status for
    every status below 2^32 - 1000; and a status below 400 gives no
    code. *)
Theorem measure_outcome (t : MetricDispatcher) (u : UnfinishedRequest) :
  (forall e, Err u = Some e ->
     (ErrorCode (measure t u), ErrorMsg (measure t u)) = ErrorCodeForError e
     /\ (Has (SystemTags (State t)) TagStatus = true ->
         tagOf (measure t u) TagStatus = Some "0")
     /\ (Has (SystemTags (State t)) TagErrorCode = true ->
         tagOf (measure t u) TagErrorCode = Some (Itoa (ErrorCode (measure t u))))
     /\ (Has (SystemTags (State t)) TagError = true ->
         tagOf (measure t u) TagError = Some (ErrorMsg (measure t u))))
  /\ (Err u = None ->
      (Has (SystemTags (State t)) TagStatus = true ->
         tagOf (measure t u) TagStatus = Some (Itoa (StatusCode (Response u))))
      /\ (400 <= StatusCode (Response u) ->
          ErrorCode (measure t u) = (1000 + StatusCode (Response u)) mod 2 ^ 32
          /\ (Has (SystemTags (State t)) TagErrorCode = true ->
              tagOf (measure t u) TagErrorCode
              = Some (Itoa ((1000 + StatusCode (Response u)) mod 2 ^ 32))))
      /\ (400 <= StatusCode (Response u) < 2 ^ 32 - 1000 ->
          ErrorCode (measure t u) = 1000 + StatusCode (Response u)
          /\ (Has (SystemTags (State t)) TagErrorCode = true ->
              tagOf (measure t u) TagErrorCode
              = Some (Itoa (1000 + StatusCode (Response u)))))
      /\ (StatusCode (Response u) < 400 -> ErrorCode (measure t u) = 0)).
Proof.
  split.
  - intros e He.
    destruct (tagOutcome_error (SystemTags (State t)) u (tagsBefore t u) e He)
      as (Hcode & Hs & Hc & Hm).
    pose proof (measure_code t u) as Hpair. rewrite Hcode in Hpair.
    split; [exact Hpair |].
    rewrite !measure_tag by discriminate.
    replace (ErrorCode (measure t u)) with (fst (ErrorCodeForError e))
      by (rewrite <- Hpair; reflexivity).
    replace (ErrorMsg (measure t u)) with (snd (ErrorCodeForError e))
      by (rewrite <- Hpair; reflexivity).
    auto.
  - intros He.
    destruct (tagOutcome_status (SystemTags (State t)) u (tagsBefore t u) He)
      as (Hs & Hhigh & Hlow).
    pose proof (measure_code t u) as Hpair.
    rewrite !measure_tag by discriminate.
    split; [exact Hs |]. split; [| split].
    + intros Hr.
      destruct (tagOutcome_high (SystemTags (State t)) u (tagsBefore t u) He Hr)
        as [Hfst Htag].
      rewrite Hfst in Hpair. injection Hpair as Hc _. auto.
    + intros Hr. destruct (Hhigh Hr) as [Hfst Htag].
      rewrite Hfst in Hpair. injection Hpair as Hc _. auto.
    + intros Hr. destruct (Hlow Hr) as [Hfst _].
      rewrite Hfst in Hpair. injection Hpair as Hc _. exact Hc.
Qed.

(** C10: a dispatcher made by [NewMetricDispatcher] has no response
    callback, and none after any sequence of operations; every request
    emitted on it keeps the expected_response tag the dispatcher's tags
    had (none is attached), has the http_reqs and http_req_duration
    samples and no http_req_failed sample, and keeps the [Failed] flag
    of its trail, which is unset on the trails the client builds. *)
Theorem no_response_callback
    (tags : K6.TagsAndMeta) (state : K6.State) (ops : list Op) :
  responseCallback (NewMetricDispatcher tags state) = None
  /\ (exists t h,
        run ops (NewMetricDispatcher tags state, []) = Some (tt, (t, h))
        /\ responseCallback t = None
        /\ Forall (fun e =>
             match e with
             | EvEmit u fr _ =>
                 tagOf fr TagExpectedResponse = tm_Tags tags !! "expected_response"
                 /\ map (fun s => ts_Metric (s_TimeSeries s)) (Samples (FinishedTrail fr))
                    = [HTTPReqs (BuiltinMetricsOf state);
                       HTTPReqDuration (BuiltinMetricsOf state)]
                 /\ Failed (FinishedTrail fr) = Failed (Trail u)
             | _ => True
             end) h)
  /\ (forall d, Valid (Failed (newTrail d)) = false).
Proof.
  split; [reflexivity |]. split; [| reflexivity].
  set (t0 := NewMetricDispatcher tags state).
  exists (afterAll ops t0), (eventsAll ops t0).
  split; [apply (run_run ops t0 []); reflexivity |].
  split; [destruct (afterAll_fixed ops t0) as (_ & _ & ->); reflexivity |].
  eapply Forall_impl; [apply emissions_eventsAll |].
  intros [| | | | u fr p]; try exact (fun x => x).
  intros ->. split; [| split].
  - unfold tagOf, measure. simpl.
    destruct (tagOutcome _ _ _) as [[code msg] tm] eqn:Hout. simpl.
    rewrite tagIP_other by congruence.
    replace tm with (snd (tagOutcome (SystemTags state) u
                            (tagsBefore t0 u)))
      by (unfold tagsBefore; simpl; rewrite Hout; reflexivity).
    rewrite tagOutcome_other by congruence.
    unfold tagsBefore. rewrite lookup_set_other by (simpl; congruence).
    rewrite tagNameAndURL_other by congruence. reflexivity.
  - unfold measure. simpl.
    destruct (tagOutcome _ _ _) as [[code msg] tm]. reflexivity.
  - unfold measure. simpl.
    destruct (tagOutcome _ _ _) as [[code msg] tm]. reflexivity.
Qed.

End WithLibs.

Import Sample.

(** Two requests staged in a row: the first is emitted after the mutex
    has been released and after the second has been put in the slot; and
    a request staged alone has not been emitted at all. *)
Lemma stage_twice_emits_late_and_unlocked :
  emitsUnderLock false
    (historyOf noTags state
       [Stage ctx (answered "http://a.test/" 200); Stage ctx (answered "http://b.test/" 200)])
  = false
  /\ emitsBeforeAccept 0
       (historyOf noTags state
          [Stage ctx (answered "http://a.test/" 200); Stage ctx (answered "http://b.test/" 200)])
     = false
  /\ measuredOf
       (historyOf noTags state
          [Stage ctx (answered "http://a.test/" 200); Stage ctx (answered "http://b.test/" 200)])
     = [answered "http://a.test/" 200]
  /\ measuredOf (historyOf noTags state [Stage ctx (answered "http://a.test/" 200)]) = [].
Proof. repeat split; reflexivity. Qed.

Lemma ProcessLastSavedRequest_attaches_later_error_witness :
  exists res t' h',
    ProcessLastSavedRequest ctx (Some (OtherError "unexpected EOF" None))
      (after (Stage ctx (answered "http://a.test/" 200)) (NewMetricDispatcher noTags state), [])
    = Some (res, (t', h'))
    /\ lastRequest t' = None
    /\ option_map ErrorCode res = Some 1000
    /\ option_map ErrorMsg res = Some "unexpected EOF".
Proof.
  destruct (ProcessLastSavedRequest_attaches_later_error ctx
              (Some (OtherError "unexpected EOF" None))
              (after (Stage ctx (answered "http://a.test/" 200))
                 (NewMetricDispatcher noTags state))
              [] eq_refl)
    as (res & t' & h' & Hrun & Hslot & _ & Hsome).
  destruct (Hsome _ eq_refl) as (fr & -> & _ & Hlate & _).
  destruct (Hlate _ eq_refl eq_refl) as (_ & _ & Hcls).
  exists (Some fr), t', h'. simpl.
  injection Hcls as -> ->. auto.
Defined.

(** With no system tag enabled a failed request gets no status tag; and
    a response whose status is 2^32 gets the code 1000. *)
Lemma status_tag_absent_and_code_wraps :
  tagOf (measure (NewMetricDispatcher noTags bareState)
           (failedWith "http://a.test/" (OtherError "boom" None))) TagStatus
  = None
  /\ tagOf (measure (NewMetricDispatcher noTags bareState)
              (failedWith "http://a.test/" (OtherError "boom" None))) TagErrorCode
     = None
  /\ ErrorCode (measure (NewMetricDispatcher noTags state)
                  (answered "http://a.test/" 4294967296))
     = 1000.
Proof. repeat split; vm_compute; reflexivity. Qed.

Lemma measure_outcome_witness :
  ErrorCode (measure (NewMetricDispatcher noTags state) (answered "http://a.test/" 404)) = 1404
  /\ tagOf (measure (NewMetricDispatcher noTags state) (answered "http://a.test/" 404)) TagStatus
     = Some "404"
  /\ ErrorCode (measure (NewMetricDispatcher noTags state)
                  (answered "http://a.test/" 4294967700))
     = 1404
  /\ tagOf (measure (NewMetricDispatcher noTags state)
              (answered "http://a.test/" 4294967700)) TagErrorCode
     = Some "1404"
  /\ tagOf (measure (NewMetricDispatcher noTags state)
              (failedWith "http://a.test/" (DNSError "no such host" "lookup a.test: no such host")))
       TagStatus
     = Some "0"
  /\ tagOf (measure (NewMetricDispatcher noTags state)
              (failedWith "http://a.test/" (DNSError "no such host" "lookup a.test: no such host")))
       TagErrorCode
     = Some "1101".
Proof.
  destruct (measure_outcome (NewMetricDispatcher noTags state)
              (answered "http://a.test/" 404)) as [_ Hok].
  destruct (Hok eq_refl) as (Hstatus & _ & Hhigh & _).
  destruct (Hhigh ltac:(simpl; lia)) as [Hcode _].
  destruct (measure_outcome (NewMetricDispatcher noTags state)
              (answered "http://a.test/" 4294967700)) as [_ Hbig].
  destruct (Hbig eq_refl) as (_ & Hwrap & _).
  destruct (Hwrap ltac:(simpl; lia)) as [Hwcode Hwtag].
  destruct (measure_outcome (NewMetricDispatcher noTags state)
              (failedWith "http://a.test/"
                 (DNSError "no such host" "lookup a.test: no such host"))) as [Herr _].
  destruct (Herr _ eq_refl) as (Hpair & Hs0 & Hc0 & _).
  split; [exact Hcode |].
  split; [exact (Hstatus eq_refl) |].
  split; [exact Hwcode |].
  split; [exact (Hwtag eq_refl) |].
  split; [exact (Hs0 eq_refl) |].
  rewrite (Hc0 eq_refl). reflexivity.
Defined.

End MetricsProps.

(** ** Request set-up and status checks *)

Module FasthttpProps.
Import Errors K6 Http Fasthttp Sample.

(** *** Reuse of a pooled request *)

(** A call without body, on any pooled request: both forms of body are
    cleared and the method is the one of the call. *)
Lemma setupCachedReq_without_body (reqw : RequestWrapper) (m : string) :
  setBody m (Body reqw) = false ->
  exists reqw',
    setupCachedReq reqw m = (reqw', [], None)
    /\ method (req reqw') = m
    /\ body (req reqw') = ""
    /\ bodyStream (req reqw') = None.
Proof.
  intros Hno. unfold setupCachedReq. rewrite Hno.
  eexists. split; [reflexivity |]. repeat split; reflexivity.
Qed.

(** A call with a body: the pooled request keeps the method it had,
    whatever the method of the call. *)
Lemma setupCachedReq_with_body_keeps_method (reqw : RequestWrapper) (m : string) :
  setBody m (Body reqw) = true ->
  method (req (fst (fst (setupCachedReq reqw m)))) = method (req reqw).
Proof.
  intros Hyes. unfold setupCachedReq. rewrite Hyes.
  destruct (Body reqw) as [[s | bytes | f |] |]; try reflexivity.
  destruct (Seek0 f); reflexivity.
Qed.

(** A call with a string or buffer body leaves the pooled request as it
    was: its body is not set again either. *)
Lemma setupCachedReq_with_memory_body (reqw : RequestWrapper) (m s : string) :
  setBody m (Body reqw) = true ->
  Body reqw = Some (BodyString s) \/ Body reqw = Some (BodyArrayBuffer s) ->
  setupCachedReq reqw m = (reqw, [], None).
Proof.
  intros Hyes Hbody. unfold setupCachedReq. rewrite Hyes.
  destruct Hbody as [-> | ->]; reflexivity.
Qed.

(** The set-up of a new request sets the method of the call on every
    path that succeeds. *)
Lemma setupNewReq_sets_method (reqw reqw' : RequestWrapper) (m : string) (log : list string) :
  setupNewReq reqw m = (reqw', log, None) -> method (req reqw') = m.
Proof.
  unfold setupNewReq.
  destruct (setBody m _).
  - destruct (Body _) as [[s | bytes | f |] |]; simpl;
      try (intros Heq; injection Heq as <- _; reflexivity);
      try discriminate.
    destruct (Seek0 f); simpl; [| discriminate].
    intros Heq. injection Heq as <- _. reflexivity.
  - intros Heq. injection Heq as <- _. reflexivity.
Qed.

(** C6 on the code: [client.get] and then [client.post] on one request
    object that has a body. The first call sets up a new request as a
    GET without body; the second finds it in the pool and leaves it as
    it is, so what is sent is again a GET without body, not a POST with
    the payload. *)
Theorem get_then_post_reuses_get :
  makeReqSetup None postable MethodGet
  = (withReq afterGet postable, [], None)
  /\ method afterGet = "GET"
  /\ body afterGet = ""
  /\ setBody MethodPost (Body postable) = true
  /\ makeReqSetup (Some afterGet) postable MethodPost
     = (withReq afterGet postable, [], None)
  /\ Method (req (fst (fst (makeReqSetup (Some afterGet) postable MethodPost)))) = "GET"
  /\ body (req (fst (fst (makeReqSetup (Some afterGet) postable MethodPost)))) = "".
Proof. repeat split; vm_compute; reflexivity. Qed.

(** *** Status checks *)

Section Checks.
Context {Value : Type}.
Context (ApplyCustomUserTags : K6.TagsAndMeta -> Value -> K6.TagsAndMeta + error).
Context (NewCheckError : string -> option error).

(** Past its early returns, the sobek version returns true exactly when
    the status is the wanted one. *)
Lemma Sobek_passed (vu : VU) (want : Z) (r : option Exported) (extras : list Value) :
  failure (Sobek.CheckStatus ApplyCustomUserTags vu want r extras) = None ->
  exists resp, r = Some (ExportedResponse resp)
    /\ passed (Sobek.CheckStatus ApplyCustomUserTags vu want r extras)
       = Z.eqb (Status resp) want.
Proof.
  unfold Sobek.CheckStatus, checkPrologue.
  destruct (vuState vu) as [state |]; [| discriminate].
  destruct r as [[resp |] |]; try discriminate.
  destruct extras as [| extra extras].
  - intros _. exists resp. split; reflexivity.
  - destruct (ApplyCustomUserTags _ extra); [| discriminate].
    intros _. exists resp. split; reflexivity.
Qed.

(** The sobek version: whatever the outcome, a sample that is pushed has
    the value 0. *)
Lemma Sobek_value_zero (vu : VU) (want : Z) (r : option Exported) (extras : list Value) :
  Forall (fun s => s_Value s = 0%Q)
    (pushed (Sobek.CheckStatus ApplyCustomUserTags vu want r extras)).
Proof.
  unfold Sobek.CheckStatus, checkPrologue.
  destruct (vuState vu) as [state |]; [| constructor].
  destruct r as [[resp |] |]; try constructor.
  assert (Hpush : forall ctx s, s_Value s = 0%Q ->
            Forall (fun s => s_Value s = 0%Q) (pushSample ctx s)).
  { intros ctx s Hs. unfold pushSample. destruct (Done ctx); repeat constructor. exact Hs. }
  destruct extras as [| extra extras].
  - apply Hpush. reflexivity.
  - destruct (ApplyCustomUserTags _ extra); [| constructor].
    apply Hpush. reflexivity.
Qed.

(** The goja version: a sample that is pushed has the value 1 when the
    check passes and 0 when it fails. *)
Lemma Goja_value_by_outcome (vu : VU) (want : Z) (r : option Exported) (extras : list Value) :
  Forall (fun s => s_Value s
                   = if passed (Goja.CheckStatus ApplyCustomUserTags NewCheckError
                                  vu want r extras)
                     then 1%Q else 0%Q)
    (pushed (Goja.CheckStatus ApplyCustomUserTags NewCheckError vu want r extras)).
Proof.
  unfold Goja.CheckStatus, checkPrologue.
  destruct (vuState vu) as [state |]; [| constructor].
  destruct r as [[resp |] |]; try constructor.
  destruct extras as [| extra extras];
    [| destruct (ApplyCustomUserTags _ extra); [| constructor]];
    (destruct (GroupCheck _ _ _) as [[check group] | err]; [| constructor];
     simpl; destruct (Z.eqb (Status resp) want); simpl;
     unfold pushSample; destruct (Done (vuContext vu)); repeat constructor).
Qed.

End Checks.

(** C7 on the code: the sobek version of [CheckStatus], asked whether a
    response with status 200 has status 200, returns true and pushes one
    sample on the checks metric, named by the check tag, whose value is
    0; the goja version pushes the value 1 on the same input. *)
Theorem passing_check_records_zero :
  passed (Sobek.CheckStatus applyTags vu 200 (Some (ExportedResponse {| Status := 200 |})) [])
  = true
  /\ failure (Sobek.CheckStatus applyTags vu 200 (Some (ExportedResponse {| Status := 200 |})) [])
     = None
  /\ map (fun s => (ts_Metric (s_TimeSeries s), ts_Tags (s_TimeSeries s) !! "check", s_Value s))
         (pushed (Sobek.CheckStatus applyTags vu 200
                    (Some (ExportedResponse {| Status := 200 |})) []))
     = [("checks", Some "check status is 200", 0%Q)]
  /\ map s_Value
         (pushed (Goja.CheckStatus applyTags (fun _ => None) vu 200
                    (Some (ExportedResponse {| Status := 200 |})) []))
     = [1%Q].
Proof. repeat split; vm_compute; reflexivity. Qed.

End FasthttpProps.

(** * Further properties *)

(** ** The error classifier *)

Module ErrorsExtra.
Import Errors ErrorsMore.

Section WithRuntime.
Context `{Runtime}.

Lemma isTCP_guard (Net : string) :
  isTCP Net = true ->
  negb (String.eqb Net "tcp") && negb (String.eqb Net "tcp6") = false.
Proof.
  unfold isTCP. destruct (String.eqb Net "tcp"), (String.eqb Net "tcp6");
    simpl; congruence.
Qed.

(** A network operation error is never given the generic fallback code:
    whatever its operation, network and cause, its code is not 1000. *)
Theorem net_op_error_never_generic (Op Net : string) (Err : error) (text : string) :
  Z.eqb (fst (ErrorCodeForError (OpError Op Net Err text))) defaultErrorCode = false.
Proof.
  simpl. unfold errorCodeForNetOpError.
  destruct (negb (String.eqb Net "tcp") && negb (String.eqb Net "tcp6")); [reflexivity |].
  destruct (netOpSyscallCase Op Err) as [[code msg] |] eqn:Hsys.
  - unfold netOpSyscallCase in Hsys.
    destruct Err; try discriminate.
    destruct (isErrno Err ECONNRESET); [injection Hsys as <- _; reflexivity |].
    destruct (isErrno Err EPIPE); [injection Hsys as <- _; reflexivity |].
    unfold getOSSyscallErrorCode in Hsys.
    destruct (isErrno Err WSAECONNRESET); simpl in Hsys; [| discriminate].
    injection Hsys as <- _. reflexivity.
  - destruct (negb (String.eqb Op "dial")).
    + destruct Err; reflexivity.
    + destruct (netOpDialErrnoCase Err) as [[code msg] |] eqn:Hdial.
      * unfold netOpDialErrnoCase in Hdial.
        destruct Err; try discriminate.
        destruct Err; try discriminate.
        destruct (_ || _); injection Hdial as <- _; reflexivity.
      * destruct (ErrorCodeForError Err) as [code msg].
        destruct (Z.eqb code defaultErrorCode) eqn:Hc; simpl; [reflexivity | exact Hc].
Qed.

(** On TCP, a cause that is a system call error holding ECONNRESET makes
    the error a reset by peer (1220), named after the operation, for every
    operation, a dial too; EPIPE, when it is another number, makes it a
    broken pipe (1201). *)
Theorem reset_and_broken_pipe (Op Net sc t1 t2 : string) :
  isTCP Net = true ->
  ErrorCodeForError (OpError Op Net (SyscallError sc (Errno ECONNRESET) t1) t2)
  = (1220, Op +:+ ": connection reset by peer")
  /\ (Z.eqb EPIPE ECONNRESET = false ->
      ErrorCodeForError (OpError Op Net (SyscallError sc (Errno EPIPE) t1) t2)
      = (1201, Op +:+ ": broken pipe")).
Proof.
  intros Htcp. simpl. unfold errorCodeForNetOpError.
  rewrite (isTCP_guard Net Htcp). simpl.
  rewrite !Z.eqb_refl. split; [reflexivity |].
  intros ->. reflexivity.
Qed.

(** A TCP dial whose cause is a system call error holding an error
    number that is none of ECONNRESET, EPIPE and WSAECONNRESET is a
    refused connection (1212) when the number is ECONNREFUSED, or 10061
    on Windows, and an unknown dial errno (1213) otherwise. *)
Theorem dial_errno (Net sc t1 t2 : string) (errno : Z) :
  isTCP Net = true ->
  Z.eqb errno ECONNRESET = false ->
  Z.eqb errno EPIPE = false ->
  Z.eqb errno WSAECONNRESET = false ->
  fst (ErrorCodeForError (OpError "dial" Net (SyscallError sc (Errno errno) t1) t2))
  = if Z.eqb errno ECONNREFUSED || (Z.eqb errno 10061 && String.eqb GOOS "windows")
    then 1212 else 1213.
Proof.
  intros Htcp Hr Hp Hw. simpl. unfold errorCodeForNetOpError.
  rewrite (isTCP_guard Net Htcp). simpl.
  unfold getOSSyscallErrorCode. simpl. rewrite Hr, Hp, Hw. simpl.
  destruct (_ || _); reflexivity.
Qed.

(** A TCP dial whose cause is not a system call error is classified as
    its cause, unless the cause gets the generic code 1000: then it is a
    dial error (1210) with the text of the dial error itself. *)
Theorem dial_classified_by_cause (Net text : string) (cause : error) :
  isTCP Net = true ->
  (forall sc e t, cause = SyscallError sc e t -> False) ->
  ErrorCodeForError (OpError "dial" Net cause text)
  = if Z.eqb (fst (ErrorCodeForError cause)) 1000
    then (1210, text)
    else ErrorCodeForError cause.
Proof.
  intros Htcp Hno. simpl. unfold errorCodeForNetOpError.
  rewrite (isTCP_guard Net Htcp). simpl.
  assert (Hs : netOpSyscallCase "dial" cause = None).
  { destruct cause; try reflexivity. exfalso. eapply Hno. reflexivity. }
  assert (Hd : netOpDialErrnoCase cause = None).
  { destruct cause; try reflexivity. exfalso. eapply Hno. reflexivity. }
  rewrite Hs, Hd.
  destruct (ErrorCodeForError cause) as [code msg]. simpl.
  unfold defaultErrorCode. destruct (Z.eqb code 1000); reflexivity.
Qed.

(** The code of an HTTP/2 error tells its kind, and its subcode when
    the subcode is a known one: GoAway, stream and connection errors
    never share a code, and two errors of one kind share a code only
    when their subcodes are equal or both beyond 13. *)
Theorem http2_codes_apart (c1 c2 : Z) (t1 t2 : string) :
  0 <= c1 < 2 ^ 32 -> 0 <= c2 < 2 ^ 32 ->
  (fst (ErrorCodeForError (GoAwayError c1 t1)) = fst (ErrorCodeForError (GoAwayError c2 t2)) ->
     c1 = c2 \/ (13 < c1 /\ 13 < c2))
  /\ (fst (ErrorCodeForError (StreamError c1 t1)) = fst (ErrorCodeForError (StreamError c2 t2)) ->
      c1 = c2 \/ (13 < c1 /\ 13 < c2))
  /\ (fst (ErrorCodeForError (ConnectionError c1 t1))
      = fst (ErrorCodeForError (ConnectionError c2 t2)) ->
      c1 = c2 \/ (13 < c1 /\ 13 < c2))
  /\ fst (ErrorCodeForError (GoAwayError c1 t1)) < fst (ErrorCodeForError (StreamError c2 t2))
  /\ fst (ErrorCodeForError (StreamError c1 t1)) < fst (ErrorCodeForError (ConnectionError c2 t2)).
Proof.
  intros H1 H2. simpl.
  assert (Hoff : forall c, 0 <= c < 2 ^ 32 ->
            (c <= 13 /\ http2ErrCodeOffset c = 1 + c) \/ (13 < c /\ http2ErrCodeOffset c = 0)).
  { intros c Hc. destruct (Z_le_gt_dec c 13).
    - left. split; [lia |]. apply ErrorsProps.http2ErrCodeOffset_known.
      unfold ErrCodeHTTP11Required. lia.
    - right. split; [lia |]. apply ErrorsProps.http2ErrCodeOffset_unknown.
      unfold ErrCodeHTTP11Required. lia. }
  unfold unknownHTTP2GoAwayErrorCode, unknownHTTP2StreamErrorCode,
    unknownHTTP2ConnectionErrorCode.
  destruct (Hoff c1 H1) as [[Hk1 ->] | [Hk1 ->]];
    destruct (Hoff c2 H2) as [[Hk2 ->] | [Hk2 ->]];
    rewrite !ErrorsProps.uint32_small by lia; repeat split; intros; lia.
Qed.

(** Induction on errors that also reaches the error held by a
    [K6Error] or by an error of another type. *)
Lemma error_nested_ind (P : error -> Prop)
    (Hk6 : forall c m o, (forall e, o = Some e -> P e) -> P (K6Error c m o))
    (Hdns : forall e t, P (DNSError e t))
    (Hip : forall t, P (BlackListedIPError t))
    (Hhost : forall t, P (BlockedHostError t))
    (Hgo : forall c t, P (GoAwayError c t))
    (Hstream : forall c t, P (StreamError c t))
    (Hconn : forall c t, P (ConnectionError c t))
    (Hop : forall op net e t, P e -> P (OpError op net e t))
    (Hsys : forall sc e t, P e -> P (SyscallError sc e t))
    (Herrno : forall n, P (Errno n))
    (Hca : forall t, P (UnknownAuthorityError t))
    (Hname : forall t, P (HostnameError t))
    (Hrec : forall t, P (RecordHeaderError t))
    (Hurl : forall op url e t, P e -> P (URLError op url e t))
    (Hother : forall t o, (forall e, o = Some e -> P e) -> P (OtherError t o)) :
  forall err, P err.
Proof.
  fix IH 1. intros [c m o | e t | t | t | c t | c t | c t | op net cause t
                   | sc cause t | n | t | t | t | op url cause t | t o].
  - apply Hk6. destruct o as [e |]; intros e' He; [injection He as <-; apply IH | discriminate].
  - apply Hdns.
  - apply Hip.
  - apply Hhost.
  - apply Hgo.
  - apply Hstream.
  - apply Hconn.
  - apply Hop, IH.
  - apply Hsys, IH.
  - apply Herrno.
  - apply Hca.
  - apply Hname.
  - apply Hrec.
  - apply Hurl, IH.
  - apply Hother. destruct o as [e |]; intros e' He; [injection He as <-; apply IH | discriminate].
Qed.

Lemma http2_code_range (base code : Z) :
  Z.leb 0 code && Z.ltb code (2 ^ 32) = true ->
  1610 <= base <= 1650 ->
  1000 <= uint32 (base + http2ErrCodeOffset code) <= 1664.
Proof.
  intros Hc Hb. apply andb_true_iff in Hc as [Hc0 Hc1].
  apply Z.leb_le in Hc0. apply Z.ltb_lt in Hc1.
  destruct (Z_le_gt_dec code 13).
  - rewrite ErrorsProps.http2ErrCodeOffset_known
      by (unfold ErrCodeHTTP11Required; lia).
    rewrite ErrorsProps.uint32_small by lia. lia.
  - rewrite ErrorsProps.http2ErrCodeOffset_unknown
      by (unfold ErrCodeHTTP11Required; lia).
    rewrite ErrorsProps.uint32_small by lia. lia.
Qed.

Ltac fixed_code :=
  cbn [fst negb];
  unfold defaultErrorCode, defaultNetNonTCPErrorCode, defaultDNSErrorCode,
    dnsNoSuchHostErrorCode, blackListedIPErrorCode, blockedHostnameErrorCode,
    defaultTCPErrorCode, tcpBrokenPipeErrorCode, netUnknownErrnoErrorCode,
    tcpDialErrorCode, tcpDialRefusedErrorCode, tcpDialUnknownErrnoCode,
    tcpResetByPeerErrorCode, tlsHeaderErrorCode, x509UnknownAuthorityErrorCode,
    x509HostnameErrorCode;
  lia.

Lemma net_op_code_range (op net text : string) (cause : error) :
  1000 <= fst (ErrorCodeForError cause) <= 1664 ->
  1000 <= fst (ErrorCodeForError (OpError op net cause text)) <= 1664.
Proof.
  intros Hc. cbn [ErrorCodeForError]. unfold errorCodeForNetOpError.
  destruct (negb (String.eqb net "tcp") && negb (String.eqb net "tcp6")); [fixed_code |].
  destruct (netOpSyscallCase op cause) as [[code msg] |] eqn:Hsys.
  - unfold netOpSyscallCase in Hsys.
    destruct cause; try discriminate.
    destruct (isErrno cause ECONNRESET); [injection Hsys as <- _; fixed_code |].
    destruct (isErrno cause EPIPE); [injection Hsys as <- _; fixed_code |].
    unfold getOSSyscallErrorCode in Hsys.
    destruct (isErrno cause WSAECONNRESET); cbn in Hsys; [| discriminate].
    injection Hsys as <- _. fixed_code.
  - destruct (negb (String.eqb op "dial")).
    + destruct cause; fixed_code.
    + destruct (netOpDialErrnoCase cause) as [[code msg] |] eqn:Hdial.
      * unfold netOpDialErrnoCase in Hdial.
        destruct cause; try discriminate.
        destruct cause; try discriminate.
        destruct (_ || _); injection Hdial as <- _; fixed_code.
      * destruct (ErrorCodeForError cause) as [code msg]. cbn [fst] in Hc.
        destruct (Z.eqb code defaultErrorCode); [fixed_code | exact Hc].
Qed.

(** An error in which the classifier meets no pre-classified [K6Error]
    gets a code from 1000 to 1664: never one of the content partition
    (1700 and up), and never one below the generic code. *)
Theorem plain_code_range (err : error) :
  plain err = true ->
  1000 <= fst (ErrorCodeForError err) <= 1664.
Proof.
  induction err as [c m o _ | e t | t | t | c t | c t | c t | op net cause t IH
                   | sc cause t IH | n | t | t | t | op url cause t IH | t o IH]
    using error_nested_ind; cbn [plain]; intros Hp.
  - discriminate.
  - cbn [ErrorCodeForError]. destruct (String.eqb e "no such host"); fixed_code.
  - cbn [ErrorCodeForError]. fixed_code.
  - cbn [ErrorCodeForError]. fixed_code.
  - cbn [ErrorCodeForError fst]. apply http2_code_range; [exact Hp |].
    unfold unknownHTTP2GoAwayErrorCode. lia.
  - cbn [ErrorCodeForError fst]. apply http2_code_range; [exact Hp |].
    unfold unknownHTTP2StreamErrorCode. lia.
  - cbn [ErrorCodeForError fst]. apply http2_code_range; [exact Hp |].
    unfold unknownHTTP2ConnectionErrorCode. lia.
  - apply net_op_code_range, IH, Hp.
  - cbn [ErrorCodeForError]. apply IH, Hp.
  - cbn [ErrorCodeForError]. fixed_code.
  - cbn [ErrorCodeForError]. fixed_code.
  - cbn [ErrorCodeForError]. fixed_code.
  - cbn [ErrorCodeForError]. fixed_code.
  - cbn [ErrorCodeForError]. apply IH, Hp.
  - destruct o as [w |]; cbn [ErrorCodeForError].
    + apply (IH w eq_refl), Hp.
    + fixed_code.
Qed.

(** A pre-classified [K6Error] under any number of transparent layers
    (URL errors, system call errors, errors of other types that unwrap)
    keeps its stored code and message. *)
Theorem preclassified_under_wrappers (err : error) (code : ErrCode) (msg : string)
    (orig : option error) :
  wraps err (K6Error code msg orig) ->
  ErrorCodeForError err = (code, msg).
Proof.
  intros Hw. rewrite (ErrorsProps.wraps_classify err _ Hw). reflexivity.
Qed.

End WithRuntime.

Import Sample.

Lemma reset_and_broken_pipe_witness :
  ErrorCodeForError (OpError "read" "tcp" (SyscallError "read" (Errno 104) "") "")
  = (1220, "read: connection reset by peer")
  /\ ErrorCodeForError (OpError "write" "tcp6" (SyscallError "write" (Errno 32) "") "")
     = (1201, "write: broken pipe").
Proof.
  split.
  - exact (proj1 (reset_and_broken_pipe (H := runtime) "read" "tcp" "read" "" "" eq_refl)).
  - exact (proj2 (reset_and_broken_pipe (H := runtime) "write" "tcp6" "write" "" "" eq_refl)
             eq_refl).
Defined.

Lemma dial_errno_witness :
  fst (ErrorCodeForError (OpError "dial" "tcp" (SyscallError "connect" (Errno 111) "") "")) = 1212
  /\ fst (ErrorCodeForError (OpError "dial" "tcp" (SyscallError "connect" (Errno 113) "") ""))
     = 1213.
Proof.
  split.
  - exact (dial_errno (H := runtime) "tcp" "connect" "" "" 111 eq_refl eq_refl eq_refl eq_refl).
  - exact (dial_errno (H := runtime) "tcp" "connect" "" "" 113 eq_refl eq_refl eq_refl eq_refl).
Defined.

Lemma dial_classified_by_cause_witness :
  ErrorCodeForError
    (OpError "dial" "tcp" (DNSError "no such host" "lookup a.test: no such host")
       "dial tcp: lookup a.test: no such host")
  = (1101, "lookup: no such host")
  /\ ErrorCodeForError (OpError "dial" "tcp" (OtherError "i/o timeout" None) "dial tcp: i/o timeout")
     = (1210, "dial tcp: i/o timeout").
Proof.
  split.
  - exact (dial_classified_by_cause (H := runtime) "tcp" "dial tcp: lookup a.test: no such host"
             (DNSError "no such host" "lookup a.test: no such host") eq_refl
             ltac:(intros sc e t Heq; discriminate Heq)).
  - exact (dial_classified_by_cause (H := runtime) "tcp" "dial tcp: i/o timeout"
             (OtherError "i/o timeout" None) eq_refl
             ltac:(intros sc e t Heq; discriminate Heq)).
Defined.

Lemma http2_codes_apart_witness :
  fst (ErrorCodeForError (GoAwayError 13 "")) < fst (ErrorCodeForError (StreamError 0 "")).
Proof.
  exact (proj1 (proj2 (proj2 (proj2
           (http2_codes_apart (H := runtime) 13 0 "" "" ltac:(lia) ltac:(lia)))))).
Defined.

Lemma plain_code_range_witness :
  1000 <= fst (ErrorCodeForError
                 (URLError "Get" "http://a.test/"
                    (OpError "dial" "tcp" (ConnectionError 7 "") "") "")) <= 1664.
Proof.
  exact (plain_code_range (H := runtime)
           (URLError "Get" "http://a.test/"
              (OpError "dial" "tcp" (ConnectionError 7 "") "") "") eq_refl).
Defined.

Lemma preclassified_under_wrappers_witness :
  ErrorCodeForError
    (URLError "Get" "http://a.test/"
       (OtherError "request failed" (Some (K6Error 1110 "ip is blacklisted" None))) "")
  = (1110, "ip is blacklisted").
Proof.
  apply (preclassified_under_wrappers (H := runtime) _ 1110 "ip is blacklisted" None).
  eapply wraps_layer; [apply ErrorsProps.url_error_transparent |].
  eapply wraps_layer; [apply ErrorsProps.other_error_transparent |].
  apply wraps_here.
Defined.

End ErrorsExtra.

(** ** The metric dispatcher *)

Module MetricsExtra.
Import Errors K6 Tracer Http Metrics MetricsMore MetricsProps.

Section WithLibs.
Context `{Runtime} `{Lib}.

Lemma pushedOf_app h1 h2 : pushedOf (h1 ++ h2) = pushedOf h1 ++ pushedOf h2.
Proof.
  induction h1 as [| e h1 IH]; simpl; [reflexivity |].
  destruct e as [| | | | u fr [|]]; simpl; rewrite IH; reflexivity.
Qed.

Lemma warningsOf_app h1 h2 : warningsOf (h1 ++ h2) = warningsOf h1 ++ warningsOf h2.
Proof.
  induction h1 as [| e h1 IH]; simpl; [reflexivity |].
  destruct e; simpl; rewrite IH; reflexivity.
Qed.

Lemma resultsOf_app h1 h2 : resultsOf (h1 ++ h2) = resultsOf h1 ++ resultsOf h2.
Proof.
  induction h1 as [| e h1 IH]; simpl; [reflexivity |].
  destruct e; simpl; rewrite IH; reflexivity.
Qed.

(** The tags name and url of an emitted request: a name tag the
    dispatcher's tags already have is kept and, when the url tag is
    enabled, is the url tag too, whatever the URI of the request; without
    one, each of the two that is enabled is the URI of the request. *)
Theorem name_and_url_tags (t : MetricDispatcher) (u : UnfinishedRequest) :
  (forall name, tm_Tags (TagsAndMeta t) !! "name" = Some name ->
     tagOf (measure t u) TagName = Some name
     /\ (Has (SystemTags (State t)) TagURL = true ->
         tagOf (measure t u) TagURL = Some name))
  /\ (tm_Tags (TagsAndMeta t) !! "name" = None ->
      (Has (SystemTags (State t)) TagName = true ->
         tagOf (measure t u) TagName = Some (URIString (Request u)))
      /\ (Has (SystemTags (State t)) TagURL = true ->
          tagOf (measure t u) TagURL = Some (URIString (Request u)))
      /\ (Has (SystemTags (State t)) TagName = false ->
          tagOf (measure t u) TagName = None)).
Proof.
  assert (Hred : forall tag, tag = TagName \/ tag = TagURL ->
            tagOf (measure t u) tag
            = tm_Tags (tagNameAndURL (SystemTags (State t)) u (Clone (TagsAndMeta t)))
                !! TagString tag).
  { intros tag Htag.
    rewrite measure_tag by (destruct Htag; subst; discriminate).
    rewrite tagOutcome_other by (destruct Htag; subst; simpl; congruence).
    unfold tagsBefore.
    rewrite lookup_set_other by (destruct Htag; subst; simpl; congruence).
    reflexivity. }
  rewrite !Hred by auto. unfold tagNameAndURL, Clone. simpl.
  split.
  - intros name Hname. rewrite Hname. split.
    + rewrite lookup_set_other by (simpl; congruence). exact Hname.
    + intros Hen. apply (lookup_set_enabled _ TagURL). exact Hen.
  - intros Hnone. rewrite Hnone. split; [| split].
    + intros Hen. rewrite lookup_set_other by (simpl; congruence).
      apply (lookup_set_enabled _ TagName). exact Hen.
    + intros Hen. apply (lookup_set_enabled _ TagURL). exact Hen.
    + intros Hdis. rewrite lookup_set_other by (simpl; congruence).
      unfold SetSystemTagOrMetaIfEnabled. rewrite Hdis. exact Hnone.
Qed.

(** Every sample of an emitted request has the tags and the metadata of
    its trail and the end time of the trail. *)
Theorem samples_share_tags (t : MetricDispatcher) (u : UnfinishedRequest) :
  Forall (fun s =>
            Tags (FinishedTrail (measure t u)) = Some (ts_Tags (s_TimeSeries s))
            /\ s_Metadata s = Metadata (FinishedTrail (measure t u))
            /\ s_Time s = EndTime (Trail u))
    (Samples (FinishedTrail (measure t u))).
Proof.
  unfold measure.
  destruct (tagOutcome _ _ _) as [[code msg] tm].
  destruct (tagExpected _ _ _ _) as [failed tm'].
  destruct (responseCallback t); simpl; repeat constructor.
Qed.

(** With a response callback on the dispatcher, the callback is asked
    about the status of the response, or about 0 when the request has an
    error; the trail gets the three samples http_reqs, http_req_duration
    and http_req_failed, the last with the value 0 when the callback
    accepts the status and 1 when it does not; the [Failed] flag of the
    trail becomes valid, and true when the callback does not accept; and
    the expected_response tag, when enabled, says what the callback
    answered. *)
Theorem response_callback_outcome (t : MetricDispatcher) (u : UnfinishedRequest)
    (cb : Z -> bool) :
  responseCallback t = Some cb ->
  map (fun s => (ts_Metric (s_TimeSeries s), s_Value s))
      (Samples (FinishedTrail (measure t u)))
  = [(HTTPReqs (BuiltinMetricsOf (State t)), 1%Q);
     (HTTPReqDuration (BuiltinMetricsOf (State t)), D (Duration (Trail u)));
     (HTTPReqFailed (BuiltinMetricsOf (State t)),
      if cb (callbackStatus u) then 0%Q else 1%Q)]
  /\ Valid (Failed (FinishedTrail (measure t u))) = true
  /\ Bool (Failed (FinishedTrail (measure t u)))
     = (if cb (callbackStatus u) then Bool (Failed (Trail u)) else true)
  /\ (Has (SystemTags (State t)) TagExpectedResponse = true ->
      tagOf (measure t u) TagExpectedResponse
      = Some (FormatBool (cb (callbackStatus u)))).
Proof.
  intros Hcb. unfold tagOf, measure. rewrite Hcb.
  destruct (tagOutcome _ _ _) as [[code msg] tm].
  unfold tagExpected, recordFailed. fold (callbackStatus u).
  destruct (cb (callbackStatus u)); simpl;
    (split; [reflexivity | split; [reflexivity | split; [reflexivity |]]]);
    intros Hen; apply (lookup_set_enabled _ TagExpectedResponse); exact Hen.
Qed.

(** A drain takes what is staged: a second drain right after it, with
    any context and any error, returns nil and measures nothing. *)
Theorem drain_after_drain (ctx1 ctx2 : Context) (e1 e2 : option error)
    (t : MetricDispatcher) (h : list Event) :
  lastRequestLock t = false ->
  exists r1 t1 h1 t2 h2,
    ProcessLastSavedRequest ctx1 e1 (t, h) = Some (r1, (t1, h1))
    /\ ProcessLastSavedRequest ctx2 e2 (t1, h1) = Some (None, (t2, h2))
    /\ lastRequest t2 = None
    /\ measuredOf h2 = measuredOf h1
    /\ pushedOf h2 = pushedOf h1.
Proof.
  intros Hfree.
  eexists _, _, _, _, _.
  split; [apply ProcessLastSavedRequest_run, Hfree |].
  split; [apply ProcessLastSavedRequest_run; destruct t; exact Hfree |].
  split; [reflexivity |].
  simpl. rewrite measuredOf_app, pushedOf_app. simpl.
  rewrite !app_nil_r. split; reflexivity.
Qed.

(** A drain with a staged request measures it and empties the slot
    whether or not the context is done, but its trail reaches the sample
    channel only when the context is not done: under a done context the
    samples of the request are dropped for good. *)
Theorem drain_pushes_unless_done (ctx : Context) (lastErr : option error)
    (t : MetricDispatcher) (h : list Event) (u : UnfinishedRequest) :
  lastRequestLock t = false ->
  lastRequest t = Some u ->
  exists fr t' h',
    ProcessLastSavedRequest ctx lastErr (t, h) = Some (Some fr, (t', h'))
    /\ lastRequest t' = None
    /\ measuredOf h' = measuredOf h ++ [attachErr lastErr u]
    /\ pushedOf h' = pushedOf h ++ (if Done ctx then [] else [FinishedTrail fr]).
Proof.
  intros Hfree Hslot.
  eexists _, _, _.
  split; [rewrite (ProcessLastSavedRequest_run ctx lastErr t h Hfree), Hslot; reflexivity |].
  split; [reflexivity |].
  simpl. rewrite Hslot, measuredOf_app, pushedOf_app. simpl.
  split; [reflexivity |].
  destruct (Done ctx); reflexivity.
Qed.

End WithLibs.

Import Sample.

Lemma response_callback_outcome_witness :
  map (fun s => (ts_Metric (s_TimeSeries s), s_Value s))
      (Samples (FinishedTrail
         (measure {| State := state; TagsAndMeta := noTags;
                     responseCallback := Some (fun status => Z.ltb status 400);
                     lastRequest := None; lastRequestLock := false |}
            (answered "http://a.test/" 503))))
  = [("http_reqs", 1%Q); ("http_req_duration", D 1500000); ("http_req_failed", 1%Q)].
Proof.
  exact (proj1 (response_callback_outcome
                  {| State := state; TagsAndMeta := noTags;
                     responseCallback := Some (fun status => Z.ltb status 400);
                     lastRequest := None; lastRequestLock := false |}
                  (answered "http://a.test/" 503) (fun status => Z.ltb status 400) eq_refl)).
Defined.

Lemma drain_after_drain_witness :
  exists r1 t1 h1 t2 h2,
    ProcessLastSavedRequest ctx None
      (after (Stage ctx (answered "http://a.test/" 200)) (NewMetricDispatcher noTags state), [])
    = Some (r1, (t1, h1))
    /\ ProcessLastSavedRequest ctx (Some (OtherError "late" None)) (t1, h1)
       = Some (None, (t2, h2))
    /\ lastRequest t2 = None
    /\ measuredOf h2 = measuredOf h1
    /\ pushedOf h2 = pushedOf h1.
Proof.
  exact (drain_after_drain ctx ctx None (Some (OtherError "late" None))
           (after (Stage ctx (answered "http://a.test/" 200))
              (NewMetricDispatcher noTags state)) [] eq_refl).
Defined.

Lemma drain_pushes_unless_done_witness :
  exists fr t' h',
    ProcessLastSavedRequest {| Done := true |} None
      (after (Stage ctx (answered "http://a.test/" 200)) (NewMetricDispatcher noTags state), [])
    = Some (Some fr, (t', h'))
    /\ lastRequest t' = None
    /\ measuredOf h' = [] ++ [attachErr None (answered "http://a.test/" 200)]
    /\ pushedOf h' = [] ++ [].
Proof.
  exact (drain_pushes_unless_done {| Done := true |} None
           (after (Stage ctx (answered "http://a.test/" 200))
              (NewMetricDispatcher noTags state)) []
           (answered "http://a.test/" 200) eq_refl eq_refl).
Defined.

End MetricsExtra.

(** ** The round trip of the client *)

Module ClientExtra.
Import Errors K6 Tracer Http Metrics MetricsMore Fasthttp Client MetricsProps.

(** [readResponseBody] gives an error exactly for a response type that
    is none of text, binary and none, on a status that can have content;
    for the statuses 1xx, 204 and 304 it gives no body and no error
    whatever the response type; and for text and binary on any other
    status it gives the body of the response. *)
Theorem readResponseBody_cases (respType : ResponseType) (status : Z) (body : string) :
  (Z.leb 100 status && Z.leb status 199 || Z.eqb status 204 || Z.eqb status 304 = true ->
     readResponseBody respType status body = (None, None))
  /\ (respType = ResponseTypeNone -> readResponseBody respType status body = (None, None))
  /\ (Z.leb 100 status && Z.leb status 199 || Z.eqb status 204 || Z.eqb status 304 = false ->
      (respType = ResponseTypeText ->
         readResponseBody respType status body = (Some (TextBody body), None))
      /\ (respType = ResponseTypeBinary ->
          readResponseBody respType status body = (Some (BinaryBody body), None))
      /\ (forall text, respType = ResponseTypeInvalid text ->
            readResponseBody respType status body
            = (None, Some (OtherError ("unknown responseType " +:+ text) None)))).
Proof.
  unfold readResponseBody, StatusNoContent, StatusNotModified.
  split; [| split].
  - intros ->. destruct respType; reflexivity.
  - intros ->. reflexivity.
  - intros ->. repeat split; intros; subst; reflexivity.
Qed.

Section WithLibs.
Context `{Runtime} `{Lib}.

(** The warning [do] logs: only for a transport error that is not
    thrown. *)
Lemma do_run (ctx : Context) (reqw : RequestWrapper) (respType : ResponseType)
    (reply : Reply) (t : MetricDispatcher) (h : list Event) :
  lastRequestLock t = false ->
  do ctx reqw respType reply (t, h)
  = Some ((fst (answer reqw respType reply),
           if Throw reqw then snd (answer reqw respType reply) else None),
          (setLastRequest (Some (setResponse releasedResponse (roundTrip ctx reqw reply))) t,
           h ++ eventsOf (Drain ctx None) t
             ++ [EvLock; EvStore (Some (roundTrip ctx reqw reply)); EvUnlock]
             ++ match replyErr reply with
                | Some _ => if Throw reqw then [] else [EvWarn "Request Failed"]
                | None => []
                end)).
Proof.
  intros Hfree. unfold do, mbind, M_bind.
  rewrite (ProcessLastSavedRequest_run ctx None t h Hfree).
  rewrite SaveCurrentRequest_run by (destruct t; exact Hfree).
  destruct t as [st tm cb slot held]. simpl in Hfree. subst held.
  unfold ReleaseResponse, mret, M_ret, note. simpl.
  destruct (replyErr reply); [destruct (Throw reqw) |]; simpl;
    rewrite <- !app_assoc; simpl; rewrite ?app_nil_r; reflexivity.
Qed.

(** One call of [do] on a dispatcher whose mutex is free returns. What
    was staged before is measured, unchanged, before the new request is
    put in the slot, so the warning of an unexpected staged request is
    never logged: the only warning is that of a transport error that is
    not thrown. Afterwards the slot holds the request of this round
    trip, and the response in it is the released one. *)
Theorem do_stages_after_emitting (ctx : Context) (reqw : RequestWrapper)
    (respType : ResponseType) (reply : Reply) (t : MetricDispatcher) (h : list Event) :
  lastRequestLock t = false ->
  exists res t' events,
    do ctx reqw respType reply (t, h) = Some (res, (t', h ++ events))
    /\ lastRequestLock t' = false
    /\ lastRequest t' = Some (setResponse releasedResponse (roundTrip ctx reqw reply))
    /\ measuredOf events = pending t
    /\ emitsBeforeAccept (length (pending t)) events = true
    /\ disciplined false events = true
    /\ warningsOf events
       = match replyErr reply with
         | Some _ => if Throw reqw then [] else ["Request Failed"]
         | None => []
         end.
Proof.
  intros Hfree.
  eexists _, _, _. split; [apply do_run, Hfree |].
  split; [exact Hfree |]. split; [reflexivity |].
  unfold pending. simpl.
  destruct (lastRequest t) as [u |]; simpl;
    destruct (replyErr reply); simpl; try destruct (Throw reqw); simpl;
    repeat split; try reflexivity;
    unfold attachErr; destruct (Err u); reflexivity.
Qed.

(** What [do] returns: without [Throw] never an error; after a transport
    error no response, and the error only with [Throw]; after an answer
    of the transport a response object with the status, address and URL
    of the round trip, and, when the body cannot be read, with the code
    and message the classifier gives the error and no body. *)
Theorem do_returns (ctx : Context) (reqw : RequestWrapper) (respType : ResponseType)
    (reply : Reply) (t : MetricDispatcher) (h : list Event) :
  lastRequestLock t = false ->
  exists resp err st,
    do ctx reqw respType reply (t, h) = Some ((resp, err), st)
    /\ (Throw reqw = false -> err = None)
    /\ (forall e, replyErr reply = Some e ->
          resp = None /\ (Throw reqw = true -> err = Some e))
    /\ (replyErr reply = None ->
        exists r, resp = Some r
          /\ respStatus r = replyStatus reply
          /\ respRemoteIP r = replyRemoteAddr reply
          /\ respURL r = URIString (req reqw)
          /\ (forall e, snd (readResponseBody respType (replyStatus reply) (replyBody reply))
                       = Some e ->
                respBody r = None
                /\ (respErrorCode r, respError r) = ErrorCodeForError e
                /\ (Throw reqw = true -> err = Some e))
          /\ (snd (readResponseBody respType (replyStatus reply) (replyBody reply)) = None ->
              respBody r = fst (readResponseBody respType (replyStatus reply) (replyBody reply))
              /\ respErrorCode r = 0 /\ respError r = "" /\ err = None)).
Proof.
  intros Hfree.
  eexists _, _, _. split; [apply do_run, Hfree |].
  unfold answer.
  split; [intros ->; reflexivity |]. split.
  - intros e ->. simpl. split; [reflexivity |]. intros ->. reflexivity.
  - intros ->.
    destruct (readResponseBody _ _ _) as [body [e |]].
    + destruct (ErrorCodeForError e) as [code msg] eqn:Hcls. simpl.
      eexists. split; [reflexivity |]. simpl.
      split; [reflexivity |]. split; [reflexivity |]. split; [reflexivity |].
      split; [| discriminate].
      intros e0 He0. injection He0 as <-. rewrite Hcls.
      split; [reflexivity |]. split; [reflexivity |]. intros ->. reflexivity.
    + simpl. eexists. split; [reflexivity |]. simpl.
      split; [reflexivity |]. split; [reflexivity |]. split; [reflexivity |].
      split; [discriminate |].
      intros _. repeat split; try reflexivity. destruct (Throw reqw); reflexivity.
Qed.

(** Two round trips in a row, the first answered by the transport with
    any status at all: its request is emitted during the second call,
    when its response has been released, so the result has no error code
    and the status tag, when enabled, is "200". [r] is the pooled request
    as the set-up of the second call leaves it. *)
Theorem released_response_reads_200 (ctx1 ctx2 : Context) (reqw1 reqw2 : RequestWrapper)
    (rt1 rt2 : ResponseType) (reply1 reply2 : Reply) (r : Http.Request)
    (t : MetricDispatcher) (h : list Event) :
  lastRequestLock t = false ->
  replyErr reply1 = None ->
  exists res1 t1 h1 res2 t2 events fr,
    do ctx1 reqw1 rt1 reply1 (t, h) = Some (res1, (t1, h1))
    /\ do ctx2 reqw2 rt2 reply2 (shareRequest r t1, h1) = Some (res2, (t2, h1 ++ events))
    /\ resultsOf events = [fr]
    /\ Trail (roundTrip ctx1 reqw1 reply1) = newTrail (elapsed reply1)
    /\ Duration (FinishedTrail fr) = elapsed reply1
    /\ ErrorCode fr = 0
    /\ (Has (SystemTags (State t)) TagStatus = true -> tagOf fr TagStatus = Some "200").
Proof.
  intros Hfree Hok.
  set (t1 := setLastRequest
               (Some (setResponse releasedResponse (roundTrip ctx1 reqw1 reply1))) t).
  set (u := setRequest r (setResponse releasedResponse (roundTrip ctx1 reqw1 reply1))).
  assert (Herr : Err u = None) by exact Hok.
  assert (Hsame : attachErr None u = u).
  { unfold attachErr. rewrite Herr. reflexivity. }
  eexists _, t1, _, _, _, _, (measure (shareRequest r t1) u).
  split; [apply do_run, Hfree |].
  split; [apply do_run; destruct t; exact Hfree |].
  split.
  { simpl eventsOf. fold u. rewrite Hsame. rewrite !MetricsExtra.resultsOf_app. simpl.
    destruct (replyErr reply2); [destruct (Throw reqw2) |]; reflexivity. }
  split; [reflexivity |].
  split.
  { unfold measure.
    destruct (tagOutcome _ _ _) as [[code msg] tm].
    destruct (tagExpected _ _ _ _) as [failed tm'].
    destruct (responseCallback _); reflexivity. }
  destruct (tagOutcome_status (SystemTags (State t)) u
              (tagsBefore (shareRequest r t1) u) Herr) as (Hs & _ & Hlow).
  destruct (Hlow ltac:(simpl; lia)) as [Hfst _].
  pose proof (measure_code (shareRequest r t1) u) as Hpair.
  change (SystemTags (State (shareRequest r t1))) with (SystemTags (State t)) in Hpair.
  rewrite Hfst in Hpair. injection Hpair as Hc _.
  split; [exact Hc |].
  intros Hen. rewrite measure_tag by discriminate. exact (Hs Hen).
Qed.

(** A call of [makeReq] whose set-up fails returns the error of the
    set-up, whatever [Throw] says, and stops there: no round trip is made,
    the dispatcher is not made or touched, the request taken from the
    pool or newly acquired is not given to the pool, and the wrapper
    keeps holding it. *)
Theorem makeReq_setup_failure (vuState : K6.State) (ctx : Context)
    (pooled : option Http.Request) (staged : bool)
    (reqw : RequestWrapper) (respType : ResponseType) (method : string) (reply : Reply)
    (metrics : option MetricDispatcher) (h : list Event) (e : error) :
  snd (makeReqSetup pooled reqw method) = Some e ->
  exists out log,
    makeReq vuState ctx pooled staged reqw respType method reply metrics h
    = Some (out, (metrics, h ++ map EvWarn log))
    /\ err out = Some e
    /\ response out = None
    /\ putBack out = None
    /\ (exists r, reqAfter out = Some r)
    /\ measuredOf (map EvWarn log) = [].
Proof.
  intros Hfail. unfold makeReq.
  destruct (makeReqSetup pooled reqw method) as [[reqw' log] serr].
  simpl in Hfail. subst serr.
  eexists _, log. split; [reflexivity |]. simpl.
  repeat split; eauto.
  induction log as [| l log IH]; simpl; auto.
Qed.

(** A call of [makeReq] whose set-up succeeds, on a client whose
    dispatcher, if it has one, has its mutex free, returns; the request
    it used goes back to the pool and the wrapper forgets it; the client
    has a dispatcher afterwards, the one it had or else a new one with the
    tags the VU has at this call, and the round trip is staged in it; no
    error is returned unless [Throw] is set, and no response together with
    an error. *)
Theorem makeReq_round_trip (vuState : K6.State) (ctx : Context)
    (pooled : option Http.Request) (staged : bool)
    (reqw : RequestWrapper) (respType : ResponseType) (method : string) (reply : Reply)
    (metrics : option MetricDispatcher) (h : list Event) :
  snd (makeReqSetup pooled reqw method) = None ->
  (forall t, metrics = Some t -> lastRequestLock t = false) ->
  exists out t' h',
    makeReq vuState ctx pooled staged reqw respType method reply metrics h
    = Some (out, (Some t', h'))
    /\ putBack out = Some (req (fst (fst (makeReqSetup pooled reqw method))))
    /\ reqAfter out = None
    /\ TagsAndMeta t' = match metrics with
                        | Some t => TagsAndMeta t
                        | None => CurrentTags vuState
                        end
    /\ lastRequest t'
       = Some (setResponse releasedResponse
                 (roundTrip ctx (fst (fst (makeReqSetup pooled reqw method))) reply))
    /\ (Throw reqw = false -> err out = None)
    /\ (forall e, err out = Some e -> response out = None).
Proof.
  intros Hok Hfree. unfold makeReq.
  assert (Hthrow : Throw (fst (fst (makeReqSetup pooled reqw method))) = Throw reqw).
  { unfold makeReqSetup, setupCachedReq, setupNewReq.
    destruct pooled; simpl;
      repeat match goal with
             | |- context [if ?b then _ else _] => destruct b; simpl
             | |- context [match Body ?r with _ => _ end] => destruct (Body r) as [[] |]; simpl
             | |- context [match Seek0 ?f with _ => _ end] => destruct (Seek0 f); simpl
             end; reflexivity. }
  destruct (makeReqSetup pooled reqw method) as [[reqw' log] serr].
  simpl in Hok, Hthrow. subst serr. simpl.
  set (t0 := match pooled with
             | Some _ => if staged
                         then shareRequest (req reqw') (setupMetrics vuState metrics)
                         else setupMetrics vuState metrics
             | None => setupMetrics vuState metrics
             end).
  assert (Ht0 : lastRequestLock t0 = false
                /\ TagsAndMeta t0 = match metrics with
                                    | Some t => TagsAndMeta t
                                    | None => CurrentTags vuState
                                    end).
  { assert (Hs : lastRequestLock (setupMetrics vuState metrics) = false).
    { destruct metrics as [t |]; simpl; [apply Hfree; reflexivity | reflexivity]. }
    unfold t0. destruct pooled; [destruct staged |]; simpl;
      (split; [exact Hs | destruct metrics; reflexivity]). }
  destruct Ht0 as [Hfree0 Htags0].
  rewrite (do_run ctx reqw' respType reply t0 _ Hfree0).
  eexists _, _, _. split; [reflexivity |]. simpl.
  split; [reflexivity |]. split; [reflexivity |]. split; [exact Htags0 |].
  split; [reflexivity |]. rewrite Hthrow. split.
  - intros ->. reflexivity.
  - intros e. destruct (Throw reqw); simpl; [| discriminate].
    destruct (snd (answer reqw' respType reply)); [reflexivity | discriminate].
Qed.

(** A call without body on a pooled request that the request staged in
    the dispatcher was sent with: the set-up writes the method of this
    call into that request before the staged one is emitted, so the
    method tag of the staged request, emitted during this call, is the
    method of this call (GET when it is empty). *)
Theorem method_tag_of_reused_request (vuState : K6.State) (ctx : Context)
    (r : Http.Request) (reqw : RequestWrapper) (respType : ResponseType)
    (method : string) (reply : Reply)
    (t : MetricDispatcher) (u : UnfinishedRequest) (h : list Event) :
  lastRequestLock t = false ->
  lastRequest t = Some u ->
  setBody method (Body reqw) = false ->
  Has (SystemTags (State t)) TagMethod = true ->
  exists out t' events fr,
    makeReq vuState ctx (Some r) true reqw respType method reply (Some t) h
    = Some (out, (Some t', h ++ events))
    /\ resultsOf events = [fr]
    /\ tagOf fr TagMethod = Some (if String.eqb method "" then "GET" else method).
Proof.
  intros Hfree Hslot Hno Hen.
  set (r' := SetMethod method (SetBodyStream None 0 (SetBody "" r))).
  assert (Hsetup : makeReqSetup (Some r) reqw method = (withReq r' reqw, [], None)).
  { unfold makeReqSetup, setupCachedReq. simpl. rewrite Hno. reflexivity. }
  set (u' := setRequest r' u).
  assert (Hsame : attachErr None u' = u').
  { unfold attachErr. destruct (Err u'); reflexivity. }
  assert (Hslot' : lastRequest (shareRequest r' t) = Some u').
  { unfold shareRequest. simpl. rewrite Hslot. reflexivity. }
  unfold makeReq. rewrite Hsetup. simpl setupMetrics. cbv iota beta.
  simpl map. rewrite app_nil_r.
  change (req (withReq r' reqw)) with r'.
  rewrite (do_run ctx (withReq r' reqw) respType reply (shareRequest r' t) h Hfree).
  eexists _, _, _, (measure (shareRequest r' t) u').
  split; [reflexivity |].
  unfold eventsOf. rewrite Hslot', Hsame.
  split.
  { rewrite !MetricsExtra.resultsOf_app. simpl.
    destruct (replyErr reply); [destruct (Throw reqw) |]; reflexivity. }
  rewrite measure_tag by discriminate.
  rewrite tagOutcome_other by (simpl; congruence).
  unfold tagsBefore.
  rewrite (lookup_set_enabled _ TagMethod) by exact Hen.
  reflexivity.
Qed.

End WithLibs.

(** *** The client configuration *)

Section Config.
Context {Cert : Type}.
Context (LoadX509KeyPair : string -> string -> Cert + error).
Context `{Runtime}.

(** Half a key pair is refused before anything is loaded: a private key
    without certificate, or a certificate without private key, is an
    error whatever the files hold; and with neither, the configuration
    is accepted and the client has no certificate. *)
Theorem parseClientConfig_key_pair (config : ClientConfig) :
  (String.eqb (PrivateKey (TLSConfigOf config)) "" = false ->
   String.eqb (Certificate (TLSConfigOf config)) "" = true ->
   parseClientConfig LoadX509KeyPair config = inr (OtherError "blank certificate" None))
  /\ (String.eqb (PrivateKey (TLSConfigOf config)) "" = true ->
      String.eqb (Certificate (TLSConfigOf config)) "" = false ->
      parseClientConfig LoadX509KeyPair config = inr (OtherError "blank private key" None))
  /\ (String.eqb (PrivateKey (TLSConfigOf config)) "" = true ->
      String.eqb (Certificate (TLSConfigOf config)) "" = true ->
      exists client, parseClientConfig LoadX509KeyPair config = inl client
                     /\ tlsCertificates client = [])
  /\ (forall client, parseClientConfig LoadX509KeyPair config = inl client ->
      tlsCertificates client = [] ->
      String.eqb (PrivateKey (TLSConfigOf config)) "" = true
      /\ String.eqb (Certificate (TLSConfigOf config)) "" = true).
Proof.
  unfold parseClientConfig.
  split; [| split; [| split]].
  - intros Hk Hc. rewrite Hk, Hc. reflexivity.
  - intros Hk Hc. rewrite Hk, Hc. reflexivity.
  - intros Hk Hc. rewrite Hk, Hc. simpl. eexists. split; reflexivity.
  - intros client Hparse Hcerts.
    destruct (String.eqb (PrivateKey (TLSConfigOf config)) "");
      destruct (String.eqb (Certificate (TLSConfigOf config)) "");
      simpl in Hparse; try discriminate.
    + split; reflexivity.
    + destruct (LoadX509KeyPair _ _); [| discriminate].
      injection Hparse as <-. discriminate.
Qed.

(** A client that is accepted always has at least one connection per
    host: the configured number when it is positive, 1 otherwise. Its
    dial allows 5 seconds when the configured time is not positive, and
    the configured number of seconds otherwise (for a number that fits
    in 64 bits of nanoseconds); and it keeps header names as given. *)
Theorem parseClientConfig_defaults (config : ClientConfig) (client : HttpClient) :
  parseClientConfig LoadX509KeyPair config = inl client ->
  1 <= clMaxConnsPerHost client
  /\ (0 < MaxConnsPerHost config -> clMaxConnsPerHost client = MaxConnsPerHost config)
  /\ (MaxConnsPerHost config <= 0 -> clMaxConnsPerHost client = 1)
  /\ (DialTimeout config <= 0 -> timeout (Dial client) = 5000000000)
  /\ (0 < DialTimeout config < 9223372036 ->
      timeout (Dial client) = DialTimeout config * 1000000000)
  /\ through (Dial client)
     = (if String.eqb (Proxy config) "" then None else Some (Proxy config))
  /\ DisableHeaderNamesNormalizing client = true.
Proof.
  unfold parseClientConfig. intros Hparse.
  assert (Hclient : exists certs,
            client = {| clName := UserAgent config;
                        clMaxConnDuration := seconds (MaxConnDuration config);
                        clReadBufferSize := ReadBufferSize config;
                        clWriteBufferSize := WriteBufferSize config;
                        clWriteTimeout := seconds (WriteTimeout config);
                        clReadTimeout := seconds (ReadTimeout config);
                        clMaxConnsPerHost :=
                          if Z.ltb 0 (MaxConnsPerHost config)
                          then MaxConnsPerHost config else defaultMaxConnsPerHost;
                        DisableHeaderNamesNormalizing := true;
                        tlsInsecureSkipVerify := InsecureSkipVerify (TLSConfigOf config);
                        tlsCertificates := certs;
                        Dial := dial config |}).
  { destruct (_ && _); [discriminate |].
    destruct (_ && _); [discriminate |].
    destruct (_ && _).
    - destruct (LoadX509KeyPair _ _); [| discriminate].
      injection Hparse as <-. eauto.
    - injection Hparse as <-. eauto. }
  destruct Hclient as [certs ->]. simpl.
  unfold defaultMaxConnsPerHost, dial, defaultDialTimeout, seconds, Second, int64.
  destruct (Z.ltb_spec 0 (MaxConnsPerHost config));
    destruct (Z.ltb_spec 0 (DialTimeout config));
    destruct (String.eqb (Proxy config) ""); simpl;
    repeat split; try lia; try reflexivity;
    intros Hd; rewrite Z.mod_small by lia; lia.
Qed.

End Config.

Import Sample.

(** A wrapper that does not throw, and transport replies. *)
Lemma do_stages_after_emitting_witness :
  exists res t' events,
    do ctx postable ResponseTypeText
      {| replyErr := Some (OtherError "timeout" None); replyStatus := 0;
         replyRemoteAddr := ""; replyHeaders := []; replyBody := ""; elapsed := 7 |}
      (after (Stage ctx (answered "http://a.test/" 200)) (NewMetricDispatcher noTags state), [])
    = Some (res, (t', [] ++ events))
    /\ lastRequestLock t' = false
    /\ measuredOf events = [answered "http://a.test/" 200]
    /\ warningsOf events = ["Request Failed"].
Proof.
  destruct (do_stages_after_emitting ctx postable ResponseTypeText
              {| replyErr := Some (OtherError "timeout" None); replyStatus := 0;
                 replyRemoteAddr := ""; replyHeaders := []; replyBody := ""; elapsed := 7 |}
              (after (Stage ctx (answered "http://a.test/" 200))
                 (NewMetricDispatcher noTags state)) [] eq_refl)
    as (res & t' & events & Hrun & Hfree & _ & Hm & _ & _ & Hw).
  exists res, t', events. auto.
Defined.

Lemma do_returns_witness :
  exists resp err st,
    do ctx postable ResponseTypeText
      {| replyErr := Some (OtherError "timeout" None); replyStatus := 0;
         replyRemoteAddr := ""; replyHeaders := []; replyBody := ""; elapsed := 7 |}
      (NewMetricDispatcher noTags state, [])
    = Some ((resp, err), st)
    /\ resp = None /\ err = None.
Proof.
  destruct (do_returns ctx postable ResponseTypeText
              {| replyErr := Some (OtherError "timeout" None); replyStatus := 0;
                 replyRemoteAddr := ""; replyHeaders := []; replyBody := ""; elapsed := 7 |}
              (NewMetricDispatcher noTags state) [] eq_refl)
    as (resp & err & st & Hrun & Hthrow & Hfail & _).
  exists resp, err, st. split; [exact Hrun |].
  split; [exact (proj1 (Hfail _ eq_refl)) | exact (Hthrow eq_refl)].
Defined.

Lemma released_response_reads_200_witness :
  exists res1 t1 h1 res2 t2 events fr,
    do ctx postable ResponseTypeText
      {| replyErr := None; replyStatus := 404;
         replyRemoteAddr := "10.0.0.1:80"; replyHeaders := []; replyBody := "gone";
         elapsed := 7 |}
      (NewMetricDispatcher noTags state, [])
    = Some (res1, (t1, h1))
    /\ do ctx postable ResponseTypeText
         {| replyErr := None; replyStatus := 200;
            replyRemoteAddr := "10.0.0.1:80"; replyHeaders := []; replyBody := "ok";
            elapsed := 9 |}
         (shareRequest (req postable) t1, h1)
       = Some (res2, (t2, h1 ++ events))
    /\ resultsOf events = [fr]
    /\ Duration (FinishedTrail fr) = 7
    /\ ErrorCode fr = 0
    /\ tagOf fr TagStatus = Some "200".
Proof.
  destruct (released_response_reads_200 ctx ctx postable postable
              ResponseTypeText ResponseTypeText
              {| replyErr := None; replyStatus := 404;
                 replyRemoteAddr := "10.0.0.1:80"; replyHeaders := []; replyBody := "gone";
                 elapsed := 7 |}
              {| replyErr := None; replyStatus := 200;
                 replyRemoteAddr := "10.0.0.1:80"; replyHeaders := []; replyBody := "ok";
                 elapsed := 9 |}
              (req postable) (NewMetricDispatcher noTags state) [] eq_refl eq_refl)
    as (res1 & t1 & h1 & res2 & t2 & events & fr & H1 & H2 & Hr & _ & Hd & Hc & Hs).
  exists res1, t1, h1, res2, t2, events, fr.
  split; [exact H1 |]. split; [exact H2 |]. split; [exact Hr |].
  split; [exact Hd |]. split; [exact Hc | exact (Hs eq_refl)].
Defined.

Lemma makeReq_setup_failure_witness :
  exists out log,
    makeReq state ctx (Some afterGet) false (SampleMore.streaming SampleMore.closedFile)
      ResponseTypeText MethodPost (SampleMore.answeredWith 200 "ok") None []
    = Some (out, (None, [] ++ map EvWarn log))
    /\ err out = Some (OtherError "seek: file already closed" None)
    /\ response out = None
    /\ putBack out = None
    /\ (exists r, reqAfter out = Some r)
    /\ measuredOf (map EvWarn log) = [].
Proof.
  exact (makeReq_setup_failure state ctx (Some afterGet) false
           (SampleMore.streaming SampleMore.closedFile) ResponseTypeText MethodPost
           (SampleMore.answeredWith 200 "ok") None []
           (OtherError "seek: file already closed" None) eq_refl).
Defined.

Lemma makeReq_round_trip_witness :
  exists out t' h',
    makeReq state ctx None false postable ResponseTypeText MethodPost
      (SampleMore.answeredWith 200 "ok") None []
    = Some (out, (Some t', h'))
    /\ reqAfter out = None
    /\ TagsAndMeta t' = noTags
    /\ err out = None.
Proof.
  destruct (makeReq_round_trip state ctx None false postable ResponseTypeText MethodPost
              (SampleMore.answeredWith 200 "ok") None [] eq_refl
              ltac:(intros t Ht; discriminate Ht))
    as (out & t' & h' & Hrun & _ & Hreq & Htags & _ & Herr & _).
  exists out, t', h'. split; [exact Hrun |].
  split; [exact Hreq |]. split; [exact Htags | exact (Herr eq_refl)].
Defined.

Lemma method_tag_of_reused_request_witness :
  exists out t' events fr,
    makeReq state ctx (Some (SetMethod MethodPost afterGet)) true postable
      ResponseTypeText MethodGet (SampleMore.answeredWith 200 "ok")
      (Some (after (Stage ctx (answered "http://a.test/upload" 201))
               (NewMetricDispatcher noTags state))) []
    = Some (out, (Some t', [] ++ events))
    /\ resultsOf events = [fr]
    /\ tagOf fr TagMethod = Some "GET".
Proof.
  exact (method_tag_of_reused_request state ctx (SetMethod MethodPost afterGet) postable
           ResponseTypeText MethodGet (SampleMore.answeredWith 200 "ok")
           (after (Stage ctx (answered "http://a.test/upload" 201))
              (NewMetricDispatcher noTags state))
           (answered "http://a.test/upload" 201) [] eq_refl eq_refl eq_refl eq_refl).
Defined.

Lemma parseClientConfig_defaults_witness :
  exists client,
    parseClientConfig SampleMore.loadPair SampleMore.plainConfig = inl client
    /\ clMaxConnsPerHost client = 1
    /\ timeout (Dial client) = 5000000000.
Proof.
  eexists. split; [reflexivity |].
  destruct (parseClientConfig_defaults SampleMore.loadPair SampleMore.plainConfig _ eq_refl)
    as (_ & _ & Hone & Hdial & _).
  split; [exact (Hone ltac:(simpl; lia)) | exact (Hdial ltac:(simpl; lia))].
Defined.

End ClientExtra.

(** ** Request set-up and status checks *)

Module FasthttpExtra.
Import Errors K6 Http Fasthttp FasthttpMore Sample.

(** *** What [Header.Set] changes *)

Lemma caseInsensitiveCompare_meet (a b k : string) :
  caseInsensitiveCompare a k = true -> caseInsensitiveCompare b k = true ->
  caseInsensitiveCompare a b = true.
Proof.
  revert b k. induction a as [| x a IH]; intros [| y b] [| z k]; simpl;
    try discriminate; [reflexivity |].
  intros Ha Hb.
  apply andb_true_iff in Ha as [Hx Ha]. apply andb_true_iff in Hb as [Hy Hb].
  apply Ascii.eqb_eq in Hx. apply Ascii.eqb_eq in Hy.
  apply andb_true_iff. split.
  - apply Ascii.eqb_eq. congruence.
  - exact (IH b k Ha Hb).
Qed.

(** A name is taken for one special header at most. *)
Lemma special_apart (a b k : string) :
  caseInsensitiveCompare a b = false -> caseInsensitiveCompare a k = true ->
  caseInsensitiveCompare b k = false.
Proof.
  intros Hab Ha. destruct (caseInsensitiveCompare b k) eqn:Hb; [| reflexivity].
  rewrite (caseInsensitiveCompare_meet a b k Ha Hb) in Hab. discriminate.
Qed.

(** The steps of [SetHeader] that a name reaches. *)
Ltac by_name :=
  unfold SetHeader; cbv zeta;
  repeat match goal with
         | |- context [caseInsensitiveCompare ?name ?key] =>
             lazymatch goal with
             | H : caseInsensitiveCompare name key = _ |- _ => fail
             | _ => idtac
             end;
             let E := fresh "E" in
             destruct (caseInsensitiveCompare name key) eqn:E
         end.

Ltac other_name :=
  match goal with
  | H : caseInsensitiveCompare ?a ?k = true, H' : caseInsensitiveCompare ?b ?k = true |- _ =>
      let X := fresh in
      assert (X : caseInsensitiveCompare b k = false)
        by (apply (special_apart a b k); [reflexivity | exact H]);
      rewrite X in H'; discriminate
  end.

Lemma SetHeader_fixed (k v : string) (r : Request) :
  disableNormalizing (SetHeader k v r) = disableNormalizing r
  /\ requestURI (SetHeader k v r) = requestURI r
  /\ UseHostHeader (SetHeader k v r) = UseHostHeader r
  /\ method (SetHeader k v r) = method r
  /\ body (SetHeader k v r) = body r
  /\ bodyStream (SetHeader k v r) = bodyStream r.
Proof.
  unfold SetHeader, ResetConnectionClose. cbv zeta.
  repeat match goal with
         | |- context [if ?c then _ else _] => destruct c
         | |- context [match ?c with Some _ => _ | None => _ end] => destruct c
         end; repeat split; reflexivity.
Qed.

Ltac settle :=
  try other_name; unfold ResetConnectionClose;
  repeat match goal with
         | |- context [if ?c then _ else _] => destruct c
         | |- context [match ?c with Some _ => _ | None => _ end] => destruct c
         end; try reflexivity.

Lemma SetHeader_host (k v : string) (r : Request) :
  host (SetHeader k v r)
  = if caseInsensitiveCompare "Host" (normalizeHeaderKey (disableNormalizing r) k)
    then removeNewLines v else host r.
Proof. by_name; settle. Qed.

Lemma SetHeader_connectionClose (k v : string) (r : Request) :
  connectionClose (SetHeader k v r)
  = if caseInsensitiveCompare "Connection" (normalizeHeaderKey (disableNormalizing r) k)
    then String.eqb (removeNewLines v) "close" else connectionClose r.
Proof.
  by_name; try other_name;
    destruct (String.eqb (removeNewLines v) "close");
    unfold ResetConnectionClose; destruct (connectionClose r) eqn:Hclose;
    settle; exact Hclose.
Qed.

Lemma SetHeader_contentLength (k v : string) (r : Request) :
  contentLength (SetHeader k v r)
  = if caseInsensitiveCompare "Content-Length"
         (normalizeHeaderKey (disableNormalizing r) k)
    then default (contentLength r) (parseContentLength (removeNewLines v))
    else contentLength r.
Proof. by_name; settle. Qed.

Lemma SetHeader_plain (k v : string) (r : Request) :
  specialHeader (normalizeHeaderKey (disableNormalizing r) k) = false ->
  SetHeader k v r
  = setNonSpecial (normalizeHeaderKey (disableNormalizing r) k) (removeNewLines v) r.
Proof.
  unfold specialHeader, specialHeaders. cbn [existsb]. intros Hplain.
  repeat (apply orb_false_iff in Hplain as [? Hplain]).
  unfold SetHeader. cbv zeta.
  repeat match goal with
         | H : caseInsensitiveCompare ?name ?key = false |- _ => rewrite H; clear H
         end.
  reflexivity.
Qed.

(** A header of the list under a name that is not special is changed
    only by a header that is filed under that name. *)
Lemma SetHeader_other (name k v : string) (r : Request) :
  specialHeader name = false ->
  normalizeHeaderKey (disableNormalizing r) k <> name ->
  headers (SetHeader k v r) !! name = headers r !! name.
Proof.
  intros Hplain Hne.
  assert (Hconn : name <> "Connection").
  { intros ->. discriminate. }
  by_name; try other_name; unfold ResetConnectionClose;
    repeat match goal with
           | |- context [if ?c then _ else _] => destruct c
           | |- context [match ?c with Some _ => _ | None => _ end] => destruct c
           end;
    cbn [headers setNonSpecial SetConnectionClose SetContentType storeContentLength
         addCookies SetTrailer SetHost SetUserAgent];
    rewrite ?lookup_insert_ne by exact Hne;
    rewrite ?lookup_delete_ne by (intros Heq; apply Hconn; symmetry; exact Heq);
    reflexivity.
Qed.

(** Setting the headers of a map one by one: a field of the request
    that only the headers picked by [sel] change is left alone when the
    map has no such header. *)
Lemma fold_SetHeader_skip {A : Type} (proj : Request -> A) (sel : string -> bool)
    (d : bool) (r : Request) (m : gmap string string) :
  disableNormalizing r = d ->
  (forall k v r', disableNormalizing r' = d -> sel k = false ->
     proj (SetHeader k v r') = proj r') ->
  map_Forall (fun k _ => sel k = false) m ->
  proj (map_fold SetHeader r m) = proj r.
Proof.
  intros Hd Hskip.
  enough (Hall : disableNormalizing (map_fold SetHeader r m) = d
                 /\ (map_Forall (fun k _ => sel k = false) m ->
                     proj (map_fold SetHeader r m) = proj r))
    by (destruct Hall as [_ Hall]; exact Hall).
  apply (map_fold_weak_ind
           (fun r' m' => disableNormalizing r' = d
                         /\ (map_Forall (fun k _ => sel k = false) m' -> proj r' = proj r))).
  - split; [exact Hd | reflexivity].
  - intros i x m' r' Hi (Hd' & Hnone).
    split; [destruct (SetHeader_fixed i x r') as [-> _]; exact Hd' |].
    intros Hall. apply map_Forall_insert in Hall as [Hsel Hall]; [| exact Hi].
    rewrite (Hskip i x r' Hd' Hsel). apply Hnone, Hall.
Qed.

(** And when each header picked by [sel] gives the field a value of its
    own, the field has the value of that header when the map has one. *)
Lemma fold_SetHeader_sole {A : Type} (proj : Request -> A) (sel : string -> bool)
    (out : string -> A) (d : bool) (r : Request) (m : gmap string string)
    (k v : string) :
  disableNormalizing r = d ->
  (forall k v r', disableNormalizing r' = d -> sel k = false ->
     proj (SetHeader k v r') = proj r') ->
  (forall k v r', disableNormalizing r' = d -> sel k = true ->
     proj (SetHeader k v r') = out v) ->
  m !! k = Some v -> sel k = true -> sole sel k m ->
  proj (map_fold SetHeader r m) = out v.
Proof.
  intros Hd Hskip Hhit. revert k v.
  enough (Hall : disableNormalizing (map_fold SetHeader r m) = d
                 /\ (forall k v, m !! k = Some v -> sel k = true -> sole sel k m ->
                       proj (map_fold SetHeader r m) = out v))
    by (destruct Hall as [_ Hall]; exact Hall).
  apply (map_fold_weak_ind
           (fun r' m' => disableNormalizing r' = d
                         /\ (forall k v, m' !! k = Some v -> sel k = true -> sole sel k m' ->
                               proj r' = out v))).
  - split; [exact Hd |].
    intros k v Hk. rewrite lookup_empty in Hk. discriminate.
  - intros i x m' r' Hi (Hd' & Hone).
    split; [destruct (SetHeader_fixed i x r') as [-> _]; exact Hd' |].
    intros k v Hk Hsel Hsole.
    apply map_Forall_insert in Hsole as [Hsole_i Hsole]; [| exact Hi].
    destruct (decide (i = k)) as [-> | Hne].
    + rewrite lookup_insert_eq in Hk. injection Hk as ->.
      apply (Hhit k v r' Hd' Hsel).
    + rewrite lookup_insert_ne in Hk by exact Hne.
      destruct (sel i) eqn:Hsel_i; [exfalso; apply Hne, Hsole_i; reflexivity |].
      rewrite (Hskip i x r' Hd' Hsel_i). apply (Hone k v Hk Hsel Hsole).
Qed.

(** The fields no header changes. *)
Lemma set_headers (m : gmap string string) (r : Request) :
  disableNormalizing (map_fold SetHeader r m) = disableNormalizing r
  /\ requestURI (map_fold SetHeader r m) = requestURI r
  /\ UseHostHeader (map_fold SetHeader r m) = UseHostHeader r
  /\ method (map_fold SetHeader r m) = method r
  /\ body (map_fold SetHeader r m) = body r
  /\ bodyStream (map_fold SetHeader r m) = bodyStream r.
Proof.
  apply (map_fold_weak_ind
           (fun r' (_ : gmap string string) =>
              disableNormalizing r' = disableNormalizing r
              /\ requestURI r' = requestURI r
              /\ UseHostHeader r' = UseHostHeader r
              /\ method r' = method r
              /\ body r' = body r
              /\ bodyStream r' = bodyStream r)).
  - repeat split; reflexivity.
  - intros i x m' r' _ (Hd & Hu & Huh & Hm & Hb & Hs).
    destruct (SetHeader_fixed i x r') as (-> & -> & -> & -> & -> & ->).
    repeat split; assumption.
Qed.

(** *** Set-up of a new request *)

Lemma setupNewReq_steps (reqw : RequestWrapper) (m : string) :
  setupNewReq reqw m
  = if setBody m (Body reqw)
    then
      match Body reqw with
      | Some (BodyString s) =>
          (withReq (finished reqw m (SetBody s (addressed reqw))) reqw, [], None)
      | Some (BodyArrayBuffer bytes) =>
          (withReq (finished reqw m (SetBody bytes (addressed reqw))) reqw, [], None)
      | Some (BodyFileStream f) =>
          match Seek0 f with
          | inr err =>
              (withReq (addressed reqw) reqw, ["Failed to reset stream to beginning"],
               Some err)
          | inl f' =>
              (withReq (finished reqw m (SetBodyStream (Some f') (-1) (addressed reqw)))
                 (withBody (Some (BodyFileStream f')) reqw), [], None)
          end
      | _ => (withReq (addressed reqw) reqw, [],
              Some (OtherError "req body type not supported" None))
      end
    else (withReq (finished reqw m (addressed reqw)) reqw, [], None).
Proof.
  unfold setupNewReq, finished, addressed. cbv zeta.
  cbn [Host withReq withBody Body DisableKeepAlive Headers req Url Throw].
  destruct (String.eqb (Host reqw) "");
    cbn [negb Host withReq withBody Body DisableKeepAlive Headers req Url Throw];
    destruct (setBody m (Body reqw)); try reflexivity;
    destruct (Body reqw) as [[s | bytes | f |] |]; try reflexivity;
    destruct (Seek0 f); reflexivity.
Qed.

(** A new request for a call that carries a string body (a method other
    than GET and HEAD): the set-up succeeds and logs nothing; the request
    has the URL of the wrapper, the method of the call, the string as its
    body and no body stream, and uses its Host header when the wrapper
    names a host. The headers of the wrapper are set last: a header whose
    name is not special, and that is the only one filed under its name,
    is in the header list under that name, its line breaks made spaces;
    the host is the one the wrapper names unless the wrapper has a Host
    header, and is the value of that header when it has one; the
    connection is closed when keep-alive is disabled unless the wrapper
    has a Connection header, and when it has one it is closed exactly
    when the value of the header is close. *)
Theorem setupNewReq_text_body (reqw : RequestWrapper) (m s : string) :
  Body reqw = Some (BodyString s) ->
  setBody m (Body reqw) = true ->
  exists reqw',
    setupNewReq reqw m = (reqw', [], None)
    /\ requestURI (req reqw') = Url reqw
    /\ method (req reqw') = m
    /\ body (req reqw') = s
    /\ bodyStream (req reqw') = None
    /\ UseHostHeader (req reqw')
       = (if String.eqb (Host reqw) "" then UseHostHeader (req reqw) else true)
    /\ (forall k v, Headers reqw !! k = Some v ->
          specialHeader (headerName reqw k) = false ->
          sole (sameName reqw k) k (Headers reqw) ->
          headers (req reqw') !! headerName reqw k = Some (removeNewLines v))
    /\ (absent "Host" reqw ->
        host (req reqw')
        = if String.eqb (Host reqw) "" then host (req reqw) else Host reqw)
    /\ (forall k v, Headers reqw !! k = Some v ->
          named "Host" reqw k = true ->
          sole (named "Host" reqw) k (Headers reqw) ->
          host (req reqw') = removeNewLines v)
    /\ (absent "Connection" reqw ->
        connectionClose (req reqw') = DisableKeepAlive reqw || connectionClose (req reqw))
    /\ (forall k v, Headers reqw !! k = Some v ->
          named "Connection" reqw k = true ->
          sole (named "Connection" reqw) k (Headers reqw) ->
          connectionClose (req reqw') = String.eqb (removeNewLines v) "close").
Proof.
  intros Hbody Hset. rewrite setupNewReq_steps, Hset, Hbody.
  eexists. split; [reflexivity |].
  cbn [req withReq]. unfold finished.
  set (r := if DisableKeepAlive reqw
            then SetConnectionClose (SetBody s (addressed reqw))
            else SetBody s (addressed reqw)).
  assert (Hr : disableNormalizing r = disableNormalizing (req reqw)
               /\ requestURI r = Url reqw
               /\ body r = s
               /\ bodyStream r = None
               /\ UseHostHeader r
                  = (if String.eqb (Host reqw) "" then UseHostHeader (req reqw) else true)
               /\ host r = (if String.eqb (Host reqw) "" then host (req reqw) else Host reqw)
               /\ connectionClose r = DisableKeepAlive reqw || connectionClose (req reqw)).
  { subst r. unfold addressed.
    destruct (DisableKeepAlive reqw), (String.eqb (Host reqw) "");
      repeat split; reflexivity. }
  destruct Hr as (Hd & Hu & Hb & Hs & Huh & Hh & Hc).
  destruct (set_headers (Headers reqw) r) as (_ & Hu' & Huh' & _ & Hb' & Hs').
  cbn [requestURI method body bodyStream UseHostHeader headers host connectionClose
       SetMethod].
  rewrite Hu', Huh', Hb', Hs', Hu, Hb, Hs, Huh.
  do 5 (split; [reflexivity |]).
  split; [| split; [| split; [| split]]].
  - intros k v Hk Hplain Hsole.
    refine (fold_SetHeader_sole (fun r' => headers r' !! headerName reqw k)
              (sameName reqw k) (fun v => Some (removeNewLines v))
              _ r (Headers reqw) k v Hd _ _ Hk _ Hsole).
    + intros k' v' r' Hd' Hsel. apply SetHeader_other; [exact Hplain |].
      rewrite Hd'. intros Heq. unfold sameName, headerName in Hsel.
      rewrite Heq, String.eqb_refl in Hsel. discriminate.
    + intros k' v' r' Hd' Hsel. unfold sameName in Hsel.
      apply String.eqb_eq in Hsel. unfold headerName in Hsel, Hplain.
      rewrite SetHeader_plain by (rewrite Hd', Hsel; exact Hplain).
      cbn [headers setNonSpecial]. unfold headerName.
      rewrite Hd', Hsel. apply lookup_insert_eq.
    + unfold sameName. apply String.eqb_refl.
  - intros Hnone. rewrite <- Hh.
    refine (fold_SetHeader_skip host (named "Host" reqw) _ r (Headers reqw) Hd _ Hnone).
    intros k' v' r' Hd' Hsel. rewrite SetHeader_host, Hd'.
    unfold named, headerName in Hsel. rewrite Hsel. reflexivity.
  - intros k v Hk Hsel Hsole.
    refine (fold_SetHeader_sole host (named "Host" reqw) removeNewLines
              _ r (Headers reqw) k v Hd _ _ Hk Hsel Hsole).
    + intros k' v' r' Hd' Hsel'. rewrite SetHeader_host, Hd'.
      unfold named, headerName in Hsel'. rewrite Hsel'. reflexivity.
    + intros k' v' r' Hd' Hsel'. rewrite SetHeader_host, Hd'.
      unfold named, headerName in Hsel'. rewrite Hsel'. reflexivity.
  - intros Hnone. rewrite <- Hc.
    refine (fold_SetHeader_skip connectionClose (named "Connection" reqw)
              _ r (Headers reqw) Hd _ Hnone).
    intros k' v' r' Hd' Hsel. rewrite SetHeader_connectionClose, Hd'.
    unfold named, headerName in Hsel. rewrite Hsel. reflexivity.
  - intros k v Hk Hsel Hsole.
    refine (fold_SetHeader_sole connectionClose (named "Connection" reqw)
              (fun v => String.eqb (removeNewLines v) "close")
              _ r (Headers reqw) k v Hd _ _ Hk Hsel Hsole).
    + intros k' v' r' Hd' Hsel'. rewrite SetHeader_connectionClose, Hd'.
      unfold named, headerName in Hsel'. rewrite Hsel'. reflexivity.
    + intros k' v' r' Hd' Hsel'. rewrite SetHeader_connectionClose, Hd'.
      unfold named, headerName in Hsel'. rewrite Hsel'. reflexivity.
Qed.

(** The type of the body is looked at only when the body is sent: a
    body that is no string, buffer or file stream makes the set-up of a
    new request fail for a method that carries a body, and is ignored
    without error for GET and HEAD; on a pooled request it is never an
    error. *)
Theorem body_type_checked_when_sent (reqw : RequestWrapper) (m : string) :
  Body reqw = Some BodyOther ->
  (setBody m (Body reqw) = true ->
     snd (setupNewReq reqw m) = Some (OtherError "req body type not supported" None))
  /\ (setBody m (Body reqw) = false -> snd (setupNewReq reqw m) = None)
  /\ snd (setupCachedReq reqw m) = None.
Proof.
  intros Hbody. unfold setupNewReq, setupCachedReq.
  cbv zeta. cbn [Host withReq withBody Body DisableKeepAlive Headers req Url Throw].
  destruct (String.eqb (Host reqw) "");
    cbn [negb Host withReq withBody Body DisableKeepAlive Headers req Url Throw];
    (split; [intros Hs; rewrite Hs, Hbody; reflexivity
            | split; [intros Hs; rewrite Hs; reflexivity |]]);
    destruct (setBody m (Body reqw)); [rewrite Hbody | | rewrite Hbody |]; reflexivity.
Qed.

(** A file stream as body of a call that carries a body is rewound
    before every use, on a pooled request as on a new one: when the seek
    succeeds the request streams the file from offset 0 and holds no
    body bytes, with an unknown length (-1) on a pooled request, and on
    a new one unless the wrapper has a Content-Length header, which is
    set after the stream; when the seek fails the set-up fails with that
    error and writes one line to the log. *)
Theorem stream_rewound_before_use (reqw : RequestWrapper) (m : string) (f : File) :
  Body reqw = Some (BodyFileStream f) ->
  setBody m (Body reqw) = true ->
  (seekErr f = None ->
     (exists reqw',
        setupCachedReq reqw m = (reqw', [], None)
        /\ bodyStream (req reqw') = Some {| offset := 0; seekErr := None |}
        /\ contentLength (req reqw') = -1
        /\ body (req reqw') = ""
        /\ Body reqw' = Some (BodyFileStream {| offset := 0; seekErr := None |}))
     /\ (exists reqw',
          setupNewReq reqw m = (reqw', [], None)
          /\ bodyStream (req reqw') = Some {| offset := 0; seekErr := None |}
          /\ (absent "Content-Length" reqw -> contentLength (req reqw') = -1)
          /\ body (req reqw') = ""
          /\ Body reqw' = Some (BodyFileStream {| offset := 0; seekErr := None |})))
  /\ (forall e, seekErr f = Some e ->
       setupCachedReq reqw m = (reqw, ["Failed to reset stream to beginning"], Some e)
       /\ snd (setupNewReq reqw m) = Some e
       /\ snd (fst (setupNewReq reqw m)) = ["Failed to reset stream to beginning"]).
Proof.
  intros Hbody Hset.
  assert (Hcached : setupCachedReq reqw m
                    = match Seek0 f with
                      | inr err => (reqw, ["Failed to reset stream to beginning"], Some err)
                      | inl f' =>
                          (withReq (SetBodyStream (Some f') (-1) (req reqw))
                             (withBody (Some (BodyFileStream f')) reqw), [], None)
                      end).
  { unfold setupCachedReq. rewrite Hset, Hbody. reflexivity. }
  rewrite setupNewReq_steps, Hset, Hbody, Hcached. unfold Seek0. split.
  - intros Hseek. rewrite Hseek. split.
    + eexists. split; [reflexivity |]. repeat split; reflexivity.
    + eexists. split; [reflexivity |]. cbn [req withReq Body withBody].
      unfold finished.
      set (r := if DisableKeepAlive reqw
                then SetConnectionClose
                       (SetBodyStream (Some {| offset := 0; seekErr := None |}) (-1)
                          (addressed reqw))
                else SetBodyStream (Some {| offset := 0; seekErr := None |}) (-1)
                       (addressed reqw)).
      assert (Hr : disableNormalizing r = disableNormalizing (req reqw)
                   /\ bodyStream r = Some {| offset := 0; seekErr := None |}
                   /\ body r = ""
                   /\ contentLength r = -1).
      { subst r. unfold addressed.
        destruct (DisableKeepAlive reqw), (String.eqb (Host reqw) "");
          repeat split; reflexivity. }
      destruct Hr as (Hd & Hs & Hb & Hl).
      destruct (set_headers (Headers reqw) r) as (_ & _ & _ & _ & Hb' & Hs').
      cbn [bodyStream contentLength body SetMethod].
      rewrite Hb', Hs', Hb, Hs.
      split; [reflexivity |]. split; [| split; reflexivity].
      intros Hnone. rewrite <- Hl.
      refine (fold_SetHeader_skip contentLength (named "Content-Length" reqw)
                _ r (Headers reqw) Hd _ Hnone).
      intros k' v' r' Hd' Hsel. rewrite SetHeader_contentLength, Hd'.
      unfold named, headerName in Hsel. rewrite Hsel. reflexivity.
  - intros e Hseek. rewrite Hseek. repeat split; reflexivity.
Qed.

(** *** Status checks *)

Section Checks.
Context {Value : Type}.
Context (ApplyCustomUserTags : K6.TagsAndMeta -> Value -> K6.TagsAndMeta + error).
Context (NewCheckError : string -> option error).

(** A check that returns an error returns false, pushes no sample and
    leaves the checks of the group as they were, in both versions; and
    no call pushes more than one sample, or any under a context that is
    done. *)
Theorem check_error_pushes_nothing (vu : VU) (want : Z) (r : option Exported)
    (extras : list Value) :
  (forall e, failure (Sobek.CheckStatus ApplyCustomUserTags vu want r extras) = Some e ->
     passed (Sobek.CheckStatus ApplyCustomUserTags vu want r extras) = false
     /\ pushed (Sobek.CheckStatus ApplyCustomUserTags vu want r extras) = [])
  /\ (forall e, failure (Goja.CheckStatus ApplyCustomUserTags NewCheckError vu want r extras)
               = Some e ->
      passed (Goja.CheckStatus ApplyCustomUserTags NewCheckError vu want r extras) = false
      /\ pushed (Goja.CheckStatus ApplyCustomUserTags NewCheckError vu want r extras) = []
      /\ (forall state, vuState vu = Some state ->
            groupAfter (Goja.CheckStatus ApplyCustomUserTags NewCheckError vu want r extras)
            = Group state))
  /\ (length (pushed (Sobek.CheckStatus ApplyCustomUserTags vu want r extras)) <= 1)%nat
  /\ (length (pushed (Goja.CheckStatus ApplyCustomUserTags NewCheckError vu want r extras))
      <= 1)%nat
  /\ (Done (vuContext vu) = true ->
      pushed (Sobek.CheckStatus ApplyCustomUserTags vu want r extras) = []
      /\ pushed (Goja.CheckStatus ApplyCustomUserTags NewCheckError vu want r extras) = []).
Proof.
  unfold Sobek.CheckStatus, Goja.CheckStatus, checkPrologue, pushSample.
  destruct (vuState vu) as [state |];
    [| simpl; repeat split; auto; intros; discriminate].
  destruct r as [[resp |] |];
    try (simpl; repeat split; auto; intros ? Hs; injection Hs as <-; reflexivity).
  assert (Htags : exists o : K6.TagsAndMeta + error,
            match extras with
            | [] => inl (state, resp, CurrentTags state)
            | extra :: _ =>
                match ApplyCustomUserTags (CurrentTags state) extra with
                | inl tm => inl (state, resp, tm)
                | inr err => inr (checkFails err (Group state))
                end
            end
            = match o with
              | inl tm => inl (state, resp, tm)
              | inr err => inr (checkFails err (Group state))
              end).
  { destruct extras as [| extra extras]; [exists (inl (CurrentTags state)); reflexivity |].
    destruct (ApplyCustomUserTags _ extra) as [tm | err];
      [exists (inl tm) | exists (inr err)]; reflexivity. }
  destruct Htags as [[tm | err] ->];
    [| simpl; repeat split; auto; intros ? Hs; injection Hs as <-; reflexivity].
  destruct (GroupCheck _ _ _) as [[check group] | err]; simpl;
    destruct (Z.eqb (Status resp) want); simpl;
    destruct (Done (vuContext vu)); simpl;
    repeat split; auto; try discriminate;
    intros ? Hs; injection Hs as <-; reflexivity.
Qed.

(** The goja version counts each check that it records: after a call
    that returns no error, the check named after the wanted status has
    one pass more when the statuses are equal and one fail more when they
    are not, counted from 0 when the group did not have it; every other
    check of the group is as before. *)
Theorem goja_counts_checks (vu : VU) (state : K6.State) (want : Z)
    (r : option Exported) (extras : list Value) :
  vuState vu = Some state ->
  failure (Goja.CheckStatus ApplyCustomUserTags NewCheckError vu want r extras) = None ->
  exists c,
    groupAfter (Goja.CheckStatus ApplyCustomUserTags NewCheckError vu want r extras)
      !! ("check status is " +:+ Itoa want) = Some c
    /\ Passes c
       = match Group state !! ("check status is " +:+ Itoa want) with
         | Some c0 => Passes c0
         | None => 0
         end
         + (if passed (Goja.CheckStatus ApplyCustomUserTags NewCheckError vu want r extras)
            then 1 else 0)
    /\ Fails c
       = match Group state !! ("check status is " +:+ Itoa want) with
         | Some c0 => Fails c0
         | None => 0
         end
         + (if passed (Goja.CheckStatus ApplyCustomUserTags NewCheckError vu want r extras)
            then 0 else 1)
    /\ (forall name, name <> "check status is " +:+ Itoa want ->
          groupAfter (Goja.CheckStatus ApplyCustomUserTags NewCheckError vu want r extras)
            !! name = Group state !! name).
Proof.
  intros Hstate. unfold Goja.CheckStatus, checkPrologue. rewrite Hstate.
  destruct r as [[resp |] |]; try discriminate.
  destruct extras as [| extra extras];
    [| destruct (ApplyCustomUserTags _ extra); [| discriminate]];
    unfold GroupCheck;
    (destruct (Group state !! ("check status is " +:+ Itoa want)) as [c0 |] eqn:Hlook;
     [| destruct (NewCheckError _); [discriminate |]]);
    intros _; simpl;
    destruct (Z.eqb (Status resp) want); simpl;
    (eexists; split; [apply lookup_insert_eq |]); simpl;
    (split; [lia | split; [lia |]]);
    intros name Hne; rewrite !lookup_insert_ne by congruence; reflexivity.
Qed.

(** The two versions return the same: whenever the sobek version
    returns an error the goja version returns that error, and when the
    goja version returns no error both return the same value. *)
Theorem versions_return_the_same (vu : VU) (want : Z) (r : option Exported)
    (extras : list Value) :
  (forall e, failure (Sobek.CheckStatus ApplyCustomUserTags vu want r extras) = Some e ->
     failure (Goja.CheckStatus ApplyCustomUserTags NewCheckError vu want r extras) = Some e)
  /\ (failure (Goja.CheckStatus ApplyCustomUserTags NewCheckError vu want r extras) = None ->
      failure (Sobek.CheckStatus ApplyCustomUserTags vu want r extras) = None
      /\ passed (Sobek.CheckStatus ApplyCustomUserTags vu want r extras)
         = passed (Goja.CheckStatus ApplyCustomUserTags NewCheckError vu want r extras)).
Proof.
  unfold Sobek.CheckStatus, Goja.CheckStatus, checkPrologue.
  destruct (vuState vu) as [state |]; [| split; [auto | discriminate]].
  destruct r as [[resp |] |]; try (split; [auto | discriminate]).
  destruct extras as [| extra extras];
    [| destruct (ApplyCustomUserTags _ extra); [| split; [auto | discriminate]]];
    (split; [discriminate |]);
    (destruct (GroupCheck _ _ _) as [[check group] | err]; [| discriminate]);
    simpl; destruct (Z.eqb (Status resp) want); auto.
Qed.

End Checks.

Lemma setupNewReq_text_body_witness :
  exists reqw',
    setupNewReq SampleMore.labelled MethodPost = (reqw', [], None)
    /\ method (req reqw') = "POST"
    /\ body (req reqw') = "payload"
    /\ headers (req reqw') !! "X-Token" = Some "abc"
    /\ host (req reqw') = "b.test"
    /\ connectionClose (req reqw') = true.
Proof.
  destruct (setupNewReq_text_body SampleMore.labelled MethodPost "payload" eq_refl eq_refl)
    as (reqw' & Hrun & _ & Hm & Hb & _ & _ & Hlist & _ & Hhost & Hclose & _).
  exists reqw'. split; [exact Hrun |]. split; [exact Hm |]. split; [exact Hb |].
  split; [| split].
  - apply (Hlist "x-token" "abc"); [reflexivity | reflexivity |].
    unfold sole, absent. apply (bool_decide_unpack _). vm_compute. exact I.
  - apply (Hhost "host" "b.test"); [reflexivity | reflexivity |].
    unfold sole, absent. apply (bool_decide_unpack _). vm_compute. exact I.
  - apply Hclose. unfold sole, absent. apply (bool_decide_unpack _). vm_compute. exact I.
Defined.

Lemma body_type_checked_when_sent_witness :
  snd (setupNewReq SampleMore.odd MethodPost)
  = Some (OtherError "req body type not supported" None)
  /\ snd (setupNewReq SampleMore.odd MethodGet) = None
  /\ snd (setupCachedReq SampleMore.odd MethodPost) = None.
Proof.
  split; [| split].
  - exact (proj1 (body_type_checked_when_sent SampleMore.odd MethodPost eq_refl) eq_refl).
  - exact (proj1 (proj2 (body_type_checked_when_sent SampleMore.odd MethodGet eq_refl))
             eq_refl).
  - exact (proj2 (proj2 (body_type_checked_when_sent SampleMore.odd MethodPost eq_refl))).
Defined.

Lemma stream_rewound_before_use_witness :
  (exists reqw',
     setupCachedReq (SampleMore.streaming SampleMore.openFile) MethodPost = (reqw', [], None)
     /\ bodyStream (req reqw') = Some {| offset := 0; seekErr := None |}
     /\ contentLength (req reqw') = -1
     /\ body (req reqw') = ""
     /\ Body reqw' = Some (BodyFileStream {| offset := 0; seekErr := None |}))
  /\ (exists reqw',
        setupNewReq (SampleMore.streaming SampleMore.openFile) MethodPost = (reqw', [], None)
        /\ bodyStream (req reqw') = Some {| offset := 0; seekErr := None |}
        /\ contentLength (req reqw') = -1)
  /\ setupCachedReq (SampleMore.streaming SampleMore.closedFile) MethodPost
     = (SampleMore.streaming SampleMore.closedFile,
        ["Failed to reset stream to beginning"],
        Some (OtherError "seek: file already closed" None))
  /\ contentLength
       (req (fst (fst (setupNewReq (SampleMore.labelledStream SampleMore.openFile)
                         MethodPost))))
     = 5.
Proof.
  split; [| split; [| split]].
  - exact (proj1 (proj1 (stream_rewound_before_use
                           (SampleMore.streaming SampleMore.openFile) MethodPost
                           SampleMore.openFile eq_refl eq_refl) eq_refl)).
  - destruct (proj2 (proj1 (stream_rewound_before_use
                              (SampleMore.streaming SampleMore.openFile) MethodPost
                              SampleMore.openFile eq_refl eq_refl) eq_refl))
      as (reqw' & Hrun & Hstream & Hlength & _).
    exists reqw'. split; [exact Hrun |]. split; [exact Hstream |].
    apply Hlength. unfold sole, absent. apply (bool_decide_unpack _). vm_compute. exact I.
  - exact (proj1 (proj2 (stream_rewound_before_use
                           (SampleMore.streaming SampleMore.closedFile) MethodPost
                           SampleMore.closedFile eq_refl eq_refl) _ eq_refl)).
  - vm_compute. reflexivity.
Defined.

Lemma goja_counts_checks_witness :
  exists c,
    groupAfter (Goja.CheckStatus applyTags (fun _ => None) SampleMore.countedVU 200
                  (Some (ExportedResponse {| Status := 404 |})) [])
      !! ("check status is " +:+ Itoa 200) = Some c
    /\ Passes c = 3 + 0
    /\ Fails c = 1 + 1.
Proof.
  destruct (goja_counts_checks applyTags (fun _ => None) SampleMore.countedVU
              SampleMore.countedState 200
              (Some (ExportedResponse {| Status := 404 |})) [] eq_refl eq_refl)
    as (c & Hc & Hp & Hf & _).
  exists c. split; [exact Hc |]. split; [exact Hp | exact Hf].
Defined.

Lemma setupCachedReq_without_body_witness :
  exists reqw',
    setupCachedReq (withReq (SetBody "old payload" (SetMethod MethodPost afterGet)) postable)
      MethodGet
    = (reqw', [], None)
    /\ method (req reqw') = MethodGet
    /\ body (req reqw') = ""
    /\ bodyStream (req reqw') = None.
Proof.
  exact (FasthttpProps.setupCachedReq_without_body
           (withReq (SetBody "old payload" (SetMethod MethodPost afterGet)) postable)
           MethodGet eq_refl).
Defined.

Lemma setupNewReq_sets_method_witness :
  method (req (fst (fst (setupNewReq (SampleMore.streaming SampleMore.openFile) "PUT"))))
  = "PUT".
Proof.
  exact (FasthttpProps.setupNewReq_sets_method
           (SampleMore.streaming SampleMore.openFile)
           (fst (fst (setupNewReq (SampleMore.streaming SampleMore.openFile) "PUT")))
           "PUT" [] eq_refl).
Defined.

Lemma Sobek_passed_witness :
  exists resp,
    Some (ExportedResponse {| Status := 404 |}) = Some (ExportedResponse resp)
    /\ passed (Sobek.CheckStatus applyTags vu 200
                 (Some (ExportedResponse {| Status := 404 |})) [])
       = Z.eqb (Status resp) 200.
Proof.
  exact (FasthttpProps.Sobek_passed applyTags vu 200
           (Some (ExportedResponse {| Status := 404 |})) [] eq_refl).
Defined.

End FasthttpExtra.
